(** * Knowledge Platform MCP server: tool dispatch and query translation

    A shallow embedding of the two transport bindings of the MCP server,
    [apps/mcp-server/src/index.ts] (stdio) and
    [apps/mcp-server/src/sse-server.ts] (SSE over HTTP), and the properties
    of their tool handlers and dispatch loops.

    Modelling conventions.
    - JSON data whose TypeScript type is [any] (the hits and documents the
      search engine returns, the values the handlers hand to
      [JSON.stringify]) is a [JsVal]; property access, [||], [?.] and
      [.slice] follow JavaScript on those values, including the [TypeError]
      raised by a property access on [undefined]/[null].
    - Tool arguments have the types the handlers declare; because the
      dispatch code casts them with [as any] and checks nothing, every
      field may be absent ([None] is JavaScript's [undefined]) and so may
      the argument object itself.
    - Numbers are integers ([Z]); strings are sequences of code units
      ([string]).
    - The search engine is an oracle ([Backend]); the handlers run in a
      monad that threads the log of the calls made to it and can throw.
    - Logging ([logger.info] and the like) has no influence on results and
      is left out. *)

From Stdlib Require Import String Ascii List ZArith Lia Bool Permutation Sorted.
Import ListNotations.
Local Open Scope string_scope.
Local Open Scope Z_scope.

(** ** JavaScript values *)

#[local] Set Warnings "-register-all".

Inductive JsVal : Type :=
| VUndefined
| VNull
| VBool (b : bool)
| VNum (n : Z)
| VStr (s : string)
| VArr (l : list JsVal)
| VObj (fields : list (string * JsVal)).

Inductive ErrorKind : Type :=
| KError            (* new Error(...) thrown by the handlers *)
| KTypeError        (* raised by the JavaScript runtime *)
| KDocumentNotFound (* the engine's answer to an unknown identifier *)
| KApiError         (* any other error answer of the engine *)
| KCommunication.   (* the engine could not be reached *)

Record JsError : Type := mkError { err_kind : ErrorKind; message : string }.

(** A computation that may throw and has no other effect. *)
Definition Exc (A : Type) : Type := (JsError + A)%type.

Definition exc_bind {A B} (m : Exc A) (k : A -> Exc B) : Exc B :=
  match m with
  | inl e => inl e
  | inr a => k a
  end.

(** The double quote, which the filter templates put around values. *)
Definition dq : string := String (ascii_of_nat 34) EmptyString.

(** ToBoolean on the values JSON can carry. *)
Definition truthy (v : JsVal) : bool :=
  match v with
  | VUndefined | VNull => false
  | VBool b => b
  | VNum n => negb (n =? 0)
  | VStr s => negb (String.eqb s "")
  | VArr _ | VObj _ => true
  end.

(** [a || b] where [b] is a value at hand. *)
Definition or_else (a b : JsVal) : JsVal := if truthy a then a else b.

Fixpoint lookup_field {A} (k : string) (fields : list (string * A)) : option A :=
  match fields with
  | [] => None
  | (k', v) :: rest => if String.eqb k k' then Some v else lookup_field k rest
  end.

Definition nullish (v : JsVal) : bool :=
  match v with
  | VUndefined | VNull => true
  | _ => false
  end.

(** [v.k] for the property names the handlers read (none of them is a
    built-in property of a string, an array, a number or a boolean). The
    fields of an object have distinct names. *)
Definition get (v : JsVal) (k : string) : Exc JsVal :=
  match v with
  | VUndefined =>
      inl (mkError KTypeError
             ("Cannot read properties of undefined (reading '" ++ k ++ "')"))
  | VNull =>
      inl (mkError KTypeError
             ("Cannot read properties of null (reading '" ++ k ++ "')"))
  | VObj fields =>
      inr match lookup_field k fields with
          | Some x => x
          | None => VUndefined
          end
  | _ => inr VUndefined
  end.

(** [v?.k] *)
Definition opt_get (v : JsVal) (k : string) : Exc JsVal :=
  if nullish v then inr VUndefined else get v k.

(** [s.slice(0, n)] on a string, for [n >= 0]. *)
Definition str_slice0 (n : nat) (s : string) : string := String.substring 0 n s.

(** [v?.slice(0, n)]: strings and arrays have a [slice] method; on any other
    non-nullish value the call is a call of [undefined] (or of a JSON value,
    never a function). *)
Definition opt_slice0 (v : JsVal) (n : nat) : Exc JsVal :=
  match v with
  | VUndefined | VNull => inr VUndefined
  | VStr s => inr (VStr (str_slice0 n s))
  | VArr l => inr (VArr (firstn n l))
  | _ => inl (mkError KTypeError "hit._formatted?.content?.slice is not a function")
  end.

(** [xs.join(sep)] on an array of strings. *)
Fixpoint join (sep : string) (xs : list string) : string :=
  match xs with
  | [] => ""
  | [x] => x
  | x :: rest => x ++ sep ++ join sep rest
  end.

(** A template literal's rendering of a string that may be [undefined]. *)
Definition tpl (s : option string) : string :=
  match s with
  | Some x => x
  | None => "undefined"
  end.

(** [xs.map(f)] with an [f] that may throw. *)
Fixpoint map_exc {A B} (f : A -> Exc B) (xs : list A) : Exc (list B) :=
  match xs with
  | [] => inr []
  | x :: rest =>
      exc_bind (f x) (fun y =>
      exc_bind (map_exc f rest) (fun ys => inr (y :: ys)))
  end.

(** [xs.sort(cmp)]: the sort of the language is stable; [x] is placed
    before the first element it does not compare greater than. *)
Fixpoint sort_insert {A} (cmp : A -> A -> Z) (x : A) (l : list A) : list A :=
  match l with
  | [] => [x]
  | y :: rest => if cmp x y <=? 0 then x :: l else y :: sort_insert cmp x rest
  end.

Fixpoint sort {A} (cmp : A -> A -> Z) (l : list A) : list A :=
  match l with
  | [] => []
  | x :: rest => sort_insert cmp x (sort cmp rest)
  end.

(** The numeric value of a property name that is an array index: a decimal
    numeral without a sign or a leading zero, at most [2^32 - 2]. *)
Definition digitValue (c : ascii) : option Z :=
  let n := Z.of_nat (nat_of_ascii c) in
  if (48 <=? n) && (n <=? 57) then Some (n - 48) else None.

Fixpoint digitsValue (acc : Z) (s : string) : option Z :=
  match s with
  | EmptyString => Some acc
  | String c rest =>
      match digitValue c with
      | Some d => digitsValue (10 * acc + d) rest
      | None => None
      end
  end.

Definition arrayIndex (s : string) : option Z :=
  match s with
  | EmptyString => None
  | String c rest =>
      if Ascii.eqb c "0" && negb (String.eqb rest "") then None
      else
        match digitsValue 0 s with
        | Some n => if n <=? 4294967294 then Some n else None
        | None => None
        end
  end.

Definition isIndexKey {A} (m : string * A) : bool :=
  match arrayIndex (fst m) with
  | Some _ => true
  | None => false
  end.

Definition indexOf {A} (m : string * A) : Z :=
  match arrayIndex (fst m) with
  | Some n => n
  | None => 0
  end.

(** [Object.entries(o)] for an object [o] whose members were created in the
    order [members] (for a parsed response, the order of its text): the
    language enumerates own properties with the array indices first, in
    ascending numeric order, and the other names after them in creation
    order. *)
Definition ownEntries {A} (members : list (string * A)) : list (string * A) :=
  (sort (fun a b => indexOf a - indexOf b) (List.filter isIndexKey members)
   ++ List.filter (fun m => negb (isIndexKey m)) members)%list.

(** ** The search engine *)

(** The options object of [index.search]; an absent field is [None]. *)
Record SearchParams : Type := mkParams {
  sp_limit : option Z;
  attributesToHighlight : option (list string);
  highlightPreTag : option string;
  highlightPostTag : option string;
  attributesToRetrieve : option (list string);
  sp_filter : option string;
  facets : option (list string)
}.

(** The engine's answer to a search. The members of a facet map are listed
    in the order of the response text, under distinct names. *)
Record SearchResponse : Type := mkResponse {
  hits : list JsVal;
  estimatedTotalHits : JsVal;
  facetDistribution : option (list (string * list (string * Z)))
}.

(** What the process asks of the engine: [meili.index(i).search(q, p)] and
    [meili.index(i).getDocument(id)]. *)
Inductive Call : Type :=
| CSearch (index : string) (q : option string) (p : SearchParams)
| CGetDocument (index : string) (id : option string).

Record Backend : Type := mkBackend {
  be_search : string -> option string -> SearchParams -> Exc SearchResponse;
  be_getDocument : string -> option string -> Exc JsVal
}.

(** ** The handler monad: reads the engine, logs the calls, may throw *)

Definition M (A : Type) : Type := Backend -> list Call -> Exc A * list Call.

Definition ret {A} (a : A) : M A := fun _ log => (inr a, log).

Definition throw {A} (e : JsError) : M A := fun _ log => (inl e, log).

Definition bind {A B} (m : M A) (k : A -> M B) : M B :=
  fun be log =>
    match m be log with
    | (inl e, log') => (inl e, log')
    | (inr a, log') => k a be log'
    end.

(** [try { body } catch (error) { handler(error) }] *)
Definition try_catch {A} (body : M A) (handler : JsError -> M A) : M A :=
  fun be log =>
    match body be log with
    | (inl e, log') => handler e be log'
    | (inr a, log') => (inr a, log')
    end.

Definition lift {A} (x : Exc A) : M A := fun _ log => (x, log).

Definition search (index : string) (q : option string) (p : SearchParams)
  : M SearchResponse :=
  fun be log => (be_search be index q p, (log ++ [CSearch index q p])%list).

Definition getDocument (index : string) (id : option string) : M JsVal :=
  fun be log => (be_getDocument be index id, (log ++ [CGetDocument index id])%list).

Declare Scope js_scope.
Delimit Scope js_scope with js.
Notation "x <- m ;; k" := (bind m (fun x => k))
  (at level 61, m at next level, right associativity) : js_scope.
Local Open Scope js_scope.

(** ** Configuration, arguments and envelopes shared by the two bindings *)

(** [config]: the two index names, read once from [MEILI_INDEX_NAME]
    (an unset or empty variable is falsy). *)
Record Config : Type := mkConfig {
  indexName : string;
  chunksIndexName : string
}.

Definition config (MEILI_INDEX_NAME : option string) : Config :=
  match MEILI_INDEX_NAME with
  | Some n =>
      if String.eqb n "" then mkConfig "documents" "documents_chunks"
      else mkConfig n (n ++ "_chunks")
  | None => mkConfig "documents" "documents_chunks"
  end.

(** The argument object of a tool call, at the types the handlers declare.
    The dispatch code passes it on with [as any], so any field can be
    missing. A [tags] that is no list of strings is the subject of
    [StdioUntyped] and [SseUntyped] below. *)
Record Arguments : Type := mkArgs {
  arg_query : option string;
  arg_limit : option Z;
  arg_tags : option (list string);
  arg_document_id : option string;
  arg_id : option string;
  arg_question : option string
}.


(** [request.params] of a tools/call request: the SDK's request schema
    guarantees a string [name] and an optional [arguments] object. *)
Record Request : Type := mkRequest {
  name : string;
  arguments : option Arguments
}.

(** [const { p, ... } = args] *)
Definition destructure (args : option Arguments) (p : string) : Exc Arguments :=
  match args with
  | Some a => inr a
  | None =>
      inl (mkError KTypeError
             ("Cannot destructure property '" ++ p
              ++ "' of 'args' as it is undefined."))
  end.

(** [args.p] *)
Definition member {A} (args : option Arguments) (p : string)
  (proj : Arguments -> A) : Exc A :=
  match args with
  | Some a => inr (proj a)
  | None =>
      inl (mkError KTypeError
             ("Cannot read properties of undefined (reading '" ++ p ++ "')"))
  end.

(** A destructuring default, [x = d]. *)
Definition default {A} (d : A) (x : option A) : A :=
  match x with
  | Some v => v
  | None => d
  end.

Definition js_string (s : option string) : JsVal :=
  match s with
  | Some x => VStr x
  | None => VUndefined
  end.

(** The text of a content item is the result of [JSON.stringify]; the
    serializer is the runtime's, and the text is kept as the call that
    produces it. *)
Inductive JsonText : Type :=
| JSON_stringify (value : JsVal) (space : option Z).

Record ContentItem : Type := mkContent { type : string; text : JsonText }.

Record Envelope : Type := mkEnvelope {
  content : list ContentItem;
  isError : option bool
}.

Definition successEnvelope (result : JsVal) : Envelope :=
  mkEnvelope [mkContent "text" (JSON_stringify result (Some 2))] None.

Definition errorEnvelope (msg : string) : Envelope :=
  mkEnvelope
    [mkContent "text" (JSON_stringify (VObj [("error", VStr msg)]) None)]
    (Some true).

(** A tool descriptor and its input schema. *)
Record PropertySchema : Type := mkProp {
  p_type : string;
  p_description : string;
  p_default : option Z;
  p_items : option string
}.

Record InputSchema : Type := mkSchema {
  schema_type : string;
  properties : list (string * PropertySchema);
  required : option (list string)
}.

Record Tool : Type := mkTool {
  tool_name : string;
  tool_description : string;
  inputSchema : InputSchema
}.

(** [hit._formatted?.k] *)
Definition formatted (hit : JsVal) (k : string) : Exc JsVal :=
  exc_bind (get hit "_formatted") (fun f => opt_get f k).

(** The clause of the tag filter, [`tags = "${t}"`]. *)
Definition tagClause (t : string) : string := "tags = " ++ dq ++ t ++ dq.

(** [tags.map((t) => `tags = "${t}"`).join(" OR ")] *)
Definition tagsFilter (tags : list string) : string :=
  join " OR " (map tagClause tags).

Definition unknownTool {A} (name : string) : M A :=
  throw (mkError KError ("Unknown tool: " ++ name)).

Definition documentNotFound {A} (id : option string) : M A :=
  throw (mkError KError ("Document not found: " ++ tpl id)).

(** A template literal that spans several source lines. *)
Definition nl : string := String (ascii_of_nat 10) EmptyString.
Definition lines (ls : list string) : string := join nl ls.

(** ** The stdio binding, [index.ts] *)

Module Stdio.

(** [tools] *)
Definition tools : list Tool :=
  [ mkTool "search_docs"
      (lines
         [ "Search the knowledge base for documents matching a query. Returns titles, paths, and relevant snippets.";
           "    ";
           "Use this tool to find:";
           "- Architecture decisions (ADRs)";
           "- Technical documentation";
           "- Best practices and guidelines";
           "- Historical context about decisions";
           "";
           "Returns up to 10 results by default." ])
      (mkSchema "object"
         [ ("query", mkProp "string"
              "Search query - can be keywords, questions, or natural language"
              None None);
           ("limit", mkProp "number"
              "Maximum number of results (default: 10, max: 50)" (Some 10) None);
           ("tags", mkProp "array" "Filter by tags (optional)" None
              (Some "string")) ]
         (Some ["query"]));
    mkTool "search_chunks"
      (lines
         [ "Search document chunks for more granular results. Use this when you need specific passages or when search_docs returns documents that are too long.";
           "    ";
           "Returns smaller text chunks (~1000 chars) with surrounding context." ])
      (mkSchema "object"
         [ ("query", mkProp "string" "Search query" None None);
           ("limit", mkProp "number" "Maximum number of chunks (default: 10)"
              (Some 10) None);
           ("document_id", mkProp "string"
              "Filter to chunks from a specific document (optional)" None None) ]
         (Some ["query"]));
    mkTool "get_document"
      "Retrieve a specific document by its ID or path. Use this after search_docs to get the full content of a document."
      (mkSchema "object"
         [ ("id", mkProp "string" "Document ID (from search results) or path"
              None None) ]
         (Some ["id"]));
    mkTool "list_tags"
      "List all available tags in the knowledge base. Useful for discovering what topics are documented."
      (mkSchema "object" [] None);
    mkTool "lookup_decision"
      (lines
         [ "Look up why a specific technology or pattern is or isn't used. This is a convenience tool that combines search with answer synthesis.";
           "    ";
           "Example queries:";
           "- " ++ dq ++ "Why don't we use Redis for sessions?" ++ dq;
           "- " ++ dq ++ "What's our GitOps strategy?" ++ dq;
           "- " ++ dq ++ "Why was vpc-foo deprecated?" ++ dq;
           "- " ++ dq ++ "What's the decision on container registry?" ++ dq;
           "";
           "Returns a structured answer with:";
           "- Summary of the decision";
           "- Status (approved, deprecated, rejected, etc.)";
           "- Alternatives (if any)";
           "- Source documents" ])
      (mkSchema "object"
         [ ("question", mkProp "string"
              "Question about a technology decision or pattern" None None) ]
         (Some ["question"])) ].

(** An element of [results] as [handleSearchDocs] builds it. *)
Record DocResult : Type := mkDoc {
  r_id : JsVal;
  r_title : JsVal;
  r_path : JsVal;
  r_description : JsVal;
  r_tags : JsVal;
  r_source_url : JsVal;
  r_updated_at : JsVal;
  r_snippet : JsVal
}.

Record SearchDocsResult : Type := mkDocs {
  total : JsVal;
  results : list DocResult
}.

Record ChunkResult : Type := mkChunk {
  c_id : JsVal;
  c_document_id : JsVal;
  c_title : JsVal;
  c_path : JsVal;
  c_content : JsVal;
  c_chunk_index : JsVal;
  c_total_chunks : JsVal
}.

Record SearchChunksResult : Type := mkChunks {
  chunks_total : JsVal;
  chunks : list ChunkResult
}.

Record TagCount : Type := mkTag { tag : string; count : Z }.

Record ListTagsResult : Type := mkTags { tags : list TagCount }.

(** An element of [relevant_documents]. *)
Record Evidence : Type := mkEvidence {
  e_title : JsVal;
  e_path : JsVal;
  e_description : JsVal;
  e_tags : JsVal;
  e_source_url : JsVal;
  e_snippet : JsVal
}.

(** The two object literals [handleLookupDecision] returns. *)
Inductive DecisionLookupResult : Type :=
| NotFound (message suggestion : string)
| Found (question : option string) (relevant_documents : list Evidence)
        (note : string).

Section Handlers.

Variable cfg : Config.

(** [searchParams] of [handleSearchDocs], with the filter set when
    [tags && tags.length > 0]. *)
Definition searchDocsParams (limit : Z) (tags : option (list string))
  : SearchParams :=
  {| sp_limit := Some (Z.min limit 50);
     attributesToHighlight := Some ["content"; "title"; "description"];
     highlightPreTag := Some "**";
     highlightPostTag := Some "**";
     attributesToRetrieve :=
       Some ["id"; "title"; "path"; "description"; "tags"; "source_url";
             "updated_at"];
     sp_filter :=
       match tags with
       | Some ts => if (0 <? Z.of_nat (length ts)) then Some (tagsFilter ts)
                    else None
       | None => None
       end;
     facets := None |}.

(** [hit._formatted?.description || hit._formatted?.content?.slice(0, 300) || ""] *)
Definition snippet (hit : JsVal) : Exc JsVal :=
  exc_bind (formatted hit "description") (fun d =>
  if truthy d then inr d
  else
    exc_bind (formatted hit "content") (fun c =>
    exc_bind (opt_slice0 c 300) (fun s =>
    inr (or_else s (VStr ""))))).

(** The arrow function mapped over [results.hits]. *)
Definition normalizeHit (hit : JsVal) : Exc DocResult :=
  exc_bind (get hit "id") (fun id =>
  exc_bind (get hit "title") (fun title =>
  exc_bind (get hit "path") (fun path =>
  exc_bind (get hit "description") (fun description =>
  exc_bind (get hit "tags") (fun tags =>
  exc_bind (get hit "source_url") (fun source_url =>
  exc_bind (get hit "updated_at") (fun updated_at =>
  exc_bind (snippet hit) (fun snip =>
  inr {| r_id := id;
         r_title := title;
         r_path := path;
         r_description := or_else description (VStr "");
         r_tags := or_else tags (VArr []);
         r_source_url := source_url;
         r_updated_at := updated_at;
         r_snippet := snip |})))))))).

Definition handleSearchDocs (args : option Arguments) : M SearchDocsResult :=
  a <- lift (destructure args "query") ;;
  let query := arg_query a in
  let limit := default 10 (arg_limit a) in
  let tags := arg_tags a in
  results <- search (indexName cfg) query (searchDocsParams limit tags) ;;
  rs <- lift (map_exc normalizeHit (hits results)) ;;
  ret {| total := estimatedTotalHits results; results := rs |}.

(** [searchParams] of [handleSearchChunks], with the filter set when
    [document_id] is truthy. *)
Definition searchChunksParams (limit : Z) (document_id : option string)
  : SearchParams :=
  {| sp_limit := Some (Z.min limit 50);
     attributesToHighlight := Some ["content"];
     highlightPreTag := Some "**";
     highlightPostTag := Some "**";
     attributesToRetrieve := None;
     sp_filter :=
       if truthy (js_string document_id)
       then Some ("document_id = " ++ dq ++ tpl document_id ++ dq)
       else None;
     facets := None |}.

Definition normalizeChunk (hit : JsVal) : Exc ChunkResult :=
  exc_bind (get hit "id") (fun id =>
  exc_bind (get hit "document_id") (fun document_id =>
  exc_bind (get hit "title") (fun title =>
  exc_bind (get hit "path") (fun path =>
  exc_bind (formatted hit "content") (fun fc =>
  exc_bind (if truthy fc then inr fc else get hit "content") (fun content =>
  exc_bind (get hit "chunk_index") (fun chunk_index =>
  exc_bind (get hit "total_chunks") (fun total_chunks =>
  inr {| c_id := id;
         c_document_id := document_id;
         c_title := title;
         c_path := path;
         c_content := content;
         c_chunk_index := chunk_index;
         c_total_chunks := total_chunks |})))))))).

Definition handleSearchChunks (args : option Arguments) : M SearchChunksResult :=
  a <- lift (destructure args "query") ;;
  let query := arg_query a in
  let limit := default 10 (arg_limit a) in
  let document_id := arg_document_id a in
  results <- search (chunksIndexName cfg) query
               (searchChunksParams limit document_id) ;;
  cs <- lift (map_exc normalizeChunk (hits results)) ;;
  ret {| chunks_total := estimatedTotalHits results; chunks := cs |}.

(** The options of the search by path, [{ filter: `path = "${id}"`, limit: 1 }]. *)
Definition pathParams (id : option string) : SearchParams :=
  {| sp_limit := Some 1;
     attributesToHighlight := None;
     highlightPreTag := None;
     highlightPostTag := None;
     attributesToRetrieve := None;
     sp_filter := Some ("path = " ++ dq ++ tpl id ++ dq);
     facets := None |}.

Definition handleGetDocument (args : option Arguments) : M JsVal :=
  a <- lift (destructure args "id") ;;
  let id := arg_id a in
  try_catch
    (getDocument (indexName cfg) id)
    (fun _ =>
       (* Try searching by path *)
       results <- search (indexName cfg) (Some "") (pathParams id) ;;
       if 0 <? Z.of_nat (length (hits results))
       then ret (nth 0 (hits results) VUndefined)
       else documentNotFound id).

(** The options of the facet query, [{ facets: ["tags"], limit: 0 }]. *)
Definition listTagsParams : SearchParams :=
  {| sp_limit := Some 0;
     attributesToHighlight := None;
     highlightPreTag := None;
     highlightPostTag := None;
     attributesToRetrieve := None;
     sp_filter := None;
     facets := Some ["tags"] |}.

(** [results.facetDistribution?.tags || {}], as its entries. *)
Definition tagCounts (results : SearchResponse) : list (string * Z) :=
  match facetDistribution results with
  | Some fd =>
      match lookup_field "tags" fd with
      | Some counts => counts
      | None => []
      end
  | None => []
  end.

(** [Object.entries(tagCounts).map(([tag, count]) => ({ tag, count }))]; the
    facet map is given by its members in the order of the engine's
    response. *)
Definition tagEntries (counts : list (string * Z)) : list TagCount :=
  map (fun '(t, c) => mkTag t c) (ownEntries counts).

Definition handleListTags : M ListTagsResult :=
  results <- search (indexName cfg) (Some "") listTagsParams ;;
  ret {| tags :=
           sort (fun a b => count b - count a)
             (tagEntries (tagCounts results)) |}.

(** The arrow function mapped over [results.results]. *)
Definition evidenceOf (doc : DocResult) : Evidence :=
  {| e_title := r_title doc;
     e_path := r_path doc;
     e_description := r_description doc;
     e_tags := r_tags doc;
     e_source_url := r_source_url doc;
     e_snippet := r_snippet doc |}.

Definition handleLookupDecision (args : option Arguments)
  : M DecisionLookupResult :=
  a <- lift (destructure args "question") ;;
  let question := arg_question a in
  docs <- handleSearchDocs
            (Some (mkArgs question (Some 5) None None None None)) ;;
  if (Z.of_nat (length (results docs)) =? 0)
  then ret (NotFound "No relevant decisions found for this question."
              "Try rephrasing your question or use search_docs with different keywords.")
  else ret (Found question
              (map evidenceOf (results docs))
              "Synthesize an answer from these documents. If the answer is unclear, say so.").

End Handlers.

(** The handlers' results as the values handed to [JSON.stringify]. *)
Definition docResultJs (d : DocResult) : JsVal :=
  VObj [ ("id", r_id d); ("title", r_title d); ("path", r_path d);
         ("description", r_description d); ("tags", r_tags d);
         ("source_url", r_source_url d); ("updated_at", r_updated_at d);
         ("snippet", r_snippet d) ].

Definition searchDocsJs (r : SearchDocsResult) : JsVal :=
  VObj [ ("total", total r); ("results", VArr (map docResultJs (results r))) ].

Definition chunkResultJs (c : ChunkResult) : JsVal :=
  VObj [ ("id", c_id c); ("document_id", c_document_id c);
         ("title", c_title c); ("path", c_path c); ("content", c_content c);
         ("chunk_index", c_chunk_index c);
         ("total_chunks", c_total_chunks c) ].

Definition searchChunksJs (r : SearchChunksResult) : JsVal :=
  VObj [ ("total", chunks_total r);
         ("chunks", VArr (map chunkResultJs (chunks r))) ].

Definition listTagsJs (r : ListTagsResult) : JsVal :=
  VObj [ ("tags",
          VArr (map (fun t => VObj [("tag", VStr (tag t)); ("count", VNum (count t))])
                    (tags r))) ].

Definition evidenceJs (e : Evidence) : JsVal :=
  VObj [ ("title", e_title e); ("path", e_path e);
         ("description", e_description e); ("tags", e_tags e);
         ("source_url", e_source_url e); ("snippet", e_snippet e) ].

Definition decisionJs (r : DecisionLookupResult) : JsVal :=
  match r with
  | NotFound message suggestion =>
      VObj [ ("found", VBool false); ("message", VStr message);
             ("suggestion", VStr suggestion) ]
  | Found question relevant_documents note =>
      VObj [ ("found", VBool true); ("question", js_string question);
             ("relevant_documents", VArr (map evidenceJs relevant_documents));
             ("note", VStr note) ]
  end.

(** The [switch] of the tools/call handler. *)
Definition runTool (cfg : Config) (req : Request) : M JsVal :=
  let args := arguments req in
  if String.eqb (name req) "search_docs" then
    r <- handleSearchDocs cfg args ;; ret (searchDocsJs r)
  else if String.eqb (name req) "search_chunks" then
    r <- handleSearchChunks cfg args ;; ret (searchChunksJs r)
  else if String.eqb (name req) "get_document" then
    handleGetDocument cfg args
  else if String.eqb (name req) "list_tags" then
    r <- handleListTags cfg ;; ret (listTagsJs r)
  else if String.eqb (name req) "lookup_decision" then
    r <- handleLookupDecision cfg args ;; ret (decisionJs r)
  else unknownTool (name req).

(** The tools/call request handler: the [switch] inside [try], the error
    envelope in [catch]. *)
Definition callTool (cfg : Config) (req : Request) : M Envelope :=
  try_catch
    (result <- runTool cfg req ;; ret (successEnvelope result))
    (fun error => ret (errorEnvelope (message error))).

(** The tools/list request handler. *)
Definition listTools : list Tool := tools.

End Stdio.

(** ** The SSE binding, [sse-server.ts] *)

Module Sse.

(** [tools] *)
Definition tools : list Tool :=
  [ mkTool "search_docs"
      "Search the knowledge base for documents matching a query."
      (mkSchema "object"
         [ ("query", mkProp "string" "Search query" None None);
           ("limit", mkProp "number" "Max results (default: 10)" None None);
           ("tags", mkProp "array" "Filter by tags" None (Some "string")) ]
         (Some ["query"]));
    mkTool "search_chunks"
      "Search document chunks for granular results."
      (mkSchema "object"
         [ ("query", mkProp "string" "Search query" None None);
           ("limit", mkProp "number" "Max chunks (default: 10)" None None);
           ("document_id", mkProp "string" "Filter to specific document"
              None None) ]
         (Some ["query"]));
    mkTool "get_document"
      "Retrieve a specific document by ID."
      (mkSchema "object"
         [ ("id", mkProp "string" "Document ID or path" None None) ]
         (Some ["id"]));
    mkTool "lookup_decision"
      "Look up why a technology/pattern is or isn't used."
      (mkSchema "object"
         [ ("question", mkProp "string" "Question about a decision" None None) ]
         (Some ["question"])) ].

(** An element of [results] as this file's [handleSearchDocs] builds it. *)
Record DocResult : Type := mkDoc {
  r_id : JsVal;
  r_title : JsVal;
  r_path : JsVal;
  r_tags : JsVal;
  r_snippet : JsVal
}.

Record SearchDocsResult : Type := mkDocs {
  total : JsVal;
  results : list DocResult
}.

(** [chunks] is [results.hits] as the engine returned it. *)
Record SearchChunksResult : Type := mkChunks {
  chunks_total : JsVal;
  chunks : list JsVal
}.

Inductive DecisionLookupResult : Type :=
| NotFound (message : string)
| Found (question : option string) (relevant_documents : list DocResult).

Section Handlers.

Variable cfg : Config.

(** [searchParams] of [handleSearchDocs], with the filter set when
    [tags?.length] is truthy. *)
Definition searchDocsParams (limit : Z) (tags : option (list string))
  : SearchParams :=
  {| sp_limit := Some (Z.min limit 50);
     attributesToHighlight := Some ["content"; "title"];
     highlightPreTag := Some "**";
     highlightPostTag := Some "**";
     attributesToRetrieve := None;
     sp_filter :=
       match tags with
       | Some ts => if truthy (VNum (Z.of_nat (length ts)))
                    then Some (tagsFilter ts) else None
       | None => None
       end;
     facets := None |}.

(** [hit._formatted?.content?.slice(0, 300) || ""] *)
Definition snippet (hit : JsVal) : Exc JsVal :=
  exc_bind (formatted hit "content") (fun c =>
  exc_bind (opt_slice0 c 300) (fun s =>
  inr (or_else s (VStr "")))).

Definition normalizeHit (hit : JsVal) : Exc DocResult :=
  exc_bind (get hit "id") (fun id =>
  exc_bind (get hit "title") (fun title =>
  exc_bind (get hit "path") (fun path =>
  exc_bind (get hit "tags") (fun tags =>
  exc_bind (snippet hit) (fun snip =>
  inr {| r_id := id;
         r_title := title;
         r_path := path;
         r_tags := or_else tags (VArr []);
         r_snippet := snip |}))))).

Definition handleSearchDocs (args : option Arguments) : M SearchDocsResult :=
  a <- lift (destructure args "query") ;;
  let query := arg_query a in
  let limit := default 10 (arg_limit a) in
  let tags := arg_tags a in
  results <- search (indexName cfg) query (searchDocsParams limit tags) ;;
  rs <- lift (map_exc normalizeHit (hits results)) ;;
  ret {| total := estimatedTotalHits results; results := rs |}.

(** [{ limit }], with the filter set when [document_id] is truthy. *)
Definition searchChunksParams (limit : Z) (document_id : option string)
  : SearchParams :=
  {| sp_limit := Some limit;
     attributesToHighlight := None;
     highlightPreTag := None;
     highlightPostTag := None;
     attributesToRetrieve := None;
     sp_filter :=
       if truthy (js_string document_id)
       then Some ("document_id = " ++ dq ++ tpl document_id ++ dq)
       else None;
     facets := None |}.

Definition handleSearchChunks (args : option Arguments) : M SearchChunksResult :=
  a <- lift (destructure args "query") ;;
  let query := arg_query a in
  let limit := default 10 (arg_limit a) in
  let document_id := arg_document_id a in
  results <- search (chunksIndexName cfg) query
               (searchChunksParams limit document_id) ;;
  ret {| chunks_total := estimatedTotalHits results; chunks := hits results |}.

Definition pathParams (id : option string) : SearchParams :=
  {| sp_limit := Some 1;
     attributesToHighlight := None;
     highlightPreTag := None;
     highlightPostTag := None;
     attributesToRetrieve := None;
     sp_filter := Some ("path = " ++ dq ++ tpl id ++ dq);
     facets := None |}.

(** [args.id] is read inside [try] and again inside [catch]. *)
Definition handleGetDocument (args : option Arguments) : M JsVal :=
  try_catch
    (id <- lift (member args "id" arg_id) ;;
     getDocument (indexName cfg) id)
    (fun _ =>
       id <- lift (member args "id" arg_id) ;;
       results <- search (indexName cfg) (Some "") (pathParams id) ;;
       if truthy (VNum (Z.of_nat (length (hits results))))
       then ret (nth 0 (hits results) VUndefined)
       else
         id' <- lift (member args "id" arg_id) ;;
         documentNotFound id').

Definition handleLookupDecision (args : option Arguments)
  : M DecisionLookupResult :=
  question <- lift (member args "question" arg_question) ;;
  docs <- handleSearchDocs
            (Some (mkArgs question (Some 5) None None None None)) ;;
  if negb (truthy (VNum (Z.of_nat (length (results docs)))))
  then ret (NotFound "No relevant decisions found.")
  else
    question' <- lift (member args "question" arg_question) ;;
    ret (Found question' (results docs)).

End Handlers.

Definition docResultJs (d : DocResult) : JsVal :=
  VObj [ ("id", r_id d); ("title", r_title d); ("path", r_path d);
         ("tags", r_tags d); ("snippet", r_snippet d) ].

Definition searchDocsJs (r : SearchDocsResult) : JsVal :=
  VObj [ ("total", total r); ("results", VArr (map docResultJs (results r))) ].

Definition searchChunksJs (r : SearchChunksResult) : JsVal :=
  VObj [ ("total", chunks_total r); ("chunks", VArr (chunks r)) ].

Definition decisionJs (r : DecisionLookupResult) : JsVal :=
  match r with
  | NotFound message =>
      VObj [ ("found", VBool false); ("message", VStr message) ]
  | Found question relevant_documents =>
      VObj [ ("found", VBool true); ("question", js_string question);
             ("relevant_documents", VArr (map docResultJs relevant_documents)) ]
  end.

(** The [switch] of the tools/call handler. *)
Definition runTool (cfg : Config) (req : Request) : M JsVal :=
  let args := arguments req in
  if String.eqb (name req) "search_docs" then
    r <- handleSearchDocs cfg args ;; ret (searchDocsJs r)
  else if String.eqb (name req) "search_chunks" then
    r <- handleSearchChunks cfg args ;; ret (searchChunksJs r)
  else if String.eqb (name req) "get_document" then
    handleGetDocument cfg args
  else if String.eqb (name req) "lookup_decision" then
    r <- handleLookupDecision cfg args ;; ret (decisionJs r)
  else unknownTool (name req).

Definition callTool (cfg : Config) (req : Request) : M Envelope :=
  try_catch
    (result <- runTool cfg req ;; ret (successEnvelope result))
    (fun error => ret (errorEnvelope (message error))).

Definition listTools : list Tool := tools.

End Sse.

(** ** A [tags] argument of any shape

    The dispatch passes the arguments on with [as any], so [tags] can hold
    any JSON value. [handleSearchDocs] is the one handler that reads it;
    this part embeds the handler and the dispatch of both bindings with
    [tags] as the JSON value it is, the other fields as in [Arguments]. *)

(** What the embedding leaves to the runtime: Number::toString, and
    whether a string, read as a number by ToNumber, is greater than zero. *)
Record Runtime : Type := mkRuntime {
  numberToString : Z -> string;
  numericStringPositive : string -> bool
}.

Definition notPrimitive : JsError :=
  mkError KTypeError "Cannot convert object to primitive value".

Section Conversions.

Variable rt : Runtime.

(** ToString on the values JSON can carry. An array is joined with commas,
    [null] and [undefined] elements as empty strings. An object has the
    [toString] of [Object.prototype], unless it has a field [toString] of
    its own: that field is no function, [valueOf] returns the object, and
    the conversion throws. *)
Fixpoint toString (v : JsVal) : Exc string :=
  match v with
  | VUndefined => inr "undefined"
  | VNull => inr "null"
  | VBool b => inr (if b then "true" else "false")
  | VNum n => inr (numberToString rt n)
  | VStr s => inr s
  | VArr l =>
      exc_bind
        ((fix elements (l : list JsVal) : Exc (list string) :=
            match l with
            | [] => inr []
            | x :: rest =>
                exc_bind (if nullish x then inr "" else toString x) (fun s =>
                exc_bind (elements rest) (fun ss => inr (s :: ss)))
            end) l)
        (fun ss => inr (join "," ss))
  | VObj fields =>
      match lookup_field "toString" fields with
      | Some _ => inl notPrimitive
      | None => inr "[object Object]"
      end
  end.

(** [v > 0]: [undefined] is not a number, [null] is zero, [true] is one;
    an array or an object is compared through its string. *)
Definition greaterThanZero (v : JsVal) : Exc bool :=
  match v with
  | VUndefined | VNull => inr false
  | VBool b => inr b
  | VNum n => inr (0 <? n)
  | VStr s => inr (numericStringPositive rt s)
  | VArr _ | VObj _ =>
      exc_bind (toString v) (fun s => inr (numericStringPositive rt s))
  end.

(** [v.length] for a [v] that is neither [null] nor [undefined]. *)
Definition lengthOf (v : JsVal) : JsVal :=
  match v with
  | VStr s => VNum (Z.of_nat (String.length s))
  | VArr l => VNum (Z.of_nat (length l))
  | VObj fields =>
      match lookup_field "length" fields with
      | Some x => x
      | None => VUndefined
      end
  | _ => VUndefined
  end.

(** [tags.map((t) => `tags = "${t}"`).join(" OR ")]: only an array has a
    [map]. *)
Definition tagsFilterOf (tags : JsVal) : Exc string :=
  match tags with
  | VArr l =>
      exc_bind
        (map_exc (fun t => exc_bind (toString t) (fun s => inr (tagClause s))) l)
        (fun cs => inr (join " OR " cs))
  | _ => inl (mkError KTypeError "tags.map is not a function")
  end.

End Conversions.

(** [searchParams.filter = f], when [f] is set. *)
Definition withFilter (p : SearchParams) (f : option string) : SearchParams :=
  {| sp_limit := sp_limit p;
     attributesToHighlight := attributesToHighlight p;
     highlightPreTag := highlightPreTag p;
     highlightPostTag := highlightPostTag p;
     attributesToRetrieve := attributesToRetrieve p;
     sp_filter := match f with Some _ => f | None => sp_filter p end;
     facets := facets p |}.

Module StdioUntyped.

Section Handlers.

Variable rt : Runtime.
Variable cfg : Config.

(** [tags && tags.length > 0] *)
Definition hasTags (tags : JsVal) : Exc bool :=
  if truthy tags then greaterThanZero rt (lengthOf tags) else inr false.

(** The filter that the [if] statement sets, if it sets one. *)
Definition searchDocsFilter (tags : JsVal) : Exc (option string) :=
  exc_bind (hasTags tags) (fun yes =>
  if yes then exc_bind (tagsFilterOf rt tags) (fun f => inr (Some f))
  else inr None).

(** [handleSearchDocs], [tags] being the value of [args.tags]. *)
Definition handleSearchDocs (args : option Arguments) (tags : JsVal)
  : M Stdio.SearchDocsResult :=
  a <- lift (destructure args "query") ;;
  let query := arg_query a in
  let limit := default 10 (arg_limit a) in
  f <- lift (searchDocsFilter tags) ;;
  results <- search (indexName cfg) query
               (withFilter (Stdio.searchDocsParams limit None) f) ;;
  rs <- lift (map_exc Stdio.normalizeHit (hits results)) ;;
  ret {| Stdio.total := estimatedTotalHits results; Stdio.results := rs |}.

End Handlers.

(** The [switch] of the tools/call handler: [search_docs] is the one case
    that reads [tags]. *)
Definition runTool (rt : Runtime) (cfg : Config) (req : Request) (tags : JsVal)
  : M JsVal :=
  if String.eqb (name req) "search_docs" then
    r <- handleSearchDocs rt cfg (arguments req) tags ;;
    ret (Stdio.searchDocsJs r)
  else Stdio.runTool cfg req.

Definition callTool (rt : Runtime) (cfg : Config) (req : Request) (tags : JsVal)
  : M Envelope :=
  try_catch
    (result <- runTool rt cfg req tags ;; ret (successEnvelope result))
    (fun error => ret (errorEnvelope (message error))).

End StdioUntyped.

Module SseUntyped.

Section Handlers.

Variable rt : Runtime.
Variable cfg : Config.

(** [tags?.length] as a condition *)
Definition hasTags (tags : JsVal) : bool :=
  truthy (if nullish tags then VUndefined else lengthOf tags).

Definition searchDocsFilter (tags : JsVal) : Exc (option string) :=
  if hasTags tags then exc_bind (tagsFilterOf rt tags) (fun f => inr (Some f))
  else inr None.

Definition handleSearchDocs (args : option Arguments) (tags : JsVal)
  : M Sse.SearchDocsResult :=
  a <- lift (destructure args "query") ;;
  let query := arg_query a in
  let limit := default 10 (arg_limit a) in
  f <- lift (searchDocsFilter tags) ;;
  results <- search (indexName cfg) query
               (withFilter (Sse.searchDocsParams limit None) f) ;;
  rs <- lift (map_exc Sse.normalizeHit (hits results)) ;;
  ret {| Sse.total := estimatedTotalHits results; Sse.results := rs |}.

End Handlers.

Definition runTool (rt : Runtime) (cfg : Config) (req : Request) (tags : JsVal)
  : M JsVal :=
  if String.eqb (name req) "search_docs" then
    r <- handleSearchDocs rt cfg (arguments req) tags ;;
    ret (Sse.searchDocsJs r)
  else Sse.runTool cfg req.

Definition callTool (rt : Runtime) (cfg : Config) (req : Request) (tags : JsVal)
  : M Envelope :=
  try_catch
    (result <- runTool rt cfg req tags ;; ret (successEnvelope result))
    (fun error => ret (errorEnvelope (message error))).

End SseUntyped.

(** ** The HTTP front of the SSE binding, [sse-server.ts] *)

Module SseHttp.

Inductive Body : Type :=
| JsonBody (t : JsonText)
| TextBody (s : string).

(** What the request listener does with a request: write a response, or
    create an MCP server and connect it to an SSE transport whose message
    endpoint is [endpoint]. *)
Inductive Outcome : Type :=
| Respond (status : Z) (headers : list (string * string)) (body : Body)
| ConnectSse (endpoint : string).

(** [url.pathname === s], for a pathname that is [null] when the request
    URL has no path. *)
Definition pathIs (pathname : option string) (s : string) : bool :=
  match pathname with
  | Some p => String.eqb p s
  | None => false
  end.

(** The listener given to [createServer], from the [pathname] of the parsed
    request URL. *)
Definition requestListener (pathname : option string) : Outcome :=
  if pathIs pathname "/health" then
    Respond 200 [("Content-Type", "application/json")]
      (JsonBody (JSON_stringify (VObj [("status", VStr "healthy")]) None))
  else if pathIs pathname "/mcp" || pathIs pathname "/sse" then
    ConnectSse "/mcp"
  else
    Respond 404 [] (TextBody "Not found").

End SseHttp.

(** ** The chart's name helpers, [_helpers.tpl] *)

Module Chart.

(** The template functions the helpers use, on strings. *)

(** [trunc n], for [n >= 0]. *)
Definition trunc (n : nat) (s : string) : string := String.substring 0 n s.

Definition hasSuffix (suffix s : string) : bool :=
  (String.length suffix <=? String.length s)%nat
  && String.eqb
       (String.substring (String.length s - String.length suffix)
          (String.length suffix) s)
       suffix.

(** [trimSuffix suffix] *)
Definition trimSuffix (suffix s : string) : string :=
  if hasSuffix suffix s
  then String.substring 0 (String.length s - String.length suffix) s
  else s.

(** [contains substr str] *)
Fixpoint contains (substr str : string) : bool :=
  String.prefix substr str
  || match str with
     | EmptyString => false
     | String _ rest => contains substr rest
     end.

(** [default d given]: [d] when [given] is empty or unset. *)
Definition default (d given : string) : string :=
  if String.eqb given "" then d else given.

(** [replace old new] for a one-character [old]. *)
Fixpoint replace (old : ascii) (new : string) (src : string) : string :=
  match src with
  | EmptyString => EmptyString
  | String c rest =>
      if Ascii.eqb c old then new ++ replace old new rest
      else String c (replace old new rest)
  end.

(** The values the helpers read; an unset string value is the empty
    string. *)
Record ServiceAccount : Type := mkServiceAccount {
  create : bool;
  sa_name : string
}.

Record Values : Type := mkValues {
  nameOverride : string;
  fullnameOverride : string;
  serviceAccount : ServiceAccount;
  ingestionWorker_serviceAccount : ServiceAccount;
  mcpServer_serviceAccount : ServiceAccount
}.

Record Context : Type := mkContext {
  Chart_Name : string;
  Chart_Version : string;
  Release_Name : string;
  values : Values
}.

(** [knowledge-platform.name] *)
Definition name (c : Context) : string :=
  trimSuffix "-" (trunc 63 (default (Chart_Name c) (nameOverride (values c)))).

(** [knowledge-platform.fullname] *)
Definition fullname (c : Context) : string :=
  if negb (String.eqb (fullnameOverride (values c)) "") then
    trimSuffix "-" (trunc 63 (fullnameOverride (values c)))
  else
    let name := default (Chart_Name c) (nameOverride (values c)) in
    if contains name (Release_Name c) then
      trimSuffix "-" (trunc 63 (Release_Name c))
    else
      trimSuffix "-" (trunc 63 (Release_Name c ++ "-" ++ name)).

(** [knowledge-platform.chart] *)
Definition chart (c : Context) : string :=
  trimSuffix "-"
    (trunc 63 (replace "+"%char "_" (Chart_Name c ++ "-" ++ Chart_Version c))).

(** [knowledge-platform.ingestionWorker.fullname] *)
Definition ingestionWorker_fullname (c : Context) : string :=
  trimSuffix "-" (trunc 63 (fullname c ++ "-ingestion-worker")).

(** [knowledge-platform.mcpServer.fullname] *)
Definition mcpServer_fullname (c : Context) : string :=
  trimSuffix "-" (trunc 63 (fullname c ++ "-mcp-server")).

(** [knowledge-platform.serviceAccountName], the shared account of the
    first helpers file. *)
Definition serviceAccountName (c : Context) : string :=
  if create (serviceAccount (values c)) then
    trimSuffix "-"
      (trunc 63 (default (fullname c) (sa_name (serviceAccount (values c)))))
  else default "default" (sa_name (serviceAccount (values c))).

(** [knowledge-platform.ingestionWorker.serviceAccountName] and
    [knowledge-platform.mcpServer.serviceAccountName], the per-component
    accounts of the second helpers file. *)
Definition ingestionWorker_serviceAccountName (c : Context) : string :=
  if create (ingestionWorker_serviceAccount (values c)) then
    default (fullname c ++ "-ingestion-worker")
      (sa_name (ingestionWorker_serviceAccount (values c)))
  else default "default" (sa_name (ingestionWorker_serviceAccount (values c))).

Definition mcpServer_serviceAccountName (c : Context) : string :=
  if create (mcpServer_serviceAccount (values c)) then
    default (fullname c ++ "-mcp-server")
      (sa_name (mcpServer_serviceAccount (values c)))
  else default "default" (sa_name (mcpServer_serviceAccount (values c))).

End Chart.

(** ** Engines to run the handlers against *)

(** The filter that selects the documents of one path, [path = "p"]. *)
Definition pathEquals (p : string) : string := "path = " ++ dq ++ p ++ dq.

(** The [path] attribute of a document, when it is a string. *)
Definition hasPath (p : string) (doc : JsVal) : bool :=
  match get doc "path" with
  | inr (VStr x) => String.eqb x p
  | _ => false
  end.

Definition hasId (id : option string) (doc : JsVal) : bool :=
  match get doc "id", id with
  | inr (VStr x), Some i => String.eqb x i
  | _, _ => false
  end.

(** An in-memory index over [docs]: lookup by identifier, and a search that
    honours [limit] and understands the one filter the fallback of
    [get_document] sends, [path = "..."] (under any other filter nothing
    matches). The index name and the query text are not looked at. *)
Definition corpus (docs : list JsVal) : Backend :=
  {| be_getDocument := fun _ id =>
       match find (hasId id) docs with
       | Some d => inr d
       | None =>
           inl (mkError KDocumentNotFound
                  ("Document `" ++ tpl id ++ "` not found."))
       end;
     be_search := fun _ _ p =>
       let matching :=
         match sp_filter p with
         | Some f =>
             List.filter
               (fun d =>
                  match get d "path" with
                  | inr (VStr x) => String.eqb f (pathEquals x)
                  | _ => false
                  end) docs
         | None => docs
         end in
       inr {| hits := firstn (Z.to_nat (default 20 (sp_limit p))) matching;
              estimatedTotalHits := VNum (Z.of_nat (length matching));
              facetDistribution := None |} |}.

(** An engine that gives the same answers whatever it is asked. *)
Definition fixed (onSearch : Exc SearchResponse) (onGet : Exc JsVal) : Backend :=
  {| be_search := fun _ _ _ => onSearch;
     be_getDocument := fun _ _ => onGet |}.

Definition responseOf (hs : list JsVal) : SearchResponse :=
  {| hits := hs;
     estimatedTotalHits := VNum (Z.of_nat (length hs));
     facetDistribution := None |}.

(** The limits of the search calls of a log, in order. *)
Definition sentLimits (log : list Call) : list (option Z) :=
  flat_map (fun c => match c with
                     | CSearch _ _ p => [sp_limit p]
                     | CGetDocument _ _ => []
                     end) log.

(** Running a handler from an empty log. *)
Definition run {A} (m : M A) (be : Backend) : Exc A * list Call := m be [].

(** The facet answer of the example, [{ tags: { a: 3, b: 7 } }], and an
    answer that carries no facet distribution. *)
Definition facetsAB : SearchResponse :=
  {| hits := [];
     estimatedTotalHits := VNum 2;
     facetDistribution := Some [("tags", [("a", 3); ("b", 7)])] |}.

Definition noFacets : SearchResponse :=
  {| hits := []; estimatedTotalHits := VNum 0; facetDistribution := None |}.

Definition unreachable : JsError := mkError KCommunication "fetch failed".

(** Hits as the engine returns them for a highlighted search. *)
Definition hitBoth : JsVal :=
  VObj [ ("id", VStr "adr-7"); ("title", VStr "Sessions");
         ("path", VStr "adr/0007-sessions.md");
         ("description", VStr "Redis is not used for sessions");
         ("tags", VArr [VStr "adr"; VStr "redis"]);
         ("_formatted",
          VObj [ ("description", VStr "**Redis** is not used for sessions");
                 ("content", VStr "We decided against **Redis** because") ]) ].

Definition hitContentOnly : JsVal :=
  VObj [ ("id", VStr "adr-8"); ("title", VStr "GitOps");
         ("path", VStr "adr/0008-gitops.md");
         ("_formatted",
          VObj [ ("content", VStr "Deployments are driven by **GitOps**") ]) ].

Definition hitPlain : JsVal :=
  VObj [ ("id", VStr "adr-9"); ("title", VStr "Registry");
         ("path", VStr "adr/0009-registry.md") ].

(** An engine that cannot be reached for the lookup by identifier and then
    answers the search. *)
Definition lookupUnreachable : Backend :=
  fixed (inr (responseOf [hitContentOnly])) (inl unreachable).

(** ** Vocabulary of the properties *)

(** A comparator that orders by a key, larger keys first: the shape of
    [(a, b) => b.count - a.count]. *)
Definition byKey {A} (key : A -> Z) (a b : A) : Z := key b - key a.

(** No element is followed by one of a larger key. *)
Definition descendingBy {A} (key : A -> Z) : list A -> Prop :=
  StronglySorted (fun a b => key b <= key a).

(** The elements of one key, read off in order. *)
Definition ofKey {A} (key : A -> Z) (k : Z) (l : list A) : list A :=
  List.filter (fun a => key a =? k) l.

(** The filter language of the engine as far as the handlers use it:
    equality of an attribute with a quoted value, and [OR]. *)
Inductive FilterExpr : Type :=
| FEq (attribute value : string)
| FOr (a b : FilterExpr).

Fixpoint render (f : FilterExpr) : string :=
  match f with
  | FEq attribute value => attribute ++ " = " ++ dq ++ value ++ dq
  | FOr a b => render a ++ " OR " ++ render b
  end.

(** Whether a document with the tags [docTags] satisfies a filter over
    [tags]; on an array attribute, equality is membership. *)
Fixpoint satisfies (docTags : list string) (f : FilterExpr) : bool :=
  match f with
  | FEq attribute value =>
      String.eqb attribute "tags" && existsb (String.eqb value) docTags
  | FOr a b => satisfies docTags a || satisfies docTags b
  end.

(** The disjunction of one tag equality per requested tag, in order. *)
Fixpoint anyTag (t : string) (ts : list string) : FilterExpr :=
  match ts with
  | [] => FEq "tags" t
  | t' :: rest => FOr (FEq "tags" t) (anyTag t' rest)
  end.

(** The equalities of a filter, left to right. *)
Fixpoint clauses (f : FilterExpr) : list (string * string) :=
  match f with
  | FEq attribute value => [(attribute, value)]
  | FOr a b => (clauses a ++ clauses b)%list
  end.

(** The filter the specification asks of a document search with tags [T]. *)
Definition tagsFilterSpec (T : option (list string)) : option string :=
  match T with
  | Some (t :: ts) => Some (render (anyTag t ts))
  | Some [] | None => None
  end.

(** The snippet the specification describes, from the highlighted
    description [d] and the highlighted content [c] of a hit (each a string
    or absent): the description when there is one, else the content cut to
    [n] characters, else the empty string. A highlighted text that is empty
    counts as none. *)
Definition contentSnippet (n : nat) (c : option string) : string :=
  match c with
  | Some y => String.substring 0 n y
  | None => ""
  end.

Definition preferDescription (n : nat) (d c : option string) : string :=
  match d with
  | Some x => if String.eqb x "" then contentSnippet n c else x
  | None => contentSnippet n c
  end.

(** The arguments of a [lookup_decision] call with the given question. *)
Definition asking (question : string) : Arguments :=
  mkArgs None None None None None (Some question).

(** The arguments of a [get_document] call with the given identifier. *)
Definition withId (id : string) : Arguments :=
  mkArgs None None None None (Some id) None.

(** Whether an encoded result has a field. *)
Definition hasField (k : string) (v : JsVal) : bool :=
  match v with
  | VObj fields =>
      match lookup_field k fields with
      | Some _ => true
      | None => false
      end
  | _ => false
  end.

Definition notFoundMessage : string :=
  "No relevant decisions found for this question.".

Definition notFoundSuggestion : string :=
  "Try rephrasing your question or use search_docs with different keywords.".

Definition synthesisNote : string :=
  "Synthesize an answer from these documents. If the answer is unclear, say so.".

(** The list a normalization produced, when it did not throw. *)
Definition normalized {A} (x : Exc (list A)) : list A :=
  match x with
  | inr ds => ds
  | inl _ => []
  end.

(** The value of a run, when it did not throw. *)
Definition returned {A} (x : Exc A * list Call) : option A :=
  match fst x with
  | inr a => Some a
  | inl _ => None
  end.


Definition names (registry : list Tool) : list string := map tool_name registry.

(** A value [.slice(0, n)] can be called on, or on which [?.] stops. *)
Definition sliceable (v : JsVal) : bool :=
  match v with
  | VUndefined | VNull | VStr _ | VArr _ => true
  | _ => false
  end.

(** The parameters a registry declares for a tool. *)
Definition declaredOf (registry : list Tool) (n : string) : list string :=
  match find (fun t => String.eqb (tool_name t) n) registry with
  | Some t => map fst (properties (inputSchema t))
  | None => []
  end.

(** Two argument objects hold the same value under the parameter [k]. *)
Definition sameField (k : string) (a a' : Arguments) : Prop :=
  if String.eqb k "query" then arg_query a = arg_query a'
  else if String.eqb k "limit" then arg_limit a = arg_limit a'
  else if String.eqb k "tags" then arg_tags a = arg_tags a'
  else if String.eqb k "document_id" then arg_document_id a = arg_document_id a'
  else if String.eqb k "id" then arg_id a = arg_id a'
  else if String.eqb k "question" then arg_question a = arg_question a'
  else True.

Definition agreeOn (ks : list string) (a a' : Arguments) : Prop :=
  forall k, In k ks -> sameField k a a'.

Definition isObject (v : JsVal) : Prop := exists fields, v = VObj fields.

(** A tag that closes its quote and goes on with a clause for [t2]. *)
Definition smuggle (attribute t1 t2 : string) : string :=
  t1 ++ dq ++ " OR " ++ attribute ++ " = " ++ dq ++ t2.

(** The engine calls a run added to the log it started from (empty). *)
Definition callsOf {A} (x : Exc A * list Call) : list Call := snd x.

(** The filter of a chunk search restricted to the document [d]: an exact
    equality on [document_id], and none for an absent or empty [d]. *)
Definition chunksFilterSpec (d : option string) : option string :=
  match d with
  | Some s => if String.eqb s "" then None else Some (render (FEq "document_id" s))
  | None => None
  end.

(** The content of a chunk: the highlighted content when there is one, else
    the chunk's own. *)
Definition chunkContent (highlighted raw : JsVal) : JsVal :=
  if truthy highlighted then highlighted else raw.

(** A release of the chart with nothing overridden and no account given. *)
Definition release (releaseName chartName chartVersion : string) : Chart.Context :=
  Chart.mkContext chartName chartVersion releaseName
    (Chart.mkValues "" ""
       (Chart.mkServiceAccount true "")
       (Chart.mkServiceAccount true "")
       (Chart.mkServiceAccount true "")).

(** A string of [n] copies of a character. *)
Fixpoint repeatChar (c : ascii) (n : nat) : string :=
  match n with
  | O => EmptyString
  | S m => String c (repeatChar c m)
  end.

(** The characters of a string. *)
Fixpoint chars (s : string) : list ascii :=
  match s with
  | EmptyString => []
  | String c rest => c :: chars rest
  end.

(** The entry [{tag, count}] of a member of the facet map. *)
Definition entryOf (m : string * Z) : Stdio.TagCount :=
  Stdio.mkTag (fst m) (snd m).

(** A tag that reads as an array index, and its numeric value. *)
Definition indexTag (t : Stdio.TagCount) : bool :=
  match arrayIndex (Stdio.tag t) with
  | Some _ => true
  | None => false
  end.

Definition plainTag (t : Stdio.TagCount) : bool := negb (indexTag t).

Definition tagIndex (t : Stdio.TagCount) : Z :=
  match arrayIndex (Stdio.tag t) with
  | Some n => n
  | None => 0
  end.

(** The facet answer [{ tags: {x: 1, y: 2, "10": 1, z: 1, w: 2, "2": 2} }],
    in the order of the response. *)
Definition facetsWithNumbers : SearchResponse :=
  {| hits := [];
     estimatedTotalHits := VNum 6;
     facetDistribution :=
       Some [("tags", [("x", 1); ("y", 2); ("10", 1); ("z", 1); ("w", 2); ("2", 2)])] |}.

(** The characters a quoted value of a filter must not hold to be read as
    written: the double quote that ends it and the backslash that escapes. *)
Fixpoint avoids (c : ascii) (s : string) : bool :=
  match s with
  | EmptyString => true
  | String x rest => negb (Ascii.eqb x c) && avoids c rest
  end.

Definition quoteFree (s : string) : bool := avoids (ascii_of_nat 34) s.

Definition plainValue (s : string) : bool :=
  quoteFree s && avoids (ascii_of_nat 92) s.

(** The text of a filter cut at its double quotes. *)
Fixpoint splitQuotes (s : string) : list string :=
  match s with
  | EmptyString => [EmptyString]
  | String c rest =>
      if Ascii.eqb c (ascii_of_nat 34) then EmptyString :: splitQuotes rest
      else
        match splitQuotes rest with
        | h :: t => String c h :: t
        | [] => [String c EmptyString]
        end
  end.

(** The reading of a filter of the form
    [attribute = "v1" OR attribute = "v2" OR ...], the form the engine's
    contract gives to a disjunction of equalities on one attribute: the
    values [v1, v2, ...], or nothing when the text has another form. *)
Fixpoint readValues (attribute : string) (first : bool) (pieces : list string)
  : option (list string) :=
  match pieces with
  | sep :: value :: rest =>
      if String.eqb sep ((if first then "" else " OR ") ++ attribute ++ " = ")
      then option_map (cons value) (readValues attribute false rest)
      else None
  | [last] =>
      if first then None
      else if String.eqb last "" then Some [] else None
  | [] => None
  end.

Definition readFilter (attribute filter : string) : option (list string) :=
  readValues attribute true (splitQuotes filter).

(** Whether a document that holds [values] under [attribute] passes the
    filter: it has one of the values the filter names. *)
Definition filterAdmits (attribute filter : string) (values : list string) : bool :=
  match readFilter attribute filter with
  | Some wanted =>
      existsb (fun w => existsb (String.eqb w) values) wanted
  | None => false
  end.

(** The text of a disjunction of equalities on one attribute. *)
Definition disjunction (attribute : string) (vs : list string) : string :=
  join " OR " (map (fun v => render (FEq attribute v)) vs).

(** The snippet cut from the highlighted content of a hit: its first 300
    characters when they are truthy, else the empty string. *)
Definition isContentCutOf (hit snip : JsVal) : Prop :=
  exists content cut,
    formatted hit "content" = inr content
    /\ opt_slice0 content 300 = inr cut
    /\ snip = (if truthy cut then cut else VStr "").

(** The snippet of a hit in the stdio binding: its highlighted description
    when that is truthy, else the cut of its highlighted content. *)
Definition isSnippetOf (hit snip : JsVal) : Prop :=
  exists highlighted,
    formatted hit "description" = inr highlighted
    /\ (if truthy highlighted then snip = highlighted
        else isContentCutOf hit snip).

(** What an entry of [relevant_documents] holds of its hit in the stdio
    binding: the hit's title, path, source_url, its description and tags or
    their defaults, and the snippet of the hit. *)
Definition isEvidenceOf (hit v : JsVal) : Prop :=
  exists title path description tags source_url snip,
    get hit "title" = inr title
    /\ get hit "path" = inr path
    /\ get hit "description" = inr description
    /\ get hit "tags" = inr tags
    /\ get hit "source_url" = inr source_url
    /\ isSnippetOf hit snip
    /\ v = VObj [ ("title", title); ("path", path);
                  ("description", if truthy description then description else VStr "");
                  ("tags", if truthy tags then tags else VArr []);
                  ("source_url", source_url); ("snippet", snip) ].

(** What an entry of [relevant_documents] holds of its hit in the SSE
    binding. *)
Definition isSseDocumentOf (hit v : JsVal) : Prop :=
  exists id title path tags snip,
    get hit "id" = inr id
    /\ get hit "title" = inr title
    /\ get hit "path" = inr path
    /\ get hit "tags" = inr tags
    /\ isContentCutOf hit snip
    /\ v = VObj [ ("id", id); ("title", title); ("path", path);
                  ("tags", if truthy tags then tags else VArr []);
                  ("snippet", snip) ].

(** The options of the document search [lookup_decision] runs, in each
    binding. *)
Definition stdioLookupParams : SearchParams :=
  mkParams (Some 5) (Some ["content"; "title"; "description"]) (Some "**")
    (Some "**")
    (Some ["id"; "title"; "path"; "description"; "tags"; "source_url"; "updated_at"])
    None None.

Definition sseLookupParams : SearchParams :=
  mkParams (Some 5) (Some ["content"; "title"]) (Some "**") (Some "**")
    None None None.






(** An object without the fields named [ks]. *)
Definition without (ks : list string) (v : JsVal) : JsVal :=
  match v with
  | VObj fields =>
      VObj (List.filter (fun kv => negb (existsb (String.eqb (fst kv)) ks)) fields)
  | _ => v
  end.

(** * Properties *)

(** ** Strings *)

Lemma string_append_assoc (a b c : string) : (a ++ b) ++ c = a ++ b ++ c.
Proof. induction a as [|x a IH]; simpl; [reflexivity | rewrite IH; reflexivity]. Qed.

(** ** Values and lists *)

Lemma map_exc_Forall2 {A B} (f : A -> Exc B) xs ys :
  map_exc f xs = inr ys -> Forall2 (fun x y => f x = inr y) xs ys.
Proof.
  revert ys. induction xs as [|x xs IH]; simpl; intros ys H.
  - inversion H. constructor.
  - destruct (f x) as [e|y] eqn:Hx; cbn [exc_bind] in H; [discriminate|].
    destruct (map_exc f xs) as [e|ys'] eqn:Hxs; cbn [exc_bind] in H;
      [discriminate|].
    inversion H. constructor; [assumption | apply IH; reflexivity].
Qed.

Lemma get_other_key v k k' x :
  get v k = inr x -> exists y, get v k' = inr y.
Proof. destruct v; simpl; intros H; try discriminate; eauto. Qed.

Lemma opt_get_total v k : exists y, opt_get v k = inr y.
Proof. unfold opt_get. destruct v; simpl; eauto. Qed.

Lemma formatted_other_key hit k k' x :
  formatted hit k = inr x -> exists y, formatted hit k' = inr y.
Proof.
  unfold formatted. intros H.
  destruct (get hit "_formatted") as [e|f]; cbn [exc_bind] in *; [discriminate|].
  apply opt_get_total.
Qed.

(** ** Running the monad *)

Lemma bind_run {A B} (m : M A) (k : A -> M B) be log :
  bind m k be log =
  match m be log with
  | (inl e, log') => (inl e, log')
  | (inr a, log') => k a be log'
  end.
Proof. reflexivity. Qed.

Lemma search_run index q p be log :
  search index q p be log = (be_search be index q p, (log ++ [CSearch index q p])%list).
Proof. reflexivity. Qed.

Lemma getDocument_run index id be log :
  getDocument index id be log =
  (be_getDocument be index id, (log ++ [CGetDocument index id])%list).
Proof. reflexivity. Qed.

(** Pure steps leave the log alone. *)
Lemma lift_run {A} (x : Exc A) be log : lift x be log = (x, log).
Proof. reflexivity. Qed.

(** ** The sort: a stable rearrangement into descending order of the key *)

Section SortByKey.

Context {A : Type}.
Variable key : A -> Z.

Lemma sort_insert_perm (c : A -> A -> Z) x l :
  Permutation (sort_insert c x l) (x :: l).
Proof.
  induction l as [|y l IH]; simpl.
  - apply Permutation_refl.
  - destruct (c x y <=? 0).
    + apply Permutation_refl.
    + eapply perm_trans; [apply perm_skip, IH | apply perm_swap].
Qed.

Lemma sort_perm (c : A -> A -> Z) l : Permutation (sort c l) l.
Proof.
  induction l as [|x l IH]; simpl.
  - constructor.
  - eapply perm_trans; [apply sort_insert_perm | apply perm_skip, IH].
Qed.

Lemma sort_insert_descending x l :
  descendingBy key l -> descendingBy key (sort_insert (byKey key) x l).
Proof.
  unfold descendingBy, byKey.
  induction l as [|y l IH]; simpl; intros Hs.
  - repeat constructor.
  - inversion Hs as [|? ? Hl Hy]; subst.
    destruct (Z.leb_spec (key y - key x) 0) as [Hle|Hgt].
    + constructor; [assumption|].
      constructor; [lia|].
      rewrite Forall_forall in *. intros z Hz. specialize (Hy z Hz). lia.
    + constructor; [apply IH; assumption|].
      rewrite Forall_forall in *. intros z Hz.
      apply (Permutation_in _ (sort_insert_perm _ x l)) in Hz.
      destruct Hz as [<-|Hz]; [lia | apply Hy; assumption].
Qed.

Lemma sort_descending l : descendingBy key (sort (byKey key) l).
Proof.
  induction l as [|x l IH]; simpl.
  - constructor.
  - apply sort_insert_descending, IH.
Qed.

Lemma sort_insert_stable k x l :
  ofKey key k (sort_insert (byKey key) x l) = ofKey key k (x :: l).
Proof.
  unfold ofKey, byKey.
  induction l as [|y l IH]; simpl.
  - reflexivity.
  - destruct (Z.leb_spec (key y - key x) 0) as [Hle|Hgt].
    + reflexivity.
    + simpl. rewrite IH. simpl.
      destruct (Z.eqb_spec (key x) k) as [Hx|Hx];
        destruct (Z.eqb_spec (key y) k) as [Hy|Hy]; try reflexivity.
      lia.
Qed.

Lemma sort_stable k l : ofKey key k (sort (byKey key) l) = ofKey key k l.
Proof.
  induction l as [|x l IH]; simpl.
  - reflexivity.
  - rewrite sort_insert_stable. unfold ofKey in *. simpl.
    rewrite IH. reflexivity.
Qed.

Lemma ofKey_In k x l : In x (ofKey key k l) <-> In x l /\ key x = k.
Proof.
  unfold ofKey. rewrite filter_In. rewrite Z.eqb_eq. reflexivity.
Qed.

Lemma descending_head x l y :
  descendingBy key (x :: l) -> In y (x :: l) -> key y <= key x.
Proof.
  intros Hs [<-|Hin]; [lia|].
  inversion Hs as [|? ? _ Hall]; subst.
  rewrite Forall_forall in Hall. apply Hall. assumption.
Qed.

(** Two descending lists with the same elements of every key, in the same
    order, are the same list: the outcome of a stable sort does not depend
    on how it sorts. *)
Lemma descending_stable_unique l1 l2 :
  descendingBy key l1 -> descendingBy key l2 ->
  (forall k, ofKey key k l1 = ofKey key k l2) ->
  l1 = l2.
Proof.
  revert l2. induction l1 as [|x t1 IH]; intros l2 Hs1 Hs2 Hsame.
  - destruct l2 as [|y t2]; [reflexivity|].
    specialize (Hsame (key y)). unfold ofKey in Hsame. simpl in Hsame.
    rewrite Z.eqb_refl in Hsame. discriminate.
  - destruct l2 as [|y t2].
    + specialize (Hsame (key x)). unfold ofKey in Hsame. simpl in Hsame.
      rewrite Z.eqb_refl in Hsame. discriminate.
    + assert (Hyx : key y <= key x).
      { apply (descending_head x t1 y Hs1).
        apply (ofKey_In (key y)). rewrite Hsame. apply ofKey_In.
        split; [left; reflexivity | reflexivity]. }
      assert (Hxy : key x <= key y).
      { apply (descending_head y t2 x Hs2).
        apply (ofKey_In (key x)). rewrite <- Hsame. apply ofKey_In.
        split; [left; reflexivity | reflexivity]. }
      assert (Hk : key x = key y) by lia.
      pose proof (Hsame (key x)) as Hhead. unfold ofKey in Hhead.
      simpl in Hhead. rewrite Z.eqb_refl in Hhead.
      rewrite <- Hk, Z.eqb_refl in Hhead. inversion Hhead as [[Hx Htail]].
      subst y. f_equal. apply IH.
      * inversion Hs1; assumption.
      * inversion Hs2; assumption.
      * intros k. specialize (Hsame k). unfold ofKey in *. simpl in Hsame.
        destruct (key x =? k); [inversion Hsame|]; auto.
Qed.

End SortByKey.

(** ** Tag listing *)

Lemma sort_ext {A} (c1 c2 : A -> A -> Z) l :
  (forall a b, c1 a b = c2 a b) -> sort c1 l = sort c2 l.
Proof.
  intros Hext. induction l as [|x l IH]; simpl; [reflexivity|].
  rewrite IH. generalize (sort c2 l). intros l'.
  induction l' as [|y l' IH']; simpl; [reflexivity|].
  rewrite Hext, IH'. reflexivity.
Qed.

Lemma filter_map_comm {A B} (f : A -> B) (p : B -> bool) l :
  List.filter p (map f l) = map f (List.filter (fun x => p (f x)) l).
Proof.
  induction l as [|x l IH]; simpl; [reflexivity|].
  destruct (p (f x)); simpl; rewrite IH; reflexivity.
Qed.

Lemma filter_filter_comm {A} (p q : A -> bool) l :
  List.filter p (List.filter q l) = List.filter q (List.filter p l).
Proof.
  induction l as [|x l IH]; simpl; [reflexivity|].
  destruct (q x) eqn:Hq; destruct (p x) eqn:Hp; simpl;
    rewrite ?Hq, ?Hp, IH; reflexivity.
Qed.

Lemma filter_partition_perm {A} (p : A -> bool) l :
  Permutation (List.filter p l ++ List.filter (fun x => negb (p x)) l)%list l.
Proof.
  induction l as [|x l IH]; simpl; [constructor|].
  destruct (p x); simpl.
  - apply perm_skip. exact IH.
  - apply Permutation_sym. apply Permutation_cons_app.
    apply Permutation_sym. exact IH.
Qed.

Lemma filter_none {A} (p : A -> bool) l :
  (forall x, In x l -> p x = false) -> List.filter p l = [].
Proof.
  induction l as [|x l IH]; simpl; intros H; [reflexivity|].
  rewrite (H x (or_introl eq_refl)). apply IH.
  intros y Hy. apply H. right. assumption.
Qed.

Lemma filter_all {A} (p : A -> bool) l :
  (forall x, In x l -> p x = true) -> List.filter p l = l.
Proof.
  induction l as [|x l IH]; simpl; intros H; [reflexivity|].
  rewrite (H x (or_introl eq_refl)). f_equal. apply IH.
  intros y Hy. apply H. right. assumption.
Qed.

Lemma StronglySorted_filter {A} (R : A -> A -> Prop) (p : A -> bool) l :
  StronglySorted R l -> StronglySorted R (List.filter p l).
Proof.
  induction 1 as [|x l Hs IH Hall]; simpl; [constructor|].
  destruct (p x); [|assumption].
  constructor; [assumption|].
  rewrite Forall_forall in *. intros y Hy.
  apply filter_In in Hy. apply Hall. tauto.
Qed.

(** The order of [ownEntries]: array indices first and ascending, then the
    other members as they were. *)
Lemma ownEntries_perm {A} (members : list (string * A)) :
  Permutation (ownEntries members) members.
Proof.
  unfold ownEntries.
  eapply perm_trans; [|apply (filter_partition_perm isIndexKey)].
  apply Permutation_app_tail. apply sort_perm.
Qed.

Lemma ownEntries_indices_ascending {A} (members : list (string * A)) :
  StronglySorted (fun a b => indexOf a <= indexOf b)
    (sort (fun a b => indexOf a - indexOf b) (List.filter isIndexKey members)).
Proof.
  rewrite (sort_ext _ (byKey (fun m : string * A => - indexOf m)))
    by (intros a b; unfold byKey; lia).
  pose proof (sort_descending (fun m : string * A => - indexOf m)
                (List.filter isIndexKey members)) as Hs.
  unfold descendingBy in Hs.
  induction Hs as [|x l Hl IH Hall]; constructor; [assumption|].
  rewrite Forall_forall in *. intros y Hy. specialize (Hall y Hy). lia.
Qed.

Lemma tagEntries_split (counts : list (string * Z)) :
  exists numbered plain,
    Stdio.tagEntries counts = (numbered ++ plain)%list
    /\ (forall t, In t numbered -> indexTag t = true)
    /\ (forall t, In t plain -> indexTag t = false)
    /\ StronglySorted (fun a b => tagIndex a <= tagIndex b) numbered
    /\ plain = List.filter plainTag (map entryOf counts).
Proof.
  exists (map (fun '(t, c) => Stdio.mkTag t c)
            (sort (fun a b => indexOf a - indexOf b)
               (List.filter isIndexKey counts))).
  exists (map (fun '(t, c) => Stdio.mkTag t c)
            (List.filter (fun m => negb (isIndexKey m)) counts)).
  split; [|split; [|split; [|split]]].
  - unfold Stdio.tagEntries, ownEntries. apply map_app.
  - intros t Ht. apply in_map_iff in Ht. destruct Ht as ([k c] & <- & Hin).
    apply (Permutation_in _ (sort_perm _ _)) in Hin.
    apply filter_In in Hin. exact (proj2 Hin).
  - intros t Ht. apply in_map_iff in Ht. destruct Ht as ([k c] & <- & Hin).
    apply filter_In in Hin. destruct Hin as [_ Hneg].
    apply negb_true_iff in Hneg. exact Hneg.
  - pose proof (ownEntries_indices_ascending counts) as Hs.
    induction Hs as [|[k c] l Hl IH Hall]; simpl; constructor; [assumption|].
    rewrite Forall_forall in *. intros t Ht.
    apply in_map_iff in Ht. destruct Ht as ([k' c'] & <- & Hin).
    exact (Hall _ Hin).
  - unfold plainTag. rewrite filter_map_comm.
    induction counts as [|[k c] l IH]; simpl; [reflexivity|].
    unfold isIndexKey, indexTag, entryOf in *. simpl.
    destruct (arrayIndex k); simpl; rewrite IH; reflexivity.
Qed.

Lemma tagEntries_perm (counts : list (string * Z)) :
  Permutation (Stdio.tagEntries counts) (map entryOf counts).
Proof.
  unfold Stdio.tagEntries.
  replace (map entryOf counts)
    with (map (fun '(t, c) => Stdio.mkTag t c) counts)
    by (apply map_ext; intros [t c]; reflexivity).
  apply Permutation_map. apply ownEntries_perm.
Qed.

(** C9, as the code has it. [list_tags] issues one search on the primary
    index with empty text, limit 0 and a facet request on [tags]. Given the
    facet-count map of the engine's answer, the output holds one
    [{tag, count}] per member of the map (a permutation of them) in
    descending order of count. Among entries of equal count, the tags that
    read as array indices come first, in ascending numeric order, and the
    other tags follow in the order of the engine's answer. *)
Theorem list_tags_sorted_by_count
  (cfg : Config) (be : Backend) (log : list Call) (r : SearchResponse)
  (fd : list (string * list (string * Z))) (counts : list (string * Z)) :
  be_search be (indexName cfg) (Some "") Stdio.listTagsParams = inr r ->
  facetDistribution r = Some fd ->
  lookup_field "tags" fd = Some counts ->
  exists out,
    Stdio.handleListTags cfg be log =
      (inr (Stdio.mkTags out),
       (log ++ [CSearch (indexName cfg) (Some "")
                  (mkParams (Some 0) None None None None None (Some ["tags"]))])%list)
    /\ Permutation out (map entryOf counts)
    /\ descendingBy Stdio.count out
    /\ (forall c,
          ofKey Stdio.count c out
          = (List.filter indexTag (ofKey Stdio.count c out)
             ++ List.filter plainTag (ofKey Stdio.count c out))%list)
    /\ (forall c,
          StronglySorted (fun a b => tagIndex a <= tagIndex b)
            (List.filter indexTag (ofKey Stdio.count c out)))
    /\ (forall c,
          List.filter plainTag (ofKey Stdio.count c out)
          = List.filter plainTag (ofKey Stdio.count c (map entryOf counts))).
Proof.
  intros Hsearch Hfd Htags.
  exists (sort (byKey Stdio.count) (Stdio.tagEntries counts)).
  destruct (tagEntries_split counts)
    as (numbered & plain & Hsplit & Hnum & Hplain & Hsorted & Hplain_eq).
  assert (Hties : forall c,
             ofKey Stdio.count c (sort (byKey Stdio.count) (Stdio.tagEntries counts))
             = (ofKey Stdio.count c numbered ++ ofKey Stdio.count c plain)%list).
  { intros c. rewrite sort_stable, Hsplit. unfold ofKey. apply filter_app. }
  assert (Hin_num : forall c t, In t (ofKey Stdio.count c numbered) ->
                                indexTag t = true).
  { intros c t Ht. apply filter_In in Ht. apply Hnum. tauto. }
  assert (Hin_plain : forall c t, In t (ofKey Stdio.count c plain) ->
                                  indexTag t = false).
  { intros c t Ht. apply filter_In in Ht. apply Hplain. tauto. }
  assert (Hfi : forall c,
             List.filter indexTag
               (ofKey Stdio.count c (sort (byKey Stdio.count) (Stdio.tagEntries counts)))
             = ofKey Stdio.count c numbered).
  { intros c. rewrite Hties, filter_app.
    rewrite (filter_all indexTag) by apply Hin_num.
    rewrite (filter_none indexTag) by apply Hin_plain.
    apply app_nil_r. }
  assert (Hfp : forall c,
             List.filter plainTag
               (ofKey Stdio.count c (sort (byKey Stdio.count) (Stdio.tagEntries counts)))
             = ofKey Stdio.count c plain).
  { intros c. rewrite Hties, filter_app.
    rewrite (filter_none plainTag)
      by (intros t Ht; unfold plainTag; rewrite (Hin_num c t Ht); reflexivity).
    rewrite (filter_all plainTag)
      by (intros t Ht; unfold plainTag; rewrite (Hin_plain c t Ht); reflexivity).
    reflexivity. }
  split; [|split; [|split; [|split; [|split]]]].
  - unfold Stdio.handleListTags. rewrite bind_run, search_run, Hsearch.
    unfold ret, Stdio.tagCounts. rewrite Hfd, Htags. reflexivity.
  - eapply perm_trans; [apply sort_perm | apply tagEntries_perm].
  - apply sort_descending.
  - intros c. rewrite Hfi, Hfp. apply Hties.
  - intros c. rewrite Hfi. unfold ofKey. apply StronglySorted_filter.
    assumption.
  - intros c. rewrite Hfp, Hplain_eq. unfold ofKey.
    apply filter_filter_comm.
Qed.

Lemma list_tags_sorted_by_count_witness :
  exists out,
    Stdio.handleListTags (config None) (fixed (inr facetsAB) (inl unreachable)) [] =
      (inr (Stdio.mkTags out),
       ([] ++ [CSearch (indexName (config None)) (Some "")
                 (mkParams (Some 0) None None None None None (Some ["tags"]))])%list)
    /\ Permutation out (map entryOf [("a", 3); ("b", 7)])
    /\ descendingBy Stdio.count out
    /\ (forall c,
          ofKey Stdio.count c out
          = (List.filter indexTag (ofKey Stdio.count c out)
             ++ List.filter plainTag (ofKey Stdio.count c out))%list)
    /\ (forall c,
          StronglySorted (fun a b => tagIndex a <= tagIndex b)
            (List.filter indexTag (ofKey Stdio.count c out)))
    /\ (forall c,
          List.filter plainTag (ofKey Stdio.count c out)
          = List.filter plainTag
              (ofKey Stdio.count c (map entryOf [("a", 3); ("b", 7)]))).
Proof.
  apply (list_tags_sorted_by_count (config None)
           (fixed (inr facetsAB) (inl unreachable)) [] facetsAB
           [("tags", [("a", 3); ("b", 7)])] [("a", 3); ("b", 7)]);
    reflexivity.
Defined.

(** C9 as stated fails: ties do not keep the order of the engine's answer
    when a tag reads as an array index. For the answer
    [{x: 1, y: 2, "10": 1, z: 1, w: 2, "2": 2}] a stable sort of the
    answer's own order gives [y, w, 2, x, 10, z]; [list_tags] returns
    [2, y, w, 10, x, z]. *)
Lemma list_tags_ties_not_in_answer_order :
  sort (byKey Stdio.count)
    (map entryOf [("x", 1); ("y", 2); ("10", 1); ("z", 1); ("w", 2); ("2", 2)])
  = [ Stdio.mkTag "y" 2; Stdio.mkTag "w" 2; Stdio.mkTag "2" 2;
      Stdio.mkTag "x" 1; Stdio.mkTag "10" 1; Stdio.mkTag "z" 1 ]
  /\ returned (run (Stdio.handleListTags (config None))
                 (fixed (inr facetsWithNumbers) (inl unreachable)))
     = Some (Stdio.mkTags
               [ Stdio.mkTag "2" 2; Stdio.mkTag "y" 2; Stdio.mkTag "w" 2;
                 Stdio.mkTag "10" 1; Stdio.mkTag "x" 1; Stdio.mkTag "z" 1 ])
  /\ ofKey Stdio.count 1
       [ Stdio.mkTag "2" 2; Stdio.mkTag "y" 2; Stdio.mkTag "w" 2;
         Stdio.mkTag "10" 1; Stdio.mkTag "x" 1; Stdio.mkTag "z" 1 ]
     <> ofKey Stdio.count 1
          (map entryOf [("x", 1); ("y", 2); ("10", 1); ("z", 1); ("w", 2); ("2", 2)]).
Proof.
  split; [reflexivity|]. split; [reflexivity|]. discriminate.
Qed.

(** The example of the specification: counts [{a: 3, b: 7}] give
    [[{tag: "b", count: 7}, {tag: "a", count: 3}]]. *)
Example list_tags_a3_b7 :
  fst (run (Stdio.handleListTags (config None))
         (fixed (inr facetsAB) (inl unreachable)))
  = inr (Stdio.mkTags [Stdio.mkTag "b" 7; Stdio.mkTag "a" 3]).
Proof. reflexivity. Qed.

(** Ties between tags that are not array indices keep the answer's order. *)
Example list_tags_ties :
  returned (run (Stdio.handleListTags (config None))
              (fixed (inr {| hits := [];
                             estimatedTotalHits := VNum 4;
                             facetDistribution :=
                               Some [("tags", [("x", 2); ("y", 5); ("z", 2); ("w", 5)])] |})
                 (inl unreachable)))
  = Some (Stdio.mkTags [ Stdio.mkTag "y" 5; Stdio.mkTag "w" 5;
                         Stdio.mkTag "x" 2; Stdio.mkTag "z" 2 ]).
Proof. reflexivity. Qed.

(** C10. When the engine's answer has no facet distribution, or one without
    a [tags] entry, [list_tags] does not fail: the handler returns
    [{ tags: [] }] and the dispatch wraps it in a success envelope. *)
Theorem list_tags_without_facets
  (cfg : Config) (be : Backend) (log : list Call) (r : SearchResponse)
  (args : option Arguments) :
  be_search be (indexName cfg) (Some "") Stdio.listTagsParams = inr r ->
  (facetDistribution r = None
   \/ exists fd, facetDistribution r = Some fd /\ lookup_field "tags" fd = None) ->
  fst (Stdio.handleListTags cfg be log) = inr (Stdio.mkTags [])
  /\ fst (Stdio.callTool cfg (mkRequest "list_tags" args) be log)
     = inr (successEnvelope (VObj [("tags", VArr [])])).
Proof.
  intros Hsearch Habsent.
  assert (Hcounts : Stdio.tagCounts r = []).
  { unfold Stdio.tagCounts.
    destruct Habsent as [-> | (fd & -> & ->)]; reflexivity. }
  assert (Hrun : Stdio.handleListTags cfg be log =
                 (inr (Stdio.mkTags []),
                  (log ++ [CSearch (indexName cfg) (Some "") Stdio.listTagsParams])%list)).
  { unfold Stdio.handleListTags. rewrite bind_run, search_run, Hsearch.
    unfold ret. rewrite Hcounts. reflexivity. }
  split.
  - rewrite Hrun. reflexivity.
  - unfold Stdio.callTool, try_catch, Stdio.runTool. simpl.
    rewrite !bind_run, Hrun. reflexivity.
Qed.

Lemma list_tags_without_facets_witness :
  fst (Stdio.handleListTags (config None)
         (fixed (inr noFacets) (inl unreachable)) [])
  = inr (Stdio.mkTags [])
  /\ fst (Stdio.callTool (config None) (mkRequest "list_tags" None)
            (fixed (inr noFacets) (inl unreachable)) [])
     = inr (successEnvelope (VObj [("tags", VArr [])])).
Proof.
  apply (list_tags_without_facets (config None)
           (fixed (inr noFacets) (inl unreachable)) [] noFacets None).
  - reflexivity.
  - left. reflexivity.
Defined.

(** ** The search calls of the handlers *)

Lemma stdio_searchDocs_call cfg a be log :
  snd (Stdio.handleSearchDocs cfg (Some a) be log)
  = (log ++ [CSearch (indexName cfg) (arg_query a)
               (Stdio.searchDocsParams (default 10 (arg_limit a)) (arg_tags a))])%list.
Proof.
  unfold Stdio.handleSearchDocs.
  rewrite bind_run, lift_run. simpl destructure. cbv iota beta.
  rewrite bind_run, search_run.
  destruct (be_search be _ _ _) as [e|r]; [reflexivity|].
  rewrite bind_run, lift_run.
  destruct (map_exc Stdio.normalizeHit (hits r)); reflexivity.
Qed.

Lemma stdio_searchChunks_call cfg a be log :
  snd (Stdio.handleSearchChunks cfg (Some a) be log)
  = (log ++ [CSearch (chunksIndexName cfg) (arg_query a)
               (Stdio.searchChunksParams (default 10 (arg_limit a))
                  (arg_document_id a))])%list.
Proof.
  unfold Stdio.handleSearchChunks.
  rewrite bind_run, lift_run. simpl destructure. cbv iota beta.
  rewrite bind_run, search_run.
  destruct (be_search be _ _ _) as [e|r]; [reflexivity|].
  rewrite bind_run, lift_run.
  destruct (map_exc Stdio.normalizeChunk (hits r)); reflexivity.
Qed.

Lemma sse_searchDocs_call cfg a be log :
  snd (Sse.handleSearchDocs cfg (Some a) be log)
  = (log ++ [CSearch (indexName cfg) (arg_query a)
               (Sse.searchDocsParams (default 10 (arg_limit a)) (arg_tags a))])%list.
Proof.
  unfold Sse.handleSearchDocs.
  rewrite bind_run, lift_run. simpl destructure. cbv iota beta.
  rewrite bind_run, search_run.
  destruct (be_search be _ _ _) as [e|r]; [reflexivity|].
  rewrite bind_run, lift_run.
  destruct (map_exc Sse.normalizeHit (hits r)); reflexivity.
Qed.

Lemma sse_searchChunks_call cfg a be log :
  snd (Sse.handleSearchChunks cfg (Some a) be log)
  = (log ++ [CSearch (chunksIndexName cfg) (arg_query a)
               (Sse.searchChunksParams (default 10 (arg_limit a))
                  (arg_document_id a))])%list.
Proof.
  unfold Sse.handleSearchChunks.
  rewrite bind_run, lift_run. simpl destructure. cbv iota beta.
  rewrite bind_run, search_run.
  destruct (be_search be _ _ _) as [e|r]; reflexivity.
Qed.

(** The dispatch adds no call of its own to those of the tool it runs. *)
Lemma stdio_callTool_log cfg req be log :
  snd (Stdio.callTool cfg req be log) = snd (Stdio.runTool cfg req be log).
Proof.
  unfold Stdio.callTool, try_catch. rewrite bind_run.
  destruct (Stdio.runTool cfg req be log) as [[e|v] log']; reflexivity.
Qed.

Lemma sse_callTool_log cfg req be log :
  snd (Sse.callTool cfg req be log) = snd (Sse.runTool cfg req be log).
Proof.
  unfold Sse.callTool, try_catch. rewrite bind_run.
  destruct (Sse.runTool cfg req be log) as [[e|v] log']; reflexivity.
Qed.

Lemma snd_bind_ret {A B} (m : M A) (f : A -> B) be log :
  snd (bind m (fun r => ret (f r)) be log) = snd (m be log).
Proof.
  rewrite bind_run. destruct (m be log) as [[e|v] log']; reflexivity.
Qed.

(** ** The limit sent to the engine *)

(** [search_chunks] over SSE sends the requested limit as it is. *)
Lemma sse_searchChunks_limit cfg be a :
  sentLimits (snd (run (Sse.callTool cfg (mkRequest "search_chunks" (Some a))) be))
  = [Some (default 10 (arg_limit a))].
Proof.
  unfold run. rewrite sse_callTool_log. unfold Sse.runTool. simpl.
  rewrite snd_bind_ret, sse_searchChunks_call. reflexivity.
Qed.

(** C1, as the code has it. For [search_docs] in both bindings and for
    [search_chunks] in the stdio binding, the limit of the one search call
    is [min(L, 50)] for a requested limit [L] and 10 when none is given; it
    never exceeds 50. No lower bound is applied. *)
Theorem limit_clamped_above (cfg : Config) (be : Backend) (a : Arguments) :
  let sent := Z.min (default 10 (arg_limit a)) 50 in
  sentLimits (snd (run (Stdio.callTool cfg (mkRequest "search_docs" (Some a))) be))
    = [Some sent]
  /\ sentLimits (snd (run (Stdio.callTool cfg (mkRequest "search_chunks" (Some a))) be))
    = [Some sent]
  /\ sentLimits (snd (run (Sse.callTool cfg (mkRequest "search_docs" (Some a))) be))
    = [Some sent]
  /\ sent <= 50
  /\ Z.min (default 10 None) 50 = 10.
Proof.
  cbv zeta. unfold run. repeat split.
  - rewrite stdio_callTool_log. unfold Stdio.runTool. simpl.
    rewrite snd_bind_ret, stdio_searchDocs_call. reflexivity.
  - rewrite stdio_callTool_log. unfold Stdio.runTool. simpl.
    rewrite snd_bind_ret, stdio_searchChunks_call. reflexivity.
  - rewrite sse_callTool_log. unfold Sse.runTool. simpl.
    rewrite snd_bind_ret, sse_searchDocs_call. reflexivity.
  - apply Z.le_min_r.
Qed.

(** C1 as stated fails: a negative limit reaches the engine through
    [Math.min] unchanged, outside [[0, 50]]; and [search_chunks] over SSE
    sends 100 when asked for 100. *)
Lemma limit_not_clamped_to_interval :
  sentLimits
    (snd (run (Stdio.callTool (config None)
                 (mkRequest "search_docs"
                    (Some (mkArgs (Some "redis") (Some (-5)) None None None None))))
            (corpus [])))
  = [Some (-5)]
  /\ ~ (0 <= -5 <= 50)
  /\ sentLimits
       (snd (run (Sse.callTool (config None)
                    (mkRequest "search_chunks"
                       (Some (mkArgs (Some "redis") (Some 100) None None None None))))
               (corpus [])))
     = [Some 100]
  /\ 100 <> Z.min 100 50.
Proof.
  split; [reflexivity|]. split; [lia|]. split; [reflexivity|]. discriminate.
Qed.

(** ** The tag filter *)

Lemma render_anyTag t ts : render (anyTag t ts) = tagsFilter (t :: ts).
Proof.
  revert t. induction ts as [|t' rest IH]; intros t.
  - reflexivity.
  - change (render (anyTag t (t' :: rest)))
      with (render (FEq "tags" t) ++ " OR " ++ render (anyTag t' rest)).
    rewrite IH. reflexivity.
Qed.

Lemma clauses_anyTag t ts :
  clauses (anyTag t ts) = map (fun x => ("tags", x)) (t :: ts).
Proof.
  revert t. induction ts as [|t' rest IH]; intros t; simpl.
  - reflexivity.
  - rewrite IH. reflexivity.
Qed.

Lemma satisfies_anyTag docTags t ts :
  satisfies docTags (anyTag t ts) = true
  <-> exists x, In x (t :: ts) /\ In x docTags.
Proof.
  revert t. induction ts as [|t' rest IH]; intros t.
  - simpl. rewrite existsb_exists. split.
    + intros (x & Hx & Heq). apply String.eqb_eq in Heq. subst x.
      exists t. auto.
    + intros (x & [Heq|[]] & Hin). subst x. exists t. split; [assumption|].
      apply String.eqb_refl.
  - change (satisfies docTags (anyTag t (t' :: rest)))
      with (satisfies docTags (FEq "tags" t)
            || satisfies docTags (anyTag t' rest))%bool.
    rewrite orb_true_iff, IH. simpl. rewrite existsb_exists. split.
    + intros [(x & Hx & Heq)|(x & Hx & Hin)].
      * apply String.eqb_eq in Heq. subst x. exists t. auto.
      * exists x. simpl in Hx. tauto.
    + intros (x & [Heq|Hx] & Hin).
      * subst x. left. exists t. split; [assumption | apply String.eqb_refl].
      * right. exists x. split; assumption.
Qed.

Lemma avoids_append c a b :
  avoids c (a ++ b) = avoids c a && avoids c b.
Proof.
  induction a as [|x a IH]; simpl; [reflexivity|].
  rewrite IH. apply andb_assoc.
Qed.

Lemma splitQuotes_cut a rest :
  quoteFree a = true ->
  splitQuotes (a ++ String (ascii_of_nat 34) rest) = a :: splitQuotes rest.
Proof.
  unfold quoteFree. induction a as [|c a IH]; intros Hfree.
  - reflexivity.
  - simpl in Hfree. apply andb_true_iff in Hfree. destruct Hfree as [Hc Ha].
    apply negb_true_iff in Hc.
    change (splitQuotes (String c a ++ String (ascii_of_nat 34) rest))
      with (if Ascii.eqb c (ascii_of_nat 34)
            then EmptyString :: splitQuotes (a ++ String (ascii_of_nat 34) rest)
            else match splitQuotes (a ++ String (ascii_of_nat 34) rest) with
                 | h :: t => String c h :: t
                 | [] => [String c EmptyString]
                 end).
    rewrite Hc, (IH Ha). reflexivity.
Qed.

Lemma clause_shape prefix attribute v rest :
  prefix ++ render (FEq attribute v) ++ rest
  = (prefix ++ attribute ++ " = ")
    ++ String (ascii_of_nat 34) (v ++ String (ascii_of_nat 34) rest).
Proof.
  cbn [render]. unfold dq.
  repeat rewrite ?string_append_assoc; cbn [append]. reflexivity.
Qed.

Lemma append_empty_r (s : string) : s ++ "" = s.
Proof. induction s as [|c s IH]; simpl; [reflexivity | rewrite IH; reflexivity]. Qed.

Lemma separator_quoteFree (first : bool) attribute :
  quoteFree attribute = true ->
  quoteFree ((if first then "" else " OR ") ++ attribute ++ " = ") = true.
Proof.
  intros H. unfold quoteFree in *. rewrite !avoids_append, H.
  destruct first; reflexivity.
Qed.

Lemma read_clause attribute first v rest :
  quoteFree attribute = true ->
  quoteFree v = true ->
  readValues attribute first
    (splitQuotes ((if first then "" else " OR ") ++ render (FEq attribute v) ++ rest))
  = option_map (cons v) (readValues attribute false (splitQuotes rest)).
Proof.
  intros Hattr Hv.
  rewrite clause_shape.
  rewrite (splitQuotes_cut _ _ (separator_quoteFree first attribute Hattr)).
  rewrite (splitQuotes_cut _ _ Hv).
  cbn [readValues]. rewrite String.eqb_refl. reflexivity.
Qed.

Lemma disjunction_cons attribute v v' vs :
  disjunction attribute (v :: v' :: vs)
  = render (FEq attribute v) ++ " OR " ++ disjunction attribute (v' :: vs).
Proof. reflexivity. Qed.

Lemma read_disjunction attribute first v vs :
  quoteFree attribute = true ->
  forallb quoteFree (v :: vs) = true ->
  readValues attribute first
    (splitQuotes ((if first then "" else " OR ") ++ disjunction attribute (v :: vs)))
  = Some (v :: vs).
Proof.
  intros Hattr. revert first v.
  induction vs as [|v' vs IH]; intros first v Hfree;
    cbn [forallb] in Hfree; apply andb_true_iff in Hfree;
    destruct Hfree as [Hv Hrest].
  - unfold disjunction. cbn [map join].
    rewrite <- (append_empty_r (render (FEq attribute v))).
    rewrite (read_clause attribute first v "" Hattr Hv). reflexivity.
  - rewrite disjunction_cons.
    rewrite (read_clause attribute first v _ Hattr Hv).
    rewrite (IH false v' Hrest). reflexivity.
Qed.

Lemma readFilter_disjunction attribute v vs :
  quoteFree attribute = true ->
  forallb quoteFree (v :: vs) = true ->
  readFilter attribute (disjunction attribute (v :: vs)) = Some (v :: vs).
Proof.
  intros Hattr Hfree. unfold readFilter.
  apply (read_disjunction attribute true v vs Hattr Hfree).
Qed.

Lemma tagsFilter_disjunction ts : tagsFilter ts = disjunction "tags" ts.
Proof. reflexivity. Qed.

Lemma plain_quoteFree vs :
  forallb plainValue vs = true -> forallb quoteFree vs = true.
Proof.
  induction vs as [|v vs IH]; simpl; [reflexivity|].
  intros H. apply andb_true_iff in H. destruct H as [Hv Hvs].
  unfold plainValue in Hv. apply andb_true_iff in Hv.
  rewrite (proj1 Hv), (IH Hvs). reflexivity.
Qed.

Lemma admits_iff (wanted values : list string) :
  existsb (fun w => existsb (String.eqb w) values) wanted = true
  <-> exists x, In x wanted /\ In x values.
Proof.
  rewrite existsb_exists. split.
  - intros (w & Hw & Hex). apply existsb_exists in Hex.
    destruct Hex as (x & Hx & Heq). apply String.eqb_eq in Heq. subst x.
    exists w. auto.
  - intros (x & Hw & Hv). exists x. split; [assumption|].
    apply existsb_exists. exists x. split; [assumption | apply String.eqb_refl].
Qed.


(** C5, as the code has it. In both bindings the one search call of a
    document search with tag list [T] carries, for a non-empty [T], the text
    that joins with [ OR ] one clause [tags = "t"] per member [t] of [T],
    the members put in as they are; when no member holds a double quote or
    a backslash, that text reads back as exactly the members of [T], so
    that a document passes it exactly when it has one of the requested
    tags. When [T] is empty or absent the call carries no filter. *)
Theorem tags_filter_is_or_join (cfg : Config) (be : Backend) (a : Arguments) :
  (exists p,
     snd (run (Stdio.handleSearchDocs cfg (Some a)) be)
       = [CSearch (indexName cfg) (arg_query a) p]
     /\ sp_filter p = tagsFilterSpec (arg_tags a))
  /\ (exists p,
        snd (run (Sse.handleSearchDocs cfg (Some a)) be)
          = [CSearch (indexName cfg) (arg_query a) p]
        /\ sp_filter p = tagsFilterSpec (arg_tags a))
  /\ (forall T,
        arg_tags a = Some T -> T <> [] -> forallb plainValue T = true ->
        exists f,
          tagsFilterSpec (arg_tags a) = Some f
          /\ readFilter "tags" f = Some T
          /\ forall docTags,
               filterAdmits "tags" f docTags = true
               <-> exists x, In x T /\ In x docTags).
Proof.
  unfold run. split; [|split].
  - eexists. split; [apply (stdio_searchDocs_call cfg a be [])|].
    simpl. destruct (arg_tags a) as [[|t ts]|]; try reflexivity.
    simpl. f_equal. symmetry. apply render_anyTag.
  - eexists. split; [apply (sse_searchDocs_call cfg a be [])|].
    simpl. destruct (arg_tags a) as [[|t ts]|]; try reflexivity.
    simpl. f_equal. symmetry. apply render_anyTag.
  - intros T HT Hne Hplain. rewrite HT.
    destruct T as [|t ts]; [congruence|].
    exists (render (anyTag t ts)). split; [reflexivity|].
    assert (Hread : readFilter "tags" (render (anyTag t ts)) = Some (t :: ts)).
    { rewrite render_anyTag, tagsFilter_disjunction.
      apply readFilter_disjunction; [reflexivity|].
      apply plain_quoteFree. assumption. }
    split; [assumption|].
    intros docTags. unfold filterAdmits. rewrite Hread. apply admits_iff.
Qed.

Example tags_filter_two :
  tagsFilterSpec (Some ["adr"; "redis"])
  = Some ("tags = " ++ dq ++ "adr" ++ dq ++ " OR tags = " ++ dq ++ "redis" ++ dq)
  /\ readFilter "tags"
       ("tags = " ++ dq ++ "adr" ++ dq ++ " OR tags = " ++ dq ++ "redis" ++ dq)
     = Some ["adr"; "redis"].
Proof. split; reflexivity. Qed.

(** C5 as stated fails for a tag that holds a double quote: the one tag
    [x" OR tags = "y] gives a filter of two clauses, which admits a
    document tagged [y] although [y] was not requested. *)
Lemma tag_with_quote_adds_clause :
  (exists p,
     snd (run (Stdio.handleSearchDocs (config None)
                 (Some (mkArgs (Some "q") None (Some [smuggle "tags" "x" "y"])
                          None None None)))
            (corpus []))
     = [CSearch "documents" (Some "q") p]
     /\ sp_filter p = Some (disjunction "tags" ["x"; "y"]))
  /\ readFilter "tags" (disjunction "tags" ["x"; "y"]) = Some ["x"; "y"]
  /\ length ["x"; "y"] <> length [smuggle "tags" "x" "y"]
  /\ filterAdmits "tags" (disjunction "tags" ["x"; "y"]) ["y"] = true
  /\ ~ (exists t, In t [smuggle "tags" "x" "y"] /\ In t ["y"]).
Proof.
  split; [eexists; split; reflexivity|].
  split; [reflexivity|]. split; [discriminate|]. split; [reflexivity|].
  intros (t & [Ht|[]] & [Hy|[]]). subst t. vm_compute in Hy. discriminate Hy.
Qed.

(** ** Snippets *)

Lemma substring0_length n s : (String.length (String.substring 0 n s) <= n)%nat.
Proof.
  revert s. induction n as [|n IH]; intros [|c s]; simpl; try lia.
  specialize (IH s). lia.
Qed.

Lemma substring0_prefix n s : String.prefix (String.substring 0 n s) s = true.
Proof.
  revert s. induction n as [|n IH]; intros [|c s]; simpl; try reflexivity.
  destruct (Ascii.ascii_dec c c) as [_|Hne]; [apply IH | congruence].
Qed.

Lemma truthy_js_string (x : option string) :
  truthy (js_string x)
  = match x with
    | Some y => negb (String.eqb y "")
    | None => false
    end.
Proof. destruct x; reflexivity. Qed.

Lemma content_snippet (c : option string) :
  exc_bind (opt_slice0 (js_string c) 300) (fun s => inr (or_else s (VStr "")))
  = inr (VStr (contentSnippet 300 c)).
Proof.
  destruct c as [y|]; [|reflexivity].
  simpl. unfold or_else, str_slice0. simpl.
  destruct (String.eqb_spec (String.substring 0 300 y) "") as [->|_];
    reflexivity.
Qed.

(** C4, as the code has it. For a hit whose highlighted description [d] and
    highlighted content [c] are strings or absent: the stdio binding's
    snippet is [d] when [d] is a non-empty string, else the first 300
    characters of [c], else the empty string; the SSE binding does not
    read [d], its snippet is the first 300 characters of [c], else the
    empty string. The cut is a prefix of [c] of at most 300 characters. *)
Theorem snippet_fallback_order (hit : JsVal) (d c : option string) :
  formatted hit "description" = inr (js_string d) ->
  formatted hit "content" = inr (js_string c) ->
  Stdio.snippet hit = inr (VStr (preferDescription 300 d c))
  /\ Sse.snippet hit = inr (VStr (contentSnippet 300 c))
  /\ (String.length (contentSnippet 300 c) <= 300)%nat
  /\ String.prefix (contentSnippet 300 c) (default "" c) = true.
Proof.
  intros Hd Hc. split; [|split; [|split]].
  - unfold Stdio.snippet. rewrite Hd. cbn [exc_bind].
    rewrite truthy_js_string. destruct d as [x|]; cbn [preferDescription].
    + destruct (String.eqb x ""); cbn [negb].
      * rewrite Hc. cbn [exc_bind]. apply content_snippet.
      * reflexivity.
    + rewrite Hc. cbn [exc_bind]. apply content_snippet.
  - unfold Sse.snippet. rewrite Hc. cbn [exc_bind]. apply content_snippet.
  - destruct c as [y|]; simpl; [apply substring0_length | lia].
  - destruct c as [y|]; [apply substring0_prefix | reflexivity].
Qed.

Lemma snippet_fallback_order_witness :
  Stdio.snippet hitBoth
    = inr (VStr (preferDescription 300
                   (Some "**Redis** is not used for sessions")
                   (Some "We decided against **Redis** because")))
  /\ Sse.snippet hitBoth
     = inr (VStr (contentSnippet 300 (Some "We decided against **Redis** because")))
  /\ (String.length
        (contentSnippet 300 (Some "We decided against **Redis** because")) <= 300)%nat
  /\ String.prefix
       (contentSnippet 300 (Some "We decided against **Redis** because"))
       (default "" (Some "We decided against **Redis** because")) = true.
Proof.
  apply (snippet_fallback_order hitBoth
           (Some "**Redis** is not used for sessions")
           (Some "We decided against **Redis** because"));
    reflexivity.
Defined.

(** The snippet of a normalized hit is the one computed by [snippet]. *)
Lemma stdio_normalizeHit_snippet hit r :
  Stdio.normalizeHit hit = inr r -> Stdio.snippet hit = inr (Stdio.r_snippet r).
Proof.
  unfold Stdio.normalizeHit. intros H.
  repeat match type of H with
         | exc_bind ?m _ = _ => destruct m; cbn [exc_bind] in H; try discriminate
         end.
  inversion H. reflexivity.
Qed.

Lemma sse_normalizeHit_snippet hit r :
  Sse.normalizeHit hit = inr r -> Sse.snippet hit = inr (Sse.r_snippet r).
Proof.
  unfold Sse.normalizeHit. intros H.
  repeat match type of H with
         | exc_bind ?m _ = _ => destruct m; cbn [exc_bind] in H; try discriminate
         end.
  inversion H. reflexivity.
Qed.

(** C4 as stated fails over SSE: a hit with both a highlighted description
    and highlighted content gets the content, not the description. *)
Lemma sse_snippet_ignores_description :
  formatted hitBoth "description" = inr (VStr "**Redis** is not used for sessions")
  /\ option_map Sse.r_snippet
       (match Sse.normalizeHit hitBoth with inr r => Some r | inl _ => None end)
     = Some (VStr "We decided against **Redis** because")
  /\ option_map Stdio.r_snippet
       (match Stdio.normalizeHit hitBoth with inr r => Some r | inl _ => None end)
     = Some (VStr "**Redis** is not used for sessions").
Proof. repeat split. Qed.

Example snippet_content_only :
  Stdio.snippet hitContentOnly = inr (VStr "Deployments are driven by **GitOps**").
Proof. reflexivity. Qed.

Example snippet_neither : Stdio.snippet hitPlain = inr (VStr "").
Proof. reflexivity. Qed.

(** ** Decision lookup *)

Lemma map_exc_length {A B} (f : A -> Exc B) xs ys :
  map_exc f xs = inr ys -> length ys = length xs.
Proof.
  revert ys. induction xs as [|x xs IH]; simpl; intros ys H.
  - inversion H. reflexivity.
  - destruct (f x) as [e|y]; cbn [exc_bind] in H; [discriminate|].
    destruct (map_exc f xs) as [e|ys']; cbn [exc_bind] in H; [discriminate|].
    inversion H. simpl. f_equal. apply IH. reflexivity.
Qed.

Lemma stdio_searchDocs_run cfg a be log r docs :
  be_search be (indexName cfg) (arg_query a)
    (Stdio.searchDocsParams (default 10 (arg_limit a)) (arg_tags a)) = inr r ->
  map_exc Stdio.normalizeHit (hits r) = inr docs ->
  Stdio.handleSearchDocs cfg (Some a) be log
  = (inr (Stdio.mkDocs (estimatedTotalHits r) docs),
     (log ++ [CSearch (indexName cfg) (arg_query a)
                (Stdio.searchDocsParams (default 10 (arg_limit a)) (arg_tags a))])%list).
Proof.
  intros Hs Hn. unfold Stdio.handleSearchDocs.
  rewrite bind_run, lift_run. simpl destructure. cbv iota beta.
  rewrite bind_run, search_run, Hs, bind_run, lift_run, Hn. reflexivity.
Qed.

Lemma sse_searchDocs_run cfg a be log r docs :
  be_search be (indexName cfg) (arg_query a)
    (Sse.searchDocsParams (default 10 (arg_limit a)) (arg_tags a)) = inr r ->
  map_exc Sse.normalizeHit (hits r) = inr docs ->
  Sse.handleSearchDocs cfg (Some a) be log
  = (inr (Sse.mkDocs (estimatedTotalHits r) docs),
     (log ++ [CSearch (indexName cfg) (arg_query a)
                (Sse.searchDocsParams (default 10 (arg_limit a)) (arg_tags a))])%list).
Proof.
  intros Hs Hn. unfold Sse.handleSearchDocs.
  rewrite bind_run, lift_run. simpl destructure. cbv iota beta.
  rewrite bind_run, search_run, Hs, bind_run, lift_run, Hn. reflexivity.
Qed.

Lemma map_exc_failure {A B} (f : A -> Exc B) xs e :
  map_exc f xs = inl e -> exists x, In x xs /\ f x = inl e.
Proof.
  induction xs as [|x xs IH]; simpl; intros H; [discriminate|].
  destruct (f x) as [e'|y] eqn:Hx; cbn [exc_bind] in H.
  - inversion H. subst e'. exists x. auto.
  - destruct (map_exc f xs) as [e'|ys]; cbn [exc_bind] in H; [|discriminate].
    inversion H. subst e'. destruct (IH eq_refl) as (x' & Hin & Hx').
    exists x'. auto.
Qed.

Lemma get_error_kind v k e : get v k = inl e -> err_kind e = KTypeError.
Proof. destruct v; simpl; intros H; inversion H; reflexivity. Qed.

Lemma formatted_error_kind hit k e :
  formatted hit k = inl e -> err_kind e = KTypeError.
Proof.
  unfold formatted. intros H.
  destruct (get hit "_formatted") as [e'|f] eqn:Hf; cbn [exc_bind] in H.
  - inversion H. subst e'. apply (get_error_kind _ _ _ Hf).
  - destruct (opt_get_total f k) as [y Hy]. congruence.
Qed.

Lemma opt_slice0_error_kind v n e :
  opt_slice0 v n = inl e -> err_kind e = KTypeError.
Proof. destruct v; simpl; intros H; inversion H; reflexivity. Qed.

Lemma stdio_snippet_error_kind hit e :
  Stdio.snippet hit = inl e -> err_kind e = KTypeError.
Proof.
  unfold Stdio.snippet. intros H.
  destruct (formatted hit "description") as [e'|d] eqn:Hd; cbn [exc_bind] in H.
  { inversion H. subst e'. apply (formatted_error_kind _ _ _ Hd). }
  destruct (truthy d); [discriminate|].
  destruct (formatted hit "content") as [e'|c] eqn:Hc; cbn [exc_bind] in H.
  { inversion H. subst e'. apply (formatted_error_kind _ _ _ Hc). }
  destruct (opt_slice0 c 300) as [e'|sl] eqn:Hsl; cbn [exc_bind] in H;
    [|discriminate].
  inversion H. subst e'. apply (opt_slice0_error_kind _ _ _ Hsl).
Qed.

Lemma sse_snippet_error_kind hit e :
  Sse.snippet hit = inl e -> err_kind e = KTypeError.
Proof.
  unfold Sse.snippet. intros H.
  destruct (formatted hit "content") as [e'|c] eqn:Hc; cbn [exc_bind] in H.
  { inversion H. subst e'. apply (formatted_error_kind _ _ _ Hc). }
  destruct (opt_slice0 c 300) as [e'|sl] eqn:Hsl; cbn [exc_bind] in H;
    [|discriminate].
  inversion H. subst e'. apply (opt_slice0_error_kind _ _ _ Hsl).
Qed.

Ltac step_get H :=
  match type of H with
  | exc_bind (get ?h ?k) _ = _ =>
      let e := fresh "e" in
      let v := fresh "v" in
      let Hg := fresh "Hget" in
      destruct (get h k) as [e|v] eqn:Hg; cbn [exc_bind] in H
  end.

Lemma stdio_normalizeHit_error_kind hit e :
  Stdio.normalizeHit hit = inl e -> err_kind e = KTypeError.
Proof.
  unfold Stdio.normalizeHit. intros H.
  repeat (step_get H;
          [inversion H; subst; eapply get_error_kind; eassumption|]).
  destruct (Stdio.snippet hit) as [e'|sn] eqn:Hsn; cbn [exc_bind] in H;
    [|discriminate].
  inversion H. subst e'. apply (stdio_snippet_error_kind _ _ Hsn).
Qed.

Lemma sse_normalizeHit_error_kind hit e :
  Sse.normalizeHit hit = inl e -> err_kind e = KTypeError.
Proof.
  unfold Sse.normalizeHit. intros H.
  repeat (step_get H;
          [inversion H; subst; eapply get_error_kind; eassumption|]).
  destruct (Sse.snippet hit) as [e'|sn] eqn:Hsn; cbn [exc_bind] in H;
    [|discriminate].
  inversion H. subst e'. apply (sse_snippet_error_kind _ _ Hsn).
Qed.

(** The snippets of the handlers are the snippets of the hits. *)
Lemma sse_snippet_iff hit snip :
  Sse.snippet hit = inr snip <-> isContentCutOf hit snip.
Proof.
  unfold Sse.snippet, isContentCutOf, or_else. split.
  - intros H.
    destruct (formatted hit "content") as [e|c]; cbn [exc_bind] in H;
      [discriminate|].
    destruct (opt_slice0 c 300) as [e|cut] eqn:Hcut; cbn [exc_bind] in H;
      [discriminate|].
    inversion H. exists c, cut. repeat split. exact Hcut.
  - intros (c & cut & -> & Hcut & ->). cbn [exc_bind]. rewrite Hcut.
    reflexivity.
Qed.

Lemma stdio_snippet_iff hit snip :
  Stdio.snippet hit = inr snip <-> isSnippetOf hit snip.
Proof.
  unfold isSnippetOf. split.
  - intros H. unfold Stdio.snippet in H.
    destruct (formatted hit "description") as [e|fd]; cbn [exc_bind] in H;
      [discriminate|].
    exists fd. split; [reflexivity|].
    destruct (truthy fd); [inversion H; reflexivity|].
    apply sse_snippet_iff. exact H.
  - intros (fd & Hfd & H). unfold Stdio.snippet. rewrite Hfd. cbn [exc_bind].
    destruct (truthy fd); [rewrite H; reflexivity|].
    apply sse_snippet_iff in H. exact H.
Qed.

(** A hit is normalized exactly when it has an evidence entry, which is
    then the entry built from the normalized hit. *)
Lemma stdio_normalized_evidence hit d :
  Stdio.normalizeHit hit = inr d ->
  isEvidenceOf hit (Stdio.evidenceJs (Stdio.evidenceOf d)).
Proof.
  unfold Stdio.normalizeHit. intros H.
  repeat (step_get H; [discriminate|]).
  destruct (Stdio.snippet hit) as [e'|sn] eqn:Hsn; cbn [exc_bind] in H;
    [discriminate|].
  inversion H. subst d. unfold isEvidenceOf.
  apply stdio_snippet_iff in Hsn.
  do 6 eexists. repeat split; try eassumption; try reflexivity.
Qed.

Lemma stdio_evidence_normalizes hit v :
  isEvidenceOf hit v -> exists d, Stdio.normalizeHit hit = inr d.
Proof.
  intros (title & path & descr & tags & src & snip
          & Ht & Hp & Hd & Htg & Hs & Hsn & _).
  destruct (get_other_key hit "title" "id" title Ht) as [id Hid].
  destruct (get_other_key hit "title" "updated_at" title Ht) as [upd Hupd].
  apply stdio_snippet_iff in Hsn. unfold Stdio.normalizeHit.
  rewrite Hid, Ht, Hp, Hd, Htg, Hs, Hupd, Hsn. cbn [exc_bind]. eauto.
Qed.

Lemma sse_normalized_document hit d :
  Sse.normalizeHit hit = inr d -> isSseDocumentOf hit (Sse.docResultJs d).
Proof.
  unfold Sse.normalizeHit. intros H.
  repeat (step_get H; [discriminate|]).
  destruct (Sse.snippet hit) as [e'|sn] eqn:Hsn; cbn [exc_bind] in H;
    [discriminate|].
  inversion H. subst d. unfold isSseDocumentOf.
  apply sse_snippet_iff in Hsn.
  do 5 eexists. repeat split; try eassumption; try reflexivity.
Qed.

Lemma sse_document_normalizes hit v :
  isSseDocumentOf hit v -> exists d, Sse.normalizeHit hit = inr d.
Proof.
  intros (id & title & path & tags & snip & Hid & Ht & Hp & Htg & Hsn & _).
  apply sse_snippet_iff in Hsn. unfold Sse.normalizeHit.
  rewrite Hid, Ht, Hp, Htg, Hsn. cbn [exc_bind]. eauto.
Qed.

Lemma Forall2_map_r {A B C} (R : A -> C -> Prop) (g : B -> C) xs ys :
  Forall2 (fun x y => R x (g y)) xs ys -> Forall2 R xs (map g ys).
Proof. induction 1; simpl; constructor; assumption. Qed.

(** The outcome of the stdio [lookup_decision] from the outcome of its
    search and of the normalization of the hits. *)
Lemma stdio_lookup_run cfg be log a :
  Stdio.runTool cfg (mkRequest "lookup_decision" (Some a)) be log
  = (match be_search be (indexName cfg) (arg_question a) stdioLookupParams with
     | inl e => inl e
     | inr r =>
         match map_exc Stdio.normalizeHit (hits r) with
         | inl e => inl e
         | inr docs =>
             inr (match docs with
                  | [] => VObj [ ("found", VBool false);
                                 ("message", VStr notFoundMessage);
                                 ("suggestion", VStr notFoundSuggestion) ]
                  | _ :: _ =>
                      VObj [ ("found", VBool true);
                             ("question", js_string (arg_question a));
                             ("relevant_documents",
                              VArr (map (fun d => Stdio.evidenceJs (Stdio.evidenceOf d)) docs));
                             ("note", VStr synthesisNote) ]
                  end)
         end
     end,
     (log ++ [CSearch (indexName cfg) (arg_question a) stdioLookupParams])%list).
Proof.
  unfold Stdio.runTool. cbn [name arguments String.eqb Ascii.eqb Bool.eqb].
  unfold Stdio.handleLookupDecision, Stdio.handleSearchDocs.
  rewrite !bind_run, !lift_run. cbn [destructure]. cbv zeta.
  rewrite !bind_run, !lift_run. cbn [destructure arg_query arg_limit arg_tags default].
  rewrite !bind_run, search_run.
  change (Stdio.searchDocsParams 5 None) with stdioLookupParams.
  destruct (be_search be _ _ stdioLookupParams) as [e|r]; [reflexivity|].
  rewrite bind_run, lift_run.
  destruct (map_exc Stdio.normalizeHit (hits r)) as [e|docs]; [reflexivity|].
  destruct docs as [|d docs]; [reflexivity|].
  cbn. rewrite map_map. reflexivity.
Qed.

Lemma sse_lookup_run cfg be log a :
  Sse.runTool cfg (mkRequest "lookup_decision" (Some a)) be log
  = (match be_search be (indexName cfg) (arg_question a) sseLookupParams with
     | inl e => inl e
     | inr r =>
         match map_exc Sse.normalizeHit (hits r) with
         | inl e => inl e
         | inr docs =>
             inr (match docs with
                  | [] => VObj [ ("found", VBool false);
                                 ("message", VStr "No relevant decisions found.") ]
                  | _ :: _ =>
                      VObj [ ("found", VBool true);
                             ("question", js_string (arg_question a));
                             ("relevant_documents",
                              VArr (map Sse.docResultJs docs)) ]
                  end)
         end
     end,
     (log ++ [CSearch (indexName cfg) (arg_question a) sseLookupParams])%list).
Proof.
  unfold Sse.runTool. cbn [name arguments String.eqb Ascii.eqb Bool.eqb].
  unfold Sse.handleLookupDecision, Sse.handleSearchDocs.
  rewrite !bind_run, !lift_run. cbn [member]. 
  rewrite !bind_run, !lift_run. cbn [destructure arg_query arg_limit arg_tags default].
  cbv zeta. rewrite !bind_run, search_run.
  change (Sse.searchDocsParams 5 None) with sseLookupParams.
  destruct (be_search be _ _ sseLookupParams) as [e|r]; [reflexivity|].
  rewrite bind_run, lift_run.
  destruct (map_exc Sse.normalizeHit (hits r)) as [e|docs]; [reflexivity|].
  destruct docs as [|d docs]; reflexivity.
Qed.

Lemma Forall2_In_l {A B} (R : A -> B -> Prop) xs ys x :
  Forall2 R xs ys -> In x xs -> exists y, R x y.
Proof.
  induction 1 as [|x' y' xs ys Hxy _ IH]; simpl; [tauto|].
  intros [<-|Hin]; eauto.
Qed.

(** C3, as the code has it. [lookup_decision] runs one document search with
    the question as text, limit 5 and no filter, and fails with the
    search's error when that fails. In the stdio binding, when every hit
    can be normalized: zero hits give [found: false] with the message and
    the suggestion and no [relevant_documents] field; one or more hits give
    [found: true], the question, one [relevant_documents] entry per hit in
    order -- the hit's title, path and source_url, its description and
    tags or their defaults, and its snippet -- and the fixed note; that is
    [min(hits, 5)] entries when the engine honours the limit. A hit that
    cannot be normalized fails the call with a [TypeError]. In the SSE
    binding the same holds with these results: [found: false] with a
    message only, and [found: true] with the question and, per hit, its
    normalized [id, title, path, tags, snippet], without a note. *)
Theorem lookup_decision_result
  (cfg : Config) (be : Backend) (log : list Call)
  (q : option string) (l : option Z) (t : option (list string))
  (d i : option string) (question : string) :
  let request :=
    mkRequest "lookup_decision" (Some (mkArgs q l t d i (Some question))) in
  let stdio := Stdio.runTool cfg request be log in
  let sse := Sse.runTool cfg request be log in
  snd stdio
    = (log ++ [CSearch (indexName cfg) (Some question) stdioLookupParams])%list
  /\ sp_limit stdioLookupParams = Some 5
  /\ sp_filter stdioLookupParams = None
  /\ (forall e,
        be_search be (indexName cfg) (Some question) stdioLookupParams = inl e ->
        fst stdio = inl e)
  /\ (forall r,
        be_search be (indexName cfg) (Some question) stdioLookupParams = inr r ->
        ((forall h, In h (hits r) -> exists v, isEvidenceOf h v) ->
         exists evidence,
           Forall2 isEvidenceOf (hits r) evidence
           /\ length evidence = length (hits r)
           /\ ((length (hits r) <= 5)%nat ->
               length evidence = Nat.min (length (hits r)) 5)
           /\ fst stdio
              = inr (match hits r with
                     | [] => VObj [ ("found", VBool false);
                                    ("message", VStr notFoundMessage);
                                    ("suggestion", VStr notFoundSuggestion) ]
                     | _ :: _ =>
                         VObj [ ("found", VBool true);
                                ("question", VStr question);
                                ("relevant_documents", VArr evidence);
                                ("note", VStr synthesisNote) ]
                     end))
        /\ (~ (forall h, In h (hits r) -> exists v, isEvidenceOf h v) ->
            exists e, fst stdio = inl e /\ err_kind e = KTypeError))
  /\ snd sse
     = (log ++ [CSearch (indexName cfg) (Some question) sseLookupParams])%list
  /\ sp_limit sseLookupParams = Some 5
  /\ sp_filter sseLookupParams = None
  /\ (forall e,
        be_search be (indexName cfg) (Some question) sseLookupParams = inl e ->
        fst sse = inl e)
  /\ (forall r,
        be_search be (indexName cfg) (Some question) sseLookupParams = inr r ->
        ((forall h, In h (hits r) -> exists v, isSseDocumentOf h v) ->
         exists documents,
           Forall2 isSseDocumentOf (hits r) documents
           /\ length documents = length (hits r)
           /\ fst sse
              = inr (match hits r with
                     | [] => VObj [ ("found", VBool false);
                                    ("message", VStr "No relevant decisions found.") ]
                     | _ :: _ =>
                         VObj [ ("found", VBool true);
                                ("question", VStr question);
                                ("relevant_documents", VArr documents) ]
                     end))
        /\ (~ (forall h, In h (hits r) -> exists v, isSseDocumentOf h v) ->
            exists e, fst sse = inl e /\ err_kind e = KTypeError)).
Proof.
  cbv zeta. rewrite stdio_lookup_run, sse_lookup_run. cbn [arg_question fst snd].
  split; [reflexivity|]. split; [reflexivity|]. split; [reflexivity|].
  split; [intros e ->; reflexivity|].
  split.
  { intros r ->. split.
    - intros Hall.
      destruct (map_exc Stdio.normalizeHit (hits r)) as [e|docs] eqn:Hn.
      + exfalso. destruct (map_exc_failure _ _ _ Hn) as (h & Hin & Hh).
        destruct (Hall h Hin) as [v Hv].
        destruct (stdio_evidence_normalizes h v Hv) as [d' Hd']. congruence.
      + pose proof (map_exc_length _ _ _ Hn) as Hlen.
        exists (map (fun d' => Stdio.evidenceJs (Stdio.evidenceOf d')) docs).
        split; [|split; [|split]].
        * apply Forall2_map_r. refine (Forall2_impl _ _ (map_exc_Forall2 _ _ _ Hn)).
          intros h d' Hh. apply stdio_normalized_evidence. assumption.
        * rewrite length_map. assumption.
        * intros Hle. rewrite length_map, Hlen. lia.
        * destruct docs as [|d0 docs], (hits r) as [|h0 hs];
            try discriminate Hlen; reflexivity.
    - intros Hnot.
      destruct (map_exc Stdio.normalizeHit (hits r)) as [e|docs] eqn:Hn.
      + exists e. split; [reflexivity|].
        destruct (map_exc_failure _ _ _ Hn) as (h & _ & Hh).
        apply (stdio_normalizeHit_error_kind h e Hh).
      + exfalso. apply Hnot. intros h Hin.
        destruct (Forall2_In_l _ _ _ h (map_exc_Forall2 _ _ _ Hn) Hin) as [d' Hd'].
        eexists. apply (stdio_normalized_evidence h d' Hd'). }
  split; [reflexivity|]. split; [reflexivity|]. split; [reflexivity|].
  split; [intros e ->; reflexivity|].
  intros r ->. split.
  - intros Hall.
    destruct (map_exc Sse.normalizeHit (hits r)) as [e|docs] eqn:Hn.
    + exfalso. destruct (map_exc_failure _ _ _ Hn) as (h & Hin & Hh).
      destruct (Hall h Hin) as [v Hv].
      destruct (sse_document_normalizes h v Hv) as [d' Hd']. congruence.
    + pose proof (map_exc_length _ _ _ Hn) as Hlen.
      exists (map Sse.docResultJs docs).
      split; [|split].
      * apply Forall2_map_r. refine (Forall2_impl _ _ (map_exc_Forall2 _ _ _ Hn)).
        intros h d' Hh. apply sse_normalized_document. assumption.
      * rewrite length_map. assumption.
      * destruct docs as [|d0 docs], (hits r) as [|h0 hs];
          try discriminate Hlen; reflexivity.
  - intros Hnot.
    destruct (map_exc Sse.normalizeHit (hits r)) as [e|docs] eqn:Hn.
    + exists e. split; [reflexivity|].
      destruct (map_exc_failure _ _ _ Hn) as (h & _ & Hh).
      apply (sse_normalizeHit_error_kind h e Hh).
    + exfalso. apply Hnot. intros h Hin.
      destruct (Forall2_In_l _ _ _ h (map_exc_Forall2 _ _ _ Hn) Hin) as [d' Hd'].
      eexists. apply (sse_normalized_document h d' Hd').
Qed.

Lemma lookup_decision_result_witness :
  exists evidence,
    Forall2 isEvidenceOf [hitBoth; hitContentOnly] evidence
    /\ length evidence = 2%nat
    /\ fst (Stdio.runTool (config None)
              (mkRequest "lookup_decision" (Some (asking "redis")))
              (corpus [hitBoth; hitContentOnly]) [])
       = inr (VObj [ ("found", VBool true);
                     ("question", VStr "redis");
                     ("relevant_documents", VArr evidence);
                     ("note", VStr synthesisNote) ]).
Proof.
  destruct (lookup_decision_result (config None)
              (corpus [hitBoth; hitContentOnly]) []
              None None None None None "redis")
    as (_ & _ & _ & _ & Hstdio & _).
  destruct (Hstdio {| hits := [hitBoth; hitContentOnly];
                      estimatedTotalHits := VNum 2;
                      facetDistribution := None |} eq_refl) as [Hok _].
  destruct Hok as (evidence & Hev & Hlen & _ & Hres).
  - intros h [<-|[<-|[]]]; eexists;
      eapply stdio_normalized_evidence; reflexivity.
  - exists evidence. split; [exact Hev|]. split; [exact Hlen | exact Hres].
Defined.

(** The evidence of a hit, written out. *)
Example lookup_decision_evidence :
  fst (Stdio.runTool (config None)
         (mkRequest "lookup_decision" (Some (asking "redis")))
         (corpus [hitContentOnly]) [])
  = inr (VObj [ ("found", VBool true);
                ("question", VStr "redis");
                ("relevant_documents",
                 VArr [ VObj [ ("title", VStr "GitOps");
                               ("path", VStr "adr/0008-gitops.md");
                               ("description", VStr "");
                               ("tags", VArr []);
                               ("source_url", VUndefined);
                               ("snippet", VStr "Deployments are driven by **GitOps**") ] ]);
                ("note", VStr synthesisNote) ]).
Proof. reflexivity. Qed.

Example lookup_decision_no_hits :
  returned (run (Stdio.handleLookupDecision (config None) (Some (asking "redis")))
              (corpus []))
  = Some (Stdio.NotFound notFoundMessage notFoundSuggestion).
Proof. reflexivity. Qed.

(** C3 as stated fails over SSE: with no hit the result has a message and no
    suggestion; with a hit it has no note, and its documents carry the
    fields [id, title, path, tags, snippet]. *)
Lemma sse_lookup_decision_shape :
  returned (run (Sse.runTool (config None)
                   (mkRequest "lookup_decision" (Some (asking "redis"))))
              (corpus []))
  = Some (VObj [ ("found", VBool false);
                 ("message", VStr "No relevant decisions found.") ])
  /\ option_map (hasField "suggestion")
       (returned (run (Sse.runTool (config None)
                         (mkRequest "lookup_decision" (Some (asking "redis"))))
                    (corpus [])))
     = Some false
  /\ option_map (hasField "note")
       (returned (run (Sse.runTool (config None)
                         (mkRequest "lookup_decision" (Some (asking "redis"))))
                    (corpus [hitBoth])))
     = Some false
  /\ option_map (hasField "relevant_documents")
       (returned (run (Sse.runTool (config None)
                         (mkRequest "lookup_decision" (Some (asking "redis"))))
                    (corpus [hitBoth])))
     = Some true.
Proof. repeat split. Qed.

(** ** Document retrieval *)

(** C2, as the code has it. [get_document] first asks the engine for the
    document of that identifier and returns it when the lookup succeeds,
    without searching. When the lookup fails -- with whatever error -- it
    runs one search with empty text, filter [path = "id"] and limit 1; it
    returns the first hit when there is one (so the document, when exactly
    one has that path) and fails with [Document not found: id] when there
    is none. Both bindings do the same. *)
Theorem get_document_fallback
  (cfg : Config) (be : Backend) (log : list Call) (id : string)
  (e : JsError) (r : SearchResponse) :
  be_getDocument be (indexName cfg) (Some id) = inl e ->
  be_search be (indexName cfg) (Some "")
    (mkParams (Some 1) None None None None
       (Some (pathEquals id)) None) = inr r ->
  let outcome :=
    (match hits r with
     | hit :: _ => inr hit
     | [] => inl (mkError KError ("Document not found: " ++ id))
     end,
     (log ++ [CGetDocument (indexName cfg) (Some id)]
          ++ [CSearch (indexName cfg) (Some "")
                (mkParams (Some 1) None None None None
                   (Some (pathEquals id)) None)])%list) in
  Stdio.handleGetDocument cfg (Some (withId id)) be log = outcome
  /\ Sse.handleGetDocument cfg (Some (withId id)) be log = outcome
  /\ (forall be' doc,
        be_getDocument be' (indexName cfg) (Some id) = inr doc ->
        Stdio.handleGetDocument cfg (Some (withId id)) be' log
          = (inr doc, (log ++ [CGetDocument (indexName cfg) (Some id)])%list)
        /\ Sse.handleGetDocument cfg (Some (withId id)) be' log
          = (inr doc, (log ++ [CGetDocument (indexName cfg) (Some id)])%list)).
Proof.
  intros Hget Hsearch outcome. subst outcome. split; [|split].
  - unfold Stdio.handleGetDocument.
    rewrite bind_run, lift_run. cbn [destructure withId arg_id]. cbv zeta.
    unfold try_catch. rewrite getDocument_run, Hget.
    rewrite bind_run, search_run. unfold Stdio.pathParams, tpl. fold (pathEquals id).
    rewrite Hsearch, <- app_assoc.
    destruct (hits r); reflexivity.
  - unfold Sse.handleGetDocument, try_catch.
    rewrite bind_run, lift_run. cbn [member withId arg_id].
    rewrite getDocument_run, Hget.
    rewrite bind_run, lift_run. cbn [member withId arg_id].
    rewrite bind_run, search_run. unfold Sse.pathParams, tpl. fold (pathEquals id).
    rewrite Hsearch, <- app_assoc.
    destruct (hits r); reflexivity.
  - intros be' doc Hdoc. split.
    + unfold Stdio.handleGetDocument.
      rewrite bind_run, lift_run. cbn [destructure withId arg_id]. cbv zeta.
      unfold try_catch. rewrite getDocument_run, Hdoc. reflexivity.
    + unfold Sse.handleGetDocument, try_catch.
      rewrite bind_run, lift_run. cbn [member withId arg_id].
      rewrite getDocument_run, Hdoc. reflexivity.
Qed.

Lemma get_document_fallback_witness :
  Stdio.handleGetDocument (config None) (Some (withId "adr/0008-gitops.md"))
    (corpus [hitBoth; hitContentOnly]) []
  = (inr hitContentOnly,
     [CGetDocument "documents" (Some "adr/0008-gitops.md");
      CSearch "documents" (Some "")
        (mkParams (Some 1) None None None None
           (Some (pathEquals "adr/0008-gitops.md")) None)])
  /\ Sse.handleGetDocument (config None) (Some (withId "adr/0008-gitops.md"))
       (corpus [hitBoth; hitContentOnly]) []
     = (inr hitContentOnly,
        [CGetDocument "documents" (Some "adr/0008-gitops.md");
         CSearch "documents" (Some "")
           (mkParams (Some 1) None None None None
              (Some (pathEquals "adr/0008-gitops.md")) None)]).
Proof.
  destruct (get_document_fallback (config None)
              (corpus [hitBoth; hitContentOnly]) [] "adr/0008-gitops.md"
              (mkError KDocumentNotFound
                 "Document `adr/0008-gitops.md` not found.")
              {| hits := [hitContentOnly];
                 estimatedTotalHits := VNum 1;
                 facetDistribution := None |}
              eq_refl eq_refl)
    as (Hstdio & Hsse & _).
  split; [exact Hstdio | exact Hsse].
Defined.

Example get_document_by_id :
  returned (run (Stdio.handleGetDocument (config None) (Some (withId "adr-7")))
              (corpus [hitBoth; hitContentOnly]))
  = Some hitBoth.
Proof. reflexivity. Qed.

Example get_document_unknown :
  fst (run (Stdio.handleGetDocument (config None) (Some (withId "nowhere")))
         (corpus [hitBoth; hitContentOnly]))
  = inl (mkError KError "Document not found: nowhere").
Proof. reflexivity. Qed.

(** C2 as stated fails: the fallback is not reserved to a not-found answer.
    When the lookup by identifier fails because the engine could not be
    reached, the search by path is run all the same and its hit returned. *)
Lemma get_document_falls_back_on_any_error :
  be_getDocument lookupUnreachable "documents" (Some "adr/0008-gitops.md")
    = inl (mkError KCommunication "fetch failed")
  /\ KCommunication <> KDocumentNotFound
  /\ run (Stdio.handleGetDocument (config None)
            (Some (withId "adr/0008-gitops.md"))) lookupUnreachable
     = (inr hitContentOnly,
        [CGetDocument "documents" (Some "adr/0008-gitops.md");
         CSearch "documents" (Some "")
           (mkParams (Some 1) None None None None
              (Some (pathEquals "adr/0008-gitops.md")) None)])
  /\ run (Sse.handleGetDocument (config None)
            (Some (withId "adr/0008-gitops.md"))) lookupUnreachable
     = (inr hitContentOnly,
        [CGetDocument "documents" (Some "adr/0008-gitops.md");
         CSearch "documents" (Some "")
           (mkParams (Some 1) None None None None
              (Some (pathEquals "adr/0008-gitops.md")) None)]).
Proof.
  split; [reflexivity|]. split; [discriminate|]. split; reflexivity.
Qed.

(** ** The dispatch *)

Lemma stdio_unknown_tool cfg req :
  ~ In (name req) (map tool_name Stdio.tools) ->
  Stdio.runTool cfg req = unknownTool (name req).
Proof.
  intros Hnot. unfold Stdio.runTool. simpl in Hnot.
  repeat match goal with
         | |- context [String.eqb (name req) ?s] =>
             destruct (String.eqb_spec (name req) s) as [Heq|_];
             [exfalso; apply Hnot; rewrite Heq; simpl; tauto|]
         end.
  reflexivity.
Qed.

Lemma sse_unknown_tool cfg req :
  ~ In (name req) (map tool_name Sse.tools) ->
  Sse.runTool cfg req = unknownTool (name req).
Proof.
  intros Hnot. unfold Sse.runTool. simpl in Hnot.
  repeat match goal with
         | |- context [String.eqb (name req) ?s] =>
             destruct (String.eqb_spec (name req) s) as [Heq|_];
             [exfalso; apply Hnot; rewrite Heq; simpl; tauto|]
         end.
  reflexivity.
Qed.

Lemma stdio_callTool_run cfg req be log :
  Stdio.callTool cfg req be log
  = match Stdio.runTool cfg req be log with
    | (inl e, log') => (inr (errorEnvelope (message e)), log')
    | (inr v, log') => (inr (successEnvelope v), log')
    end.
Proof.
  unfold Stdio.callTool, try_catch. rewrite bind_run.
  destruct (Stdio.runTool cfg req be log) as [[e|v] log']; reflexivity.
Qed.

Lemma sse_callTool_run cfg req be log :
  Sse.callTool cfg req be log
  = match Sse.runTool cfg req be log with
    | (inl e, log') => (inr (errorEnvelope (message e)), log')
    | (inr v, log') => (inr (successEnvelope v), log')
    end.
Proof.
  unfold Sse.callTool, try_catch. rewrite bind_run.
  destruct (Sse.runTool cfg req be log) as [[e|v] log']; reflexivity.
Qed.

(** C8. In both bindings the tools/call handler answers every invocation
    with one envelope and never throws: a success of the tool is wrapped as
    the success envelope, a failure of the tool -- whatever it is -- as the
    error envelope with [isError: true] and the failure's message, and a
    name that is not in the registry gives the error envelope with
    [Unknown tool: name] without a call to the engine. *)
Theorem dispatch_always_responds
  (cfg : Config) (req : Request) (be : Backend) (log : list Call) :
  (exists env,
     fst (Stdio.callTool cfg req be log) = inr env
     /\ (forall e, fst (Stdio.runTool cfg req be log) = inl e ->
                   env = errorEnvelope (message e))
     /\ (forall v, fst (Stdio.runTool cfg req be log) = inr v ->
                   env = successEnvelope v))
  /\ (~ In (name req) (map tool_name Stdio.tools) ->
      Stdio.callTool cfg req be log
      = (inr (errorEnvelope ("Unknown tool: " ++ name req)), log))
  /\ (exists env,
        fst (Sse.callTool cfg req be log) = inr env
        /\ (forall e, fst (Sse.runTool cfg req be log) = inl e ->
                      env = errorEnvelope (message e))
        /\ (forall v, fst (Sse.runTool cfg req be log) = inr v ->
                      env = successEnvelope v))
  /\ (~ In (name req) (map tool_name Sse.tools) ->
      Sse.callTool cfg req be log
      = (inr (errorEnvelope ("Unknown tool: " ++ name req)), log))
  /\ (forall msg,
        isError (errorEnvelope msg) = Some true
        /\ content (errorEnvelope msg)
           = [mkContent "text"
                (JSON_stringify (VObj [("error", VStr msg)]) None)]).
Proof.
  split; [|split; [|split; [|split]]].
  - rewrite stdio_callTool_run.
    destruct (Stdio.runTool cfg req be log) as [[e|v] log'].
    + exists (errorEnvelope (message e)). simpl. repeat split.
      * intros e' H. inversion H. reflexivity.
      * intros v H. discriminate.
    + exists (successEnvelope v). simpl. repeat split.
      * intros e H. discriminate.
      * intros v' H. inversion H. reflexivity.
  - intros Hnot. rewrite stdio_callTool_run, stdio_unknown_tool by assumption.
    reflexivity.
  - rewrite sse_callTool_run.
    destruct (Sse.runTool cfg req be log) as [[e|v] log'].
    + exists (errorEnvelope (message e)). simpl. repeat split.
      * intros e' H. inversion H. reflexivity.
      * intros v H. discriminate.
    + exists (successEnvelope v). simpl. repeat split.
      * intros e H. discriminate.
      * intros v' H. inversion H. reflexivity.
  - intros Hnot. rewrite sse_callTool_run, sse_unknown_tool by assumption.
    reflexivity.
  - intros msg. split; reflexivity.
Qed.

Example unknown_tool_envelope :
  run (Stdio.callTool (config None) (mkRequest "delete_index" None)) (corpus [])
  = (inr (errorEnvelope "Unknown tool: delete_index"), []).
Proof. reflexivity. Qed.

Example engine_failure_envelope :
  run (Stdio.callTool (config None)
         (mkRequest "search_docs" (Some (mkArgs (Some "redis") None None None None None))))
    (fixed (inl unreachable) (inl unreachable))
  = (inr (errorEnvelope "fetch failed"),
     [CSearch "documents" (Some "redis") (Stdio.searchDocsParams 10 None)]).
Proof. reflexivity. Qed.

(** ** The calls every tool makes, whatever its arguments hold *)



Lemma stdio_listTags_call cfg be log :
  snd (Stdio.handleListTags cfg be log)
  = (log ++ [CSearch (indexName cfg) (Some "") Stdio.listTagsParams])%list.
Proof.
  unfold Stdio.handleListTags. rewrite bind_run, search_run.
  destruct (be_search be _ _ _); reflexivity.
Qed.

Lemma stdio_lookupDecision_call cfg a be log :
  snd (Stdio.handleLookupDecision cfg (Some a) be log)
  = (log ++ [CSearch (indexName cfg) (arg_question a)
               (Stdio.searchDocsParams 5 None)])%list.
Proof.
  unfold Stdio.handleLookupDecision.
  rewrite bind_run, lift_run. cbn [destructure]. cbv zeta. rewrite bind_run.
  pose proof (stdio_searchDocs_call cfg
                (mkArgs (arg_question a) (Some 5) None None None None) be log)
    as Hcall.
  destruct (Stdio.handleSearchDocs cfg _ be log) as [[e|docs] log'];
    cbn [snd] in Hcall; subst log'; [reflexivity|].
  destruct (Z.of_nat (length (Stdio.results docs)) =? 0); reflexivity.
Qed.

Lemma sse_lookupDecision_call cfg a be log :
  snd (Sse.handleLookupDecision cfg (Some a) be log)
  = (log ++ [CSearch (indexName cfg) (arg_question a)
               (Sse.searchDocsParams 5 None)])%list.
Proof.
  unfold Sse.handleLookupDecision.
  rewrite bind_run, lift_run. cbn [member]. rewrite bind_run.
  pose proof (sse_searchDocs_call cfg
                (mkArgs (arg_question a) (Some 5) None None None None) be log)
    as Hcall.
  destruct (Sse.handleSearchDocs cfg _ be log) as [[e|docs] log'];
    cbn [snd] in Hcall; subst log'; [reflexivity|].
  destruct (negb (truthy (VNum (Z.of_nat (length (Sse.results docs))))));
    reflexivity.
Qed.















(** [{query: "q", tags: "adr"}] and a [tags] of [{length: 1}]: the test on
    the length passes, [map] is missing, and the engine is not asked. *)
Example tags_of_wrong_shape_throw rt :
  run (StdioUntyped.callTool rt (config None)
         (mkRequest "search_docs"
            (Some (mkArgs (Some "q") None None None None None)))
         (VStr "adr"))
    (corpus [hitBoth])
  = (inr (errorEnvelope "tags.map is not a function"), [])
  /\ run (SseUntyped.callTool rt (config None)
            (mkRequest "search_docs"
               (Some (mkArgs (Some "q") None None None None None)))
            (VObj [("length", VNum 1)]))
       (corpus [hitBoth])
     = (inr (errorEnvelope "tags.map is not a function"), []).
Proof. split; reflexivity. Qed.

(** An array of numbers is sent as a filter on their decimal forms. *)
Example tags_of_numbers rt :
  snd (run (StdioUntyped.callTool rt (config None)
              (mkRequest "search_docs"
                 (Some (mkArgs (Some "q") None None None None None)))
              (VArr [VNum 1; VNum 2]))
         (corpus []))
  = [CSearch "documents" (Some "q")
       (withFilter (Stdio.searchDocsParams 10 None)
          (Some (tagsFilter [numberToString rt 1; numberToString rt 2])))].
Proof. reflexivity. Qed.

Example absent_arguments_envelope :
  run (Stdio.callTool (config None) (mkRequest "get_document" None)) (corpus [])
  = (inr (errorEnvelope
            "Cannot destructure property 'id' of 'args' as it is undefined."),
     []).
Proof. reflexivity. Qed.

(** ** The two bindings side by side *)

Lemma getDocument_same cfg a be log :
  Stdio.handleGetDocument cfg (Some a) be log
  = Sse.handleGetDocument cfg (Some a) be log.
Proof.
  unfold Stdio.handleGetDocument, Sse.handleGetDocument, try_catch.
  rewrite !bind_run, !lift_run. cbn [destructure member]. cbv zeta.
  rewrite getDocument_run.
  destruct (be_getDocument be _ _) as [e|d]; [|reflexivity].
  rewrite !bind_run, !lift_run. cbn [member]. rewrite !bind_run, !search_run.
  unfold Stdio.pathParams, Sse.pathParams.
  destruct (be_search be _ _ _) as [e'|r]; [reflexivity|].
  destruct (hits r) as [|h hs]; reflexivity.
Qed.




(** ** Normalization of well-formed hits *)

Lemma get_object fields k : exists v, get (VObj fields) k = inr v.
Proof. simpl. eauto. Qed.

Lemma formatted_object fields k : exists v, formatted (VObj fields) k = inr v.
Proof.
  unfold formatted. cbn [get exc_bind].
  destruct (lookup_field "_formatted" fields) as [f|];
    [|unfold opt_get; cbn [nullish]; eauto].
  unfold opt_get.
  destruct f; cbn [nullish get]; eauto.
Qed.

(** A hit that is an object is normalized without a throw as soon as its
    highlighted content, if any, is a string (or an array). *)
Lemma stdio_normalizeHit_defined fields c :
  formatted (VObj fields) "content" = inr c ->
  sliceable c = true ->
  exists r, Stdio.normalizeHit (VObj fields) = inr r.
Proof.
  intros Hc Hs. unfold Stdio.normalizeHit, Stdio.snippet.
  destruct (formatted_object fields "description") as [d ->].
  rewrite Hc. cbn [get exc_bind].
  destruct (truthy d); cbn [exc_bind]; [eauto|].
  destruct c; try discriminate; cbn [opt_slice0 exc_bind]; eauto.
Qed.

Lemma sse_normalizeHit_defined fields c :
  formatted (VObj fields) "content" = inr c ->
  sliceable c = true ->
  exists r, Sse.normalizeHit (VObj fields) = inr r.
Proof.
  intros Hc Hs. unfold Sse.normalizeHit, Sse.snippet.
  rewrite Hc. cbn [get exc_bind].
  destruct c; try discriminate; cbn [opt_slice0 exc_bind]; eauto.
Qed.

(** The scenario of the specification: [search_docs] with
    [{query: "redis", limit: 2}] against five matching documents gives the
    engine's estimate as [total] and two results in the engine's order. *)
Example search_docs_limit_two :
  option_map
    (fun r => (Stdio.total r, map Stdio.r_id (Stdio.results r)))
    (returned
       (run (Stdio.handleSearchDocs (config None)
               (Some (mkArgs (Some "redis") (Some 2) None None None None)))
          (corpus [hitBoth; hitContentOnly; hitPlain; hitBoth; hitPlain])))
  = Some (VNum 5, [VStr "adr-7"; VStr "adr-8"]).
Proof. reflexivity. Qed.

(** ** Retrieval by path on the in-memory index *)

Lemma string_length_append (a b : string) :
  String.length (a ++ b) = (String.length a + String.length b)%nat.
Proof. induction a as [|c a IH]; simpl; [reflexivity | rewrite IH; reflexivity]. Qed.

Lemma string_append_cancel_r (a b s : string) : a ++ s = b ++ s -> a = b.
Proof.
  revert b. induction a as [|c a IH]; intros [|c' b] H; simpl in H.
  - reflexivity.
  - apply (f_equal String.length) in H. simpl in H.
    rewrite string_length_append in H. lia.
  - apply (f_equal String.length) in H. simpl in H.
    rewrite string_length_append in H. lia.
  - inversion H. f_equal. apply IH. assumption.
Qed.

Lemma pathEquals_inj (x y : string) : pathEquals x = pathEquals y -> x = y.
Proof.
  unfold pathEquals. intros H. simpl in H. inversion H as [H'].
  apply (string_append_cancel_r x y dq). exact H'.
Qed.

Lemma corpus_search_by_path docs index q id :
  be_search (corpus docs) index q (Stdio.pathParams (Some id))
  = inr {| hits := firstn 1 (List.filter (hasPath id) docs);
           estimatedTotalHits :=
             VNum (Z.of_nat (length (List.filter (hasPath id) docs)));
           facetDistribution := None |}.
Proof.
  assert (Hext : List.filter
                   (fun d => match get d "path" with
                             | inr (VStr x) => String.eqb (pathEquals id) (pathEquals x)
                             | _ => false
                             end) docs
                 = List.filter (hasPath id) docs).
  { apply filter_ext. intros d. unfold hasPath.
    destruct (get d "path") as [e|[]]; try reflexivity.
    destruct (String.eqb_spec s id) as [->|Hne].
    - apply String.eqb_refl.
    - apply String.eqb_neq. intros H. apply Hne. symmetry.
      apply pathEquals_inj. exact H. }
  unfold corpus. cbn [be_search Stdio.pathParams sp_filter sp_limit tpl default].
  fold (pathEquals id). rewrite Hext. reflexivity.
Qed.

(** On the in-memory index: an identifier that no document has as [id] and
    that is the path of exactly one document retrieves that document; one
    that is the path of none fails with the not-found error. *)
Lemma corpus_get_document_by_path docs id :
  find (hasId (Some id)) docs = None ->
  (forall d, List.filter (hasPath id) docs = [d] ->
             fst (run (Stdio.handleGetDocument (config None) (Some (withId id)))
                    (corpus docs)) = inr d)
  /\ (List.filter (hasPath id) docs = [] ->
      fst (run (Stdio.handleGetDocument (config None) (Some (withId id)))
             (corpus docs))
      = inl (mkError KError ("Document not found: " ++ id))).
Proof.
  intros Hid.
  assert (Hrun : run (Stdio.handleGetDocument (config None) (Some (withId id)))
                   (corpus docs)
                 = (match firstn 1 (List.filter (hasPath id) docs) with
                    | hit :: _ => inr hit
                    | [] => inl (mkError KError ("Document not found: " ++ id))
                    end,
                    [CGetDocument "documents" (Some id);
                     CSearch "documents" (Some "") (Stdio.pathParams (Some id))])).
  { unfold run, Stdio.handleGetDocument.
    rewrite bind_run, lift_run. cbn [destructure withId arg_id]. cbv zeta.
    unfold try_catch. rewrite getDocument_run.
    cbn [corpus be_getDocument]. rewrite Hid.
    rewrite bind_run, search_run, corpus_search_by_path. cbn [hits].
    destruct (firstn 1 (List.filter (hasPath id) docs)); reflexivity. }
  split.
  - intros d Hone. rewrite Hrun, Hone. reflexivity.
  - intros Hnone. rewrite Hrun, Hnone. reflexivity.
Qed.

(** * Further properties of the handlers *)

(** ** Configuration *)

(** X1. Whatever [MEILI_INDEX_NAME] holds (unset and empty included), the
    chunk index is the primary index name followed by [_chunks], and the
    primary index name is not empty. *)
Theorem config_chunks_suffix (env : option string) :
  chunksIndexName (config env) = indexName (config env) ++ "_chunks"
  /\ indexName (config env) <> "".
Proof.
  unfold config. destruct env as [n|]; [|split; [reflexivity | discriminate]].
  destruct (String.eqb_spec n "") as [->|Hne]; simpl.
  - split; [reflexivity | discriminate].
  - split; [reflexivity | assumption].
Qed.

(** ** Results of a document search *)


Lemma map_exc_first_failure {A B} (f : A -> Exc B) good bad rest e :
  (forall x, In x good -> exists y, f x = inr y) ->
  f bad = inl e ->
  map_exc f (good ++ bad :: rest) = inl e.
Proof.
  intros Hgood Hbad. induction good as [|x good IH]; simpl.
  - rewrite Hbad. reflexivity.
  - destruct (Hgood x (or_introl eq_refl)) as [y ->]. cbn [exc_bind].
    rewrite IH; [reflexivity|].
    intros x' Hin. apply Hgood. right. assumption.
Qed.

(** X2. When the engine answers a document search and the stdio handler
    returns, [total] is the engine's estimate (not the number of results)
    and [results] has one entry per hit, in the engine's order, each the
    normalization of its hit. *)
Theorem search_docs_one_result_per_hit
  (cfg : Config) (be : Backend) (log : list Call) (a : Arguments)
  (r : SearchResponse) (res : Stdio.SearchDocsResult) :
  be_search be (indexName cfg) (arg_query a)
    (Stdio.searchDocsParams (default 10 (arg_limit a)) (arg_tags a)) = inr r ->
  fst (Stdio.handleSearchDocs cfg (Some a) be log) = inr res ->
  Stdio.total res = estimatedTotalHits r
  /\ Forall2 (fun hit d => Stdio.normalizeHit hit = inr d)
       (hits r) (Stdio.results res)
  /\ length (Stdio.results res) = length (hits r).
Proof.
  intros Hs Hres. unfold Stdio.handleSearchDocs in Hres.
  rewrite bind_run, lift_run in Hres. cbn [destructure] in Hres.
  cbv zeta in Hres. rewrite bind_run, search_run, Hs in Hres.
  rewrite bind_run, lift_run in Hres.
  destruct (map_exc Stdio.normalizeHit (hits r)) as [e|docs] eqn:Hn;
    [discriminate|].
  cbn in Hres. inversion Hres. subst res. cbn [Stdio.total Stdio.results].
  split; [reflexivity|]. split.
  - apply map_exc_Forall2. assumption.
  - apply (map_exc_length _ _ _ Hn).
Qed.

Lemma search_docs_one_result_per_hit_witness :
  Stdio.total
    (Stdio.mkDocs (VNum 5)
       (normalized (map_exc Stdio.normalizeHit [hitBoth; hitContentOnly])))
  = estimatedTotalHits
      {| hits := [hitBoth; hitContentOnly];
         estimatedTotalHits := VNum 5;
         facetDistribution := None |}
  /\ Forall2 (fun hit d => Stdio.normalizeHit hit = inr d)
       (hits {| hits := [hitBoth; hitContentOnly];
                estimatedTotalHits := VNum 5;
                facetDistribution := None |})
       (Stdio.results
          (Stdio.mkDocs (VNum 5)
             (normalized (map_exc Stdio.normalizeHit [hitBoth; hitContentOnly]))))
  /\ length
       (Stdio.results
          (Stdio.mkDocs (VNum 5)
             (normalized (map_exc Stdio.normalizeHit [hitBoth; hitContentOnly]))))
     = length (hits {| hits := [hitBoth; hitContentOnly];
                       estimatedTotalHits := VNum 5;
                       facetDistribution := None |}).
Proof.
  apply (search_docs_one_result_per_hit (config None)
           (corpus [hitBoth; hitContentOnly; hitPlain; hitBoth; hitPlain]) []
           (mkArgs (Some "redis") (Some 2) None None None None));
    reflexivity.
Defined.

(** X3. In a hit normalized by the stdio document search, [description]
    and [tags] are the hit's own values when these are truthy and the
    defaults [""] and [[]] when they are not; [snippet] is the highlighted
    description of the hit when that is truthy, else the first 300
    characters of its highlighted content when they are truthy, else [""];
    none of the three is [undefined] or [null]. The other fields -- [id],
    [title], [path], [source_url], [updated_at] -- are the hit's own
    values, [undefined] when the hit lacks them. *)
Theorem normalized_hit_fields (hit : JsVal) (d : Stdio.DocResult) :
  Stdio.normalizeHit hit = inr d ->
  (exists description tags highlighted,
     get hit "description" = inr description
     /\ get hit "tags" = inr tags
     /\ formatted hit "description" = inr highlighted
     /\ Stdio.r_description d
        = (if truthy description then description else VStr "")
     /\ Stdio.r_tags d = (if truthy tags then tags else VArr [])
     /\ (if truthy highlighted then Stdio.r_snippet d = highlighted
         else exists content cut,
             formatted hit "content" = inr content
             /\ opt_slice0 content 300 = inr cut
             /\ Stdio.r_snippet d = (if truthy cut then cut else VStr "")))
  /\ nullish (Stdio.r_description d) = false
  /\ nullish (Stdio.r_tags d) = false
  /\ nullish (Stdio.r_snippet d) = false
  /\ get hit "id" = inr (Stdio.r_id d)
  /\ get hit "title" = inr (Stdio.r_title d)
  /\ get hit "path" = inr (Stdio.r_path d)
  /\ get hit "source_url" = inr (Stdio.r_source_url d)
  /\ get hit "updated_at" = inr (Stdio.r_updated_at d).
Proof.
  assert (Hdef : forall v dflt, nullish dflt = false ->
                   nullish (if truthy v then v else dflt) = false).
  { intros v dflt Hd. destruct v as [| |b|k|s|l|fs]; cbn [truthy]; try exact Hd;
      try reflexivity.
    - destruct b; [reflexivity | exact Hd].
    - destruct (negb (k =? 0)); [reflexivity | exact Hd].
    - destruct (negb (String.eqb s "")); [reflexivity | exact Hd]. }
  intros H. unfold Stdio.normalizeHit in H.
  destruct (get hit "id") as [e|id]; cbn [exc_bind] in H; [discriminate|].
  destruct (get hit "title") as [e|title]; cbn [exc_bind] in H; [discriminate|].
  destruct (get hit "path") as [e|path]; cbn [exc_bind] in H; [discriminate|].
  destruct (get hit "description") as [e|descr]; cbn [exc_bind] in H;
    [discriminate|].
  destruct (get hit "tags") as [e|tags]; cbn [exc_bind] in H; [discriminate|].
  destruct (get hit "source_url") as [e|src]; cbn [exc_bind] in H;
    [discriminate|].
  destruct (get hit "updated_at") as [e|upd]; cbn [exc_bind] in H;
    [discriminate|].
  destruct (Stdio.snippet hit) as [e|snip] eqn:Hsn; cbn [exc_bind] in H;
    [discriminate|].
  inversion H. subst d. cbn [Stdio.r_id Stdio.r_title Stdio.r_path
    Stdio.r_description Stdio.r_tags Stdio.r_source_url Stdio.r_updated_at
    Stdio.r_snippet]. clear H.
  unfold or_else. unfold Stdio.snippet in Hsn.
  destruct (formatted hit "description") as [e|fd]; cbn [exc_bind] in Hsn;
    [discriminate|].
  assert (Hsnip :
    (if truthy fd then snip = fd
     else exists content cut,
         formatted hit "content" = inr content
         /\ opt_slice0 content 300 = inr cut
         /\ snip = (if truthy cut then cut else VStr ""))).
  { destruct (truthy fd) eqn:Hfd.
    - inversion Hsn. reflexivity.
    - destruct (formatted hit "content") as [e|fc]; cbn [exc_bind] in Hsn;
        [discriminate|].
      destruct (opt_slice0 fc 300) as [e|cut] eqn:Hcut; cbn [exc_bind] in Hsn;
        [discriminate|].
      inversion Hsn. exists fc, cut. repeat split. exact Hcut. }
  split.
  { exists descr, tags, fd. repeat split. exact Hsnip. }
  split; [apply Hdef; reflexivity|].
  split; [apply Hdef; reflexivity|].
  split; [|repeat split].
  destruct (truthy fd) eqn:Hfd.
  - subst snip. destruct fd as [| |b|k|s|l|fs]; try discriminate; reflexivity.
  - destruct Hsnip as (content & cut & _ & _ & ->). apply Hdef. reflexivity.
Qed.

Lemma normalized_hit_fields_witness :
  (exists description tags highlighted,
     get hitBoth "description" = inr description
     /\ get hitBoth "tags" = inr tags
     /\ formatted hitBoth "description" = inr highlighted
     /\ VStr "Redis is not used for sessions"
        = (if truthy description then description else VStr "")
     /\ VArr [VStr "adr"; VStr "redis"]
        = (if truthy tags then tags else VArr [])
     /\ (if truthy highlighted
         then VStr "**Redis** is not used for sessions" = highlighted
         else exists content cut,
             formatted hitBoth "content" = inr content
             /\ opt_slice0 content 300 = inr cut
             /\ VStr "**Redis** is not used for sessions"
                = (if truthy cut then cut else VStr "")))
  /\ get hitBoth "id" = inr (VStr "adr-7")
  /\ get hitBoth "source_url" = inr VUndefined.
Proof.
  destruct (normalized_hit_fields hitBoth
              (Stdio.mkDoc (VStr "adr-7") (VStr "Sessions")
                 (VStr "adr/0007-sessions.md")
                 (VStr "Redis is not used for sessions")
                 (VArr [VStr "adr"; VStr "redis"]) VUndefined VUndefined
                 (VStr "**Redis** is not used for sessions"))
              eq_refl)
    as (Hfields & _ & _ & _ & Hid & _ & _ & Hsrc & _).
  split; [exact Hfields|]. split; [exact Hid | exact Hsrc].
Defined.

(** The three cases of a normalized hit: every value the hit's own, only
    the content highlighted, nothing to show. *)
Example normalized_hits :
  Stdio.normalizeHit hitBoth
  = inr (Stdio.mkDoc (VStr "adr-7") (VStr "Sessions")
           (VStr "adr/0007-sessions.md")
           (VStr "Redis is not used for sessions")
           (VArr [VStr "adr"; VStr "redis"]) VUndefined VUndefined
           (VStr "**Redis** is not used for sessions"))
  /\ Stdio.normalizeHit hitContentOnly
     = inr (Stdio.mkDoc (VStr "adr-8") (VStr "GitOps")
              (VStr "adr/0008-gitops.md") (VStr "") (VArr [])
              VUndefined VUndefined
              (VStr "Deployments are driven by **GitOps**"))
  /\ Stdio.normalizeHit hitPlain
     = inr (Stdio.mkDoc (VStr "adr-9") (VStr "Registry")
              (VStr "adr/0009-registry.md") (VStr "") (VArr [])
              VUndefined VUndefined (VStr "")).
Proof. repeat split. Qed.

(** X4. One hit that cannot be normalized fails the whole document search:
    when the hits before it normalize and it throws, the stdio dispatch
    answers the error envelope with that hit's error message, after the
    one search call; no partial result is returned. *)
Theorem search_docs_fails_on_first_bad_hit
  (cfg : Config) (be : Backend) (log : list Call) (a : Arguments)
  (r : SearchResponse) (good rest : list JsVal) (bad : JsVal) (e : JsError) :
  be_search be (indexName cfg) (arg_query a)
    (Stdio.searchDocsParams (default 10 (arg_limit a)) (arg_tags a)) = inr r ->
  hits r = (good ++ bad :: rest)%list ->
  (forall h, In h good -> exists d, Stdio.normalizeHit h = inr d) ->
  Stdio.normalizeHit bad = inl e ->
  Stdio.callTool cfg (mkRequest "search_docs" (Some a)) be log
  = (inr (errorEnvelope (message e)),
     (log ++ [CSearch (indexName cfg) (arg_query a)
                (Stdio.searchDocsParams (default 10 (arg_limit a)) (arg_tags a))])%list).
Proof.
  intros Hs Hhits Hgood Hbad.
  rewrite stdio_callTool_run. unfold Stdio.runTool. simpl.
  rewrite bind_run. unfold Stdio.handleSearchDocs.
  rewrite bind_run, lift_run. cbn [destructure]. cbv zeta.
  rewrite bind_run, search_run, Hs, bind_run, lift_run, Hhits.
  rewrite (map_exc_first_failure Stdio.normalizeHit good bad rest e Hgood Hbad).
  reflexivity.
Qed.

Lemma search_docs_fails_on_first_bad_hit_witness :
  Stdio.callTool (config None)
    (mkRequest "search_docs"
       (Some (mkArgs (Some "redis") None None None None None)))
    (fixed (inr (responseOf [hitBoth; VNull; hitPlain])) (inl unreachable)) []
  = (inr (errorEnvelope
            (message
               (mkError KTypeError
                  "Cannot read properties of null (reading 'id')"))),
     ([] ++ [CSearch (indexName (config None))
               (arg_query (mkArgs (Some "redis") None None None None None))
               (Stdio.searchDocsParams
                  (default 10
                     (arg_limit (mkArgs (Some "redis") None None None None None)))
                  (arg_tags (mkArgs (Some "redis") None None None None None)))])%list).
Proof.
  apply (search_docs_fails_on_first_bad_hit (config None)
           (fixed (inr (responseOf [hitBoth; VNull; hitPlain])) (inl unreachable))
           [] (mkArgs (Some "redis") None None None None None)
           (responseOf [hitBoth; VNull; hitPlain]) [hitBoth] [hitPlain] VNull).
  - reflexivity.
  - reflexivity.
  - intros h [<-|[]]. eexists. reflexivity.
  - reflexivity.
Defined.

(** ** Engine calls and engine failures *)

Lemma stdio_getDocument_at_most_two cfg a be :
  (length (snd (Stdio.handleGetDocument cfg (Some a) be [])) <= 2)%nat.
Proof.
  unfold Stdio.handleGetDocument.
  rewrite bind_run, lift_run. cbn [destructure]. cbv zeta.
  unfold try_catch. rewrite getDocument_run.
  destruct (be_getDocument be _ _) as [e|d]; [|simpl; lia].
  rewrite bind_run, search_run.
  destruct (be_search be _ _ _) as [e'|r]; [simpl; lia|].
  destruct (0 <? Z.of_nat (length (hits r))); simpl; lia.
Qed.

Lemma sse_getDocument_at_most_two cfg a be :
  (length (snd (Sse.handleGetDocument cfg (Some a) be [])) <= 2)%nat.
Proof.
  unfold Sse.handleGetDocument, try_catch.
  rewrite bind_run, lift_run. cbn [member]. rewrite getDocument_run.
  destruct (be_getDocument be _ _) as [e|d]; [|simpl; lia].
  rewrite bind_run, lift_run. cbn [member]. rewrite bind_run, search_run.
  destruct (be_search be _ _ _) as [e'|r]; [simpl; lia|].
  destruct (truthy (VNum (Z.of_nat (length (hits r))))); simpl; lia.
Qed.

(** X5. No invocation, in either binding, makes more than two engine calls,
    and only [get_document] makes more than one: there is no retry and no
    second round, whatever the engine answers. *)
Theorem engine_calls_bounded (cfg : Config) (req : Request) (be : Backend) :
  (length (callsOf (run (Stdio.callTool cfg req) be)) <= 2)%nat
  /\ (name req <> "get_document" ->
      (length (callsOf (run (Stdio.callTool cfg req) be)) <= 1)%nat)
  /\ (length (callsOf (run (Sse.callTool cfg req) be)) <= 2)%nat
  /\ (name req <> "get_document" ->
      (length (callsOf (run (Sse.callTool cfg req) be)) <= 1)%nat).
Proof.
  unfold callsOf, run. rewrite stdio_callTool_log, sse_callTool_log.
  destruct req as [n args]. unfold Stdio.runTool, Sse.runTool.
  cbn [name arguments].
  destruct (String.eqb_spec n "search_docs") as [->|_].
  { cbn [String.eqb Ascii.eqb Bool.eqb]. rewrite !snd_bind_ret.
    destruct args as [a|]; [|cbn; repeat split; intros; lia].
    rewrite stdio_searchDocs_call, sse_searchDocs_call.
    cbn; repeat split; intros; lia. }
  destruct (String.eqb_spec n "search_chunks") as [->|_].
  { rewrite !snd_bind_ret.
    destruct args as [a|]; [|cbn; repeat split; intros; lia].
    rewrite stdio_searchChunks_call, sse_searchChunks_call.
    cbn; repeat split; intros; lia. }
  destruct (String.eqb_spec n "get_document") as [->|_].
  { destruct args as [a|]; [|cbn; repeat split; intros; try congruence; lia].
    pose proof (stdio_getDocument_at_most_two cfg a be).
    pose proof (sse_getDocument_at_most_two cfg a be).
    repeat split; intros; try congruence; assumption. }
  destruct (String.eqb_spec n "list_tags") as [->|_].
  { rewrite snd_bind_ret, stdio_listTags_call.
    cbn; repeat split; intros; lia. }
  destruct (String.eqb_spec n "lookup_decision") as [->|_].
  { rewrite !snd_bind_ret.
    destruct args as [a|]; [|cbn; repeat split; intros; lia].
    rewrite stdio_lookupDecision_call, sse_lookupDecision_call.
    cbn; repeat split; intros; lia. }
  cbn; repeat split; intros; lia.
Qed.



(** X7. When the lookup by identifier fails and the search by path fails
    too, [get_document] reports the error of the search; the error of the
    lookup is dropped. Both bindings do the same. *)
Theorem get_document_reports_search_error
  (cfg : Config) (be : Backend) (log : list Call) (id : string)
  (e1 e2 : JsError) :
  be_getDocument be (indexName cfg) (Some id) = inl e1 ->
  be_search be (indexName cfg) (Some "")
    (mkParams (Some 1) None None None None (Some (pathEquals id)) None) = inl e2 ->
  fst (Stdio.callTool cfg (mkRequest "get_document" (Some (withId id))) be log)
    = inr (errorEnvelope (message e2))
  /\ fst (Sse.callTool cfg (mkRequest "get_document" (Some (withId id))) be log)
    = inr (errorEnvelope (message e2)).
Proof.
  intros Hget Hsearch.
  rewrite stdio_callTool_run, sse_callTool_run.
  unfold Stdio.runTool, Sse.runTool. cbn [name arguments String.eqb Ascii.eqb Bool.eqb].
  rewrite <- getDocument_same.
  unfold Stdio.handleGetDocument.
  rewrite bind_run, lift_run. cbn [destructure withId arg_id]. cbv zeta.
  unfold try_catch. rewrite getDocument_run, Hget.
  rewrite bind_run, search_run. unfold Stdio.pathParams, tpl.
  fold (pathEquals id). rewrite Hsearch. split; reflexivity.
Qed.

Lemma get_document_reports_search_error_witness :
  fst (Stdio.callTool (config None)
         (mkRequest "get_document" (Some (withId "adr-7")))
         (fixed (inl (mkError KApiError "index not found")) (inl unreachable)) [])
    = inr (errorEnvelope (message (mkError KApiError "index not found")))
  /\ fst (Sse.callTool (config None)
            (mkRequest "get_document" (Some (withId "adr-7")))
            (fixed (inl (mkError KApiError "index not found")) (inl unreachable)) [])
    = inr (errorEnvelope (message (mkError KApiError "index not found"))).
Proof.
  apply (get_document_reports_search_error (config None)
           (fixed (inl (mkError KApiError "index not found")) (inl unreachable))
           [] "adr-7" unreachable (mkError KApiError "index not found"));
    reflexivity.
Defined.

(** ** Chunk search *)

(** X8. In both bindings a chunk search goes to the chunk index with the
    caller's query; when a non-empty [document_id] [d] is given it carries
    the filter text [document_id = "d"], [d] put in as it is, which for a
    [d] without double quote or backslash reads as the one exact equality
    on [document_id]; otherwise it is unfiltered -- an empty [document_id]
    searches all documents. *)
Theorem chunks_filter_exact (cfg : Config) (be : Backend) (a : Arguments) :
  (exists p,
     callsOf (run (Stdio.handleSearchChunks cfg (Some a)) be)
       = [CSearch (chunksIndexName cfg) (arg_query a) p]
     /\ sp_filter p = chunksFilterSpec (arg_document_id a))
  /\ (exists p,
        callsOf (run (Sse.handleSearchChunks cfg (Some a)) be)
          = [CSearch (chunksIndexName cfg) (arg_query a) p]
        /\ sp_filter p = chunksFilterSpec (arg_document_id a))
  /\ (forall d,
        arg_document_id a = Some d -> d <> "" -> plainValue d = true ->
        exists f,
          chunksFilterSpec (arg_document_id a) = Some f
          /\ readFilter "document_id" f = Some [d])
  /\ (arg_document_id a = None \/ arg_document_id a = Some "" ->
      chunksFilterSpec (arg_document_id a) = None).
Proof.
  unfold callsOf, run. split; [|split; [|split]].
  - eexists. split; [apply (stdio_searchChunks_call cfg a be [])|].
    cbn [Stdio.searchChunksParams sp_filter].
    destruct (arg_document_id a) as [s|]; [|reflexivity].
    cbn [js_string truthy tpl chunksFilterSpec].
    destruct (String.eqb s ""); reflexivity.
  - eexists. split; [apply (sse_searchChunks_call cfg a be [])|].
    cbn [Sse.searchChunksParams sp_filter].
    destruct (arg_document_id a) as [s|]; [|reflexivity].
    cbn [js_string truthy tpl chunksFilterSpec].
    destruct (String.eqb s ""); reflexivity.
  - intros d Hd Hne Hplain. rewrite Hd. cbn [chunksFilterSpec].
    destruct (String.eqb_spec d "") as [->|_]; [congruence|].
    eexists. split; [reflexivity|].
    change (render (FEq "document_id" d)) with (disjunction "document_id" [d]).
    apply readFilter_disjunction; [reflexivity|].
    apply (plain_quoteFree [d]). cbn [forallb]. rewrite Hplain. reflexivity.
  - intros [->| ->]; reflexivity.
Qed.

Lemma map_exc_total {A B} (f : A -> Exc B) xs :
  (forall x, In x xs -> exists y, f x = inr y) ->
  exists ys, map_exc f xs = inr ys.
Proof.
  induction xs as [|x xs IH]; intros Hall; simpl.
  - eauto.
  - destruct (Hall x (or_introl eq_refl)) as [y ->].
    destruct IH as [ys ->]; [intros x' Hin; apply Hall; right; assumption|].
    cbn [exc_bind]. eauto.
Qed.

Lemma stdio_normalizeChunk_object fields :
  exists c, Stdio.normalizeChunk (VObj fields) = inr c.
Proof.
  unfold Stdio.normalizeChunk.
  destruct (formatted_object fields "content") as [f ->].
  cbn [get exc_bind]. destruct (truthy f); cbn [exc_bind]; eauto.
Qed.

Lemma stdio_normalizeChunk_content hit c f raw :
  Stdio.normalizeChunk hit = inr c ->
  formatted hit "content" = inr f ->
  get hit "content" = inr raw ->
  Stdio.c_content c = chunkContent f raw.
Proof.
  unfold Stdio.normalizeChunk, chunkContent. intros H Hf Hraw.
  destruct (get hit "id"); cbn [exc_bind] in H; [discriminate|].
  destruct (get hit "document_id"); cbn [exc_bind] in H; [discriminate|].
  destruct (get hit "title"); cbn [exc_bind] in H; [discriminate|].
  destruct (get hit "path"); cbn [exc_bind] in H; [discriminate|].
  rewrite Hf in H. cbn [exc_bind] in H. rewrite Hraw in H.
  destruct (truthy f); cbn [exc_bind] in H;
    (destruct (get hit "chunk_index"); cbn [exc_bind] in H; [discriminate|]);
    (destruct (get hit "total_chunks"); cbn [exc_bind] in H; [discriminate|]);
    inversion H; reflexivity.
Qed.

(** X9. When every hit of the engine's answer is an object, the stdio chunk
    search does not fail: it returns the engine's estimate as [total] and
    one chunk per hit, in order, whose [content] is the highlighted content
    when that is truthy and the hit's own [content] otherwise. *)
Theorem search_chunks_object_hits
  (cfg : Config) (be : Backend) (log : list Call) (a : Arguments)
  (r : SearchResponse) :
  be_search be (chunksIndexName cfg) (arg_query a)
    (Stdio.searchChunksParams (default 10 (arg_limit a)) (arg_document_id a))
    = inr r ->
  (forall h, In h (hits r) -> isObject h) ->
  exists cs,
    fst (Stdio.handleSearchChunks cfg (Some a) be log)
      = inr (Stdio.mkChunks (estimatedTotalHits r) cs)
    /\ length cs = length (hits r)
    /\ Forall2
         (fun h c =>
            forall f raw,
              formatted h "content" = inr f ->
              get h "content" = inr raw ->
              Stdio.c_content c = chunkContent f raw)
         (hits r) cs.
Proof.
  intros Hs Hobj.
  destruct (map_exc_total Stdio.normalizeChunk (hits r)) as [cs Hcs].
  { intros h Hin. destruct (Hobj h Hin) as [fields ->].
    apply stdio_normalizeChunk_object. }
  exists cs. split; [|split].
  - unfold Stdio.handleSearchChunks.
    rewrite bind_run, lift_run. cbn [destructure]. cbv zeta.
    rewrite bind_run, search_run, Hs, bind_run, lift_run, Hcs. reflexivity.
  - apply (map_exc_length _ _ _ Hcs).
  - apply map_exc_Forall2 in Hcs.
    refine (Forall2_impl _ _ Hcs).
    intros h c Hh f raw Hf Hraw.
    apply (stdio_normalizeChunk_content h c f raw Hh Hf Hraw).
Qed.

Lemma search_chunks_object_hits_witness :
  exists cs,
    fst (Stdio.handleSearchChunks (config None)
           (Some (mkArgs (Some "redis") None None None None None))
           (corpus [hitBoth; hitPlain]) [])
      = inr (Stdio.mkChunks
               (estimatedTotalHits
                  {| hits := [hitBoth; hitPlain];
                     estimatedTotalHits := VNum 2;
                     facetDistribution := None |}) cs)
    /\ length cs
       = length (hits {| hits := [hitBoth; hitPlain];
                         estimatedTotalHits := VNum 2;
                         facetDistribution := None |})
    /\ Forall2
         (fun h c =>
            forall f raw,
              formatted h "content" = inr f ->
              get h "content" = inr raw ->
              Stdio.c_content c = chunkContent f raw)
         (hits {| hits := [hitBoth; hitPlain];
                  estimatedTotalHits := VNum 2;
                  facetDistribution := None |}) cs.
Proof.
  apply (search_chunks_object_hits (config None) (corpus [hitBoth; hitPlain]) []
           (mkArgs (Some "redis") None None None None None)).
  - reflexivity.
  - intros h [<-|[<-|[]]]; eexists; reflexivity.
Defined.

(** X10. The SSE chunk search hands the engine's hits on as they are: for
    whatever hits the engine answers ([null] entries included) the call
    succeeds, [chunks] is the list of hits unchanged and [total] the
    engine's estimate. *)
Theorem sse_chunks_passthrough
  (cfg : Config) (be : Backend) (log : list Call) (a : Arguments)
  (r : SearchResponse) :
  be_search be (chunksIndexName cfg) (arg_query a)
    (Sse.searchChunksParams (default 10 (arg_limit a)) (arg_document_id a))
    = inr r ->
  fst (Sse.callTool cfg (mkRequest "search_chunks" (Some a)) be log)
  = inr (successEnvelope
           (VObj [("total", estimatedTotalHits r); ("chunks", VArr (hits r))])).
Proof.
  intros Hs. rewrite sse_callTool_run.
  unfold Sse.runTool. cbn [name arguments String.eqb Ascii.eqb Bool.eqb].
  rewrite bind_run. unfold Sse.handleSearchChunks.
  rewrite bind_run, lift_run. cbn [destructure]. cbv zeta.
  rewrite bind_run, search_run, Hs. reflexivity.
Qed.

Lemma sse_chunks_passthrough_witness :
  fst (Sse.callTool (config None)
         (mkRequest "search_chunks"
            (Some (mkArgs (Some "redis") None None None None None)))
         (fixed (inr (responseOf [hitBoth; VNull])) (inl unreachable)) [])
  = inr (successEnvelope
           (VObj [("total", estimatedTotalHits (responseOf [hitBoth; VNull]));
                  ("chunks", VArr (hits (responseOf [hitBoth; VNull])))])).
Proof.
  apply (sse_chunks_passthrough (config None)
           (fixed (inr (responseOf [hitBoth; VNull])) (inl unreachable)) []
           (mkArgs (Some "redis") None None None None None)
           (responseOf [hitBoth; VNull])).
  reflexivity.
Defined.

(** ** Decision lookup as a document search *)

Lemma stdio_searchDocs_tool_run cfg be log a :
  Stdio.runTool cfg (mkRequest "search_docs" (Some a)) be log
  = (match be_search be (indexName cfg) (arg_query a)
             (Stdio.searchDocsParams (default 10 (arg_limit a)) (arg_tags a)) with
     | inl e => inl e
     | inr r =>
         match map_exc Stdio.normalizeHit (hits r) with
         | inl e => inl e
         | inr docs =>
             inr (VObj [ ("total", estimatedTotalHits r);
                         ("results", VArr (map Stdio.docResultJs docs)) ])
         end
     end,
     (log ++ [CSearch (indexName cfg) (arg_query a)
                (Stdio.searchDocsParams (default 10 (arg_limit a)) (arg_tags a))])%list).
Proof.
  unfold Stdio.runTool. cbn [name arguments String.eqb Ascii.eqb Bool.eqb].
  unfold Stdio.handleSearchDocs.
  rewrite !bind_run, !lift_run. cbn [destructure]. cbv zeta.
  rewrite !bind_run, search_run.
  destruct (be_search be _ _ _) as [e|r]; [reflexivity|].
  rewrite bind_run, lift_run.
  destruct (map_exc Stdio.normalizeHit (hits r)) as [e|docs]; reflexivity.
Qed.

Lemma evidence_is_result_without d :
  Stdio.evidenceJs (Stdio.evidenceOf d)
  = without ["id"; "updated_at"] (Stdio.docResultJs d).
Proof. reflexivity. Qed.

(** X11. In the stdio binding, [lookup_decision] answers from what
    [search_docs] returns for [{query: question, limit: 5}], whatever limit
    or tags its caller passes: it makes the same engine call; it fails
    with the same error when that search fails; when the search returns
    no result it answers [found: false] with its message and suggestion;
    otherwise it answers [found: true] with the question, the note, and as
    [relevant_documents] the results of the search, in order, each without
    its [id] and [updated_at]. *)
Theorem lookup_decision_is_search_docs
  (cfg : Config) (be : Backend) (log : list Call)
  (q : option string) (l : option Z) (t : option (list string))
  (d i question : option string) :
  let lookup :=
    Stdio.runTool cfg
      (mkRequest "lookup_decision" (Some (mkArgs q l t d i question))) be log in
  let docs :=
    Stdio.runTool cfg
      (mkRequest "search_docs"
         (Some (mkArgs question (Some 5) None None None None))) be log in
  snd lookup = snd docs
  /\ ((exists e, fst docs = inl e)
      \/ (exists total rs,
            fst docs = inr (VObj [("total", total); ("results", VArr rs)])))
  /\ (forall e, fst docs = inl e -> fst lookup = inl e)
  /\ (forall total rs,
        fst docs = inr (VObj [("total", total); ("results", VArr rs)]) ->
        fst lookup
        = inr (match rs with
               | [] => VObj [ ("found", VBool false);
                              ("message", VStr notFoundMessage);
                              ("suggestion", VStr notFoundSuggestion) ]
               | _ :: _ =>
                   VObj [ ("found", VBool true);
                          ("question", js_string question);
                          ("relevant_documents",
                           VArr (map (without ["id"; "updated_at"]) rs));
                          ("note", VStr synthesisNote) ]
               end)).
Proof.
  cbv zeta. rewrite stdio_lookup_run, stdio_searchDocs_tool_run.
  cbn [arg_query arg_limit arg_tags arg_question default fst snd].
  change (Stdio.searchDocsParams 5 None) with stdioLookupParams.
  split; [reflexivity|].
  destruct (be_search be (indexName cfg) question stdioLookupParams) as [e|r].
  { split; [left; eexists; reflexivity|].
    split; [intros e' H; exact H | intros total rs H; discriminate]. }
  destruct (map_exc Stdio.normalizeHit (hits r)) as [e|docs].
  { split; [left; eexists; reflexivity|].
    split; [intros e' H; exact H | intros total rs H; discriminate]. }
  split; [right; eexists; eexists; reflexivity|].
  split; [intros e' H; discriminate|].
  intros total rs H. inversion H. subst.
  destruct docs as [|doc docs]; [reflexivity|].
  rewrite map_map.
  rewrite (map_ext (fun x => Stdio.evidenceJs (Stdio.evidenceOf x))
             (fun x => without ["id"; "updated_at"] (Stdio.docResultJs x))
             evidence_is_result_without).
  reflexivity.
Qed.

Example lookup_decision_from_search_docs :
  fst (Stdio.runTool (config None)
         (mkRequest "search_docs"
            (Some (mkArgs (Some "redis") (Some 5) None None None None)))
         (corpus [hitContentOnly]) [])
  = inr (VObj [ ("total", VNum 1);
                ("results",
                 VArr [ VObj [ ("id", VStr "adr-8"); ("title", VStr "GitOps");
                               ("path", VStr "adr/0008-gitops.md");
                               ("description", VStr ""); ("tags", VArr []);
                               ("source_url", VUndefined);
                               ("updated_at", VUndefined);
                               ("snippet",
                                VStr "Deployments are driven by **GitOps**") ] ]) ])
  /\ fst (Stdio.runTool (config None)
            (mkRequest "lookup_decision"
               (Some (mkArgs None (Some 50) (Some ["adr"]) None None (Some "redis"))))
            (corpus [hitContentOnly]) [])
     = inr (VObj [ ("found", VBool true); ("question", VStr "redis");
                   ("relevant_documents",
                    VArr [ VObj [ ("title", VStr "GitOps");
                                  ("path", VStr "adr/0008-gitops.md");
                                  ("description", VStr ""); ("tags", VArr []);
                                  ("source_url", VUndefined);
                                  ("snippet",
                                   VStr "Deployments are driven by **GitOps**") ] ]);
                   ("note", VStr synthesisNote) ]).
Proof. split; reflexivity. Qed.

(** ** Arguments and the declared schema *)

Ltac same_fields Hagree :=
  repeat match type of Hagree with
         | agreeOn (?k :: ?ks) ?a ?a' =>
             let Hk := fresh "Hk" in
             assert (Hk : sameField k a a')
               by (apply Hagree; left; reflexivity);
             cbn in Hk;
             let Hrest := fresh "Hrest" in
             assert (Hrest : agreeOn ks a a')
               by (intros k' Hin; apply Hagree; right; exact Hin);
             clear Hagree; rename Hrest into Hagree
         end.

Ltac run_handler :=
  rewrite ?stdio_callTool_run, ?sse_callTool_run;
  unfold Stdio.runTool, Sse.runTool;
  cbn [name arguments String.eqb Ascii.eqb Bool.eqb];
  unfold Stdio.handleSearchDocs, Stdio.handleSearchChunks,
    Stdio.handleGetDocument, Stdio.handleLookupDecision,
    Sse.handleSearchDocs, Sse.handleSearchChunks,
    Sse.handleGetDocument, Sse.handleLookupDecision, try_catch;
  rewrite ?bind_run, ?lift_run; cbn [destructure member]; cbv zeta;
  rewrite ?bind_run, ?lift_run; cbn [destructure member]; cbv zeta.

(** X12. A tool's answer depends on no argument beyond those its schema
    declares: two argument objects that agree on the declared parameters of
    a registered tool get the same envelope after the same engine calls, in
    both bindings. *)
Theorem tools_read_declared_parameters
  (cfg : Config) (be : Backend) (log : list Call) (a a' : Arguments)
  (n : string) :
  In n (names Stdio.tools) ->
  agreeOn (declaredOf Stdio.tools n) a a' ->
  Stdio.callTool cfg (mkRequest n (Some a)) be log
    = Stdio.callTool cfg (mkRequest n (Some a')) be log
  /\ (In n (names Sse.tools) ->
      agreeOn (declaredOf Sse.tools n) a a' ->
      Sse.callTool cfg (mkRequest n (Some a)) be log
      = Sse.callTool cfg (mkRequest n (Some a')) be log).
Proof.
  intros Hin Hagree. simpl in Hin.
  destruct Hin as [<-|[<-|[<-|[<-|[<-|[]]]]]].
  - split.
    + cbn in Hagree. same_fields Hagree.
      run_handler.
      rewrite Hk, Hk0, Hk1. reflexivity.
    + intros _ Hagree'. cbn in Hagree'. same_fields Hagree'.
      run_handler.
      rewrite Hk, Hk0, Hk1. reflexivity.
  - split.
    + cbn in Hagree. same_fields Hagree.
      run_handler.
      rewrite Hk, Hk0, Hk1. reflexivity.
    + intros _ Hagree'. cbn in Hagree'. same_fields Hagree'.
      run_handler.
      rewrite Hk, Hk0, Hk1. reflexivity.
  - split.
    + cbn in Hagree. same_fields Hagree.
      run_handler.
      rewrite Hk. reflexivity.
    + intros _ Hagree'. cbn in Hagree'. same_fields Hagree'.
      run_handler.
      rewrite Hk. reflexivity.
  - split; [reflexivity|].
    intros Hin'. simpl in Hin'.
    destruct Hin' as [H|[H|[H|[H|[]]]]]; discriminate.
  - split.
    + cbn in Hagree. same_fields Hagree.
      run_handler.
      rewrite Hk. reflexivity.
    + intros _ Hagree'. cbn in Hagree'. same_fields Hagree'.
      run_handler.
      rewrite Hk. reflexivity.
Qed.

Lemma tools_read_declared_parameters_witness :
  Stdio.callTool (config None)
    (mkRequest "lookup_decision" (Some (asking "redis")))
    (corpus [hitBoth]) []
  = Stdio.callTool (config None)
      (mkRequest "lookup_decision"
         (Some (mkArgs None (Some 50) (Some ["adr"]) None None (Some "redis"))))
      (corpus [hitBoth]) []
  /\ (In "lookup_decision" (names Sse.tools) ->
      agreeOn (declaredOf Sse.tools "lookup_decision") (asking "redis")
        (mkArgs None (Some 50) (Some ["adr"]) None None (Some "redis")) ->
      Sse.callTool (config None)
        (mkRequest "lookup_decision" (Some (asking "redis")))
        (corpus [hitBoth]) []
      = Sse.callTool (config None)
          (mkRequest "lookup_decision"
             (Some (mkArgs None (Some 50) (Some ["adr"]) None None (Some "redis"))))
          (corpus [hitBoth]) []).
Proof.
  apply (tools_read_declared_parameters (config None) (corpus [hitBoth]) []
           (asking "redis")
           (mkArgs None (Some 50) (Some ["adr"]) None None (Some "redis"))
           "lookup_decision").
  - simpl. tauto.
  - intros k [<-|[]]. reflexivity.
Defined.

(** ** Filters are built without escaping *)

Lemma tagClause_smuggle t1 t2 :
  tagClause (smuggle "tags" t1 t2) = tagClause t1 ++ " OR " ++ tagClause t2.
Proof.
  unfold tagClause, smuggle.
  repeat rewrite ?string_append_assoc; cbn [append]. reflexivity.
Qed.

(** X14. The tag filter interpolates tags without escaping: for all [t1]
    and [t2], the single tag [t1" OR tags = "t2] makes a document search
    send exactly the engine call that the two tags [t1] and [t2] make, in
    both bindings. *)
Theorem tags_filter_not_escaped
  (cfg : Config) (be : Backend) (q : option string) (l : option Z)
  (t1 t2 : string) :
  callsOf (run (Stdio.handleSearchDocs cfg
                  (Some (mkArgs q l (Some [smuggle "tags" t1 t2]) None None None)))
             be)
  = callsOf (run (Stdio.handleSearchDocs cfg
                    (Some (mkArgs q l (Some [t1; t2]) None None None)))
               be)
  /\ callsOf (run (Sse.handleSearchDocs cfg
                     (Some (mkArgs q l (Some [smuggle "tags" t1 t2]) None None None)))
                be)
     = callsOf (run (Sse.handleSearchDocs cfg
                       (Some (mkArgs q l (Some [t1; t2]) None None None)))
                  be).
Proof.
  unfold callsOf, run.
  rewrite !stdio_searchDocs_call, !sse_searchDocs_call.
  cbn [arg_query arg_limit arg_tags app].
  unfold Stdio.searchDocsParams, Sse.searchDocsParams.
  cbn [length Z.of_nat Z.ltb Z.compare truthy Z.eqb negb Pos.of_succ_nat
         Pos.succ].
  unfold tagsFilter. cbn [map join]. rewrite tagClause_smuggle.
  split; reflexivity.
Qed.

(** ** The two normalizations of a hit *)




(** X15. Whenever the SSE binding normalizes a hit, so does the stdio
    binding, with the same [id], [title], [path] and [tags]; the two
    snippets are the same whenever the hit has no truthy highlighted
    description. *)
Theorem sse_normalization_refines_stdio (hit : JsVal) (d' : Sse.DocResult) :
  Sse.normalizeHit hit = inr d' ->
  exists d,
    Stdio.normalizeHit hit = inr d
    /\ Stdio.r_id d = Sse.r_id d'
    /\ Stdio.r_title d = Sse.r_title d'
    /\ Stdio.r_path d = Sse.r_path d'
    /\ Stdio.r_tags d = Sse.r_tags d'
    /\ (forall fd, formatted hit "description" = inr fd -> truthy fd = false ->
                   Stdio.r_snippet d = Sse.r_snippet d').
Proof.
  intros H. unfold Sse.normalizeHit in H.
  destruct (get hit "id") as [e|id] eqn:Hid; cbn [exc_bind] in H; [discriminate|].
  destruct (get hit "title") as [e|title] eqn:Htitle; cbn [exc_bind] in H;
    [discriminate|].
  destruct (get hit "path") as [e|path] eqn:Hpath; cbn [exc_bind] in H;
    [discriminate|].
  destruct (get hit "tags") as [e|tags] eqn:Htags; cbn [exc_bind] in H;
    [discriminate|].
  destruct (Sse.snippet hit) as [e|snip] eqn:Hsnip; cbn [exc_bind] in H;
    [discriminate|].
  inversion H. subst d'. clear H. cbn.
  destruct (get_other_key hit "id" "description" id Hid) as [descr Hdescr].
  destruct (get_other_key hit "id" "source_url" id Hid) as [src Hsrc].
  destruct (get_other_key hit "id" "updated_at" id Hid) as [upd Hupd].
  unfold Sse.snippet in Hsnip.
  destruct (formatted hit "content") as [e|c] eqn:Hc; cbn [exc_bind] in Hsnip;
    [discriminate|].
  destruct (opt_slice0 c 300) as [e|sl] eqn:Hsl; cbn [exc_bind] in Hsnip;
    [discriminate|].
  inversion Hsnip. subst snip. clear Hsnip.
  destruct (formatted_other_key hit "content" "description" c Hc) as [fd Hfd].
  unfold Stdio.normalizeHit, Stdio.snippet.
  rewrite Hid, Htitle, Hpath, Hdescr, Htags, Hsrc, Hupd, Hfd, Hc.
  cbn [exc_bind]. rewrite Hsl. cbn [exc_bind].
  destruct (truthy fd) eqn:Htruthy; cbn [exc_bind].
  - eexists. split; [reflexivity|]. cbn. repeat split.
    intros fd' Heq Hfalse. inversion Heq. subst fd'. congruence.
  - eexists. split; [reflexivity|]. cbn. repeat split.
Qed.

Lemma sse_normalization_refines_stdio_witness :
  exists d,
    Stdio.normalizeHit hitContentOnly = inr d
    /\ Stdio.r_id d
       = Sse.r_id (Sse.mkDoc (VStr "adr-8") (VStr "GitOps")
                     (VStr "adr/0008-gitops.md") (VArr [])
                     (VStr "Deployments are driven by **GitOps**"))
    /\ Stdio.r_title d
       = Sse.r_title (Sse.mkDoc (VStr "adr-8") (VStr "GitOps")
                        (VStr "adr/0008-gitops.md") (VArr [])
                        (VStr "Deployments are driven by **GitOps**"))
    /\ Stdio.r_path d
       = Sse.r_path (Sse.mkDoc (VStr "adr-8") (VStr "GitOps")
                       (VStr "adr/0008-gitops.md") (VArr [])
                       (VStr "Deployments are driven by **GitOps**"))
    /\ Stdio.r_tags d
       = Sse.r_tags (Sse.mkDoc (VStr "adr-8") (VStr "GitOps")
                       (VStr "adr/0008-gitops.md") (VArr [])
                       (VStr "Deployments are driven by **GitOps**"))
    /\ (forall fd,
          formatted hitContentOnly "description" = inr fd -> truthy fd = false ->
          Stdio.r_snippet d
          = Sse.r_snippet (Sse.mkDoc (VStr "adr-8") (VStr "GitOps")
                             (VStr "adr/0008-gitops.md") (VArr [])
                             (VStr "Deployments are driven by **GitOps**"))).
Proof.
  apply (sse_normalization_refines_stdio hitContentOnly
           (Sse.mkDoc (VStr "adr-8") (VStr "GitOps")
              (VStr "adr/0008-gitops.md") (VArr [])
              (VStr "Deployments are driven by **GitOps**"))).
  reflexivity.
Defined.

(** * The HTTP front of the SSE binding *)

(** X16. The request listener answers by path alone: the health document
    with status 200 exactly for [/health], an SSE connection with message
    endpoint [/mcp] exactly for [/mcp] and [/sse], and [404 Not found] for
    every other path (a missing path, [/health/] or [/] included). *)
Theorem http_routes (pathname : option string) :
  (SseHttp.requestListener pathname
   = SseHttp.Respond 200 [("Content-Type", "application/json")]
       (SseHttp.JsonBody (JSON_stringify (VObj [("status", VStr "healthy")]) None))
   <-> pathname = Some "/health")
  /\ (SseHttp.requestListener pathname = SseHttp.ConnectSse "/mcp"
      <-> pathname = Some "/mcp" \/ pathname = Some "/sse")
  /\ (SseHttp.requestListener pathname
      = SseHttp.Respond 404 [] (SseHttp.TextBody "Not found")
      <-> ~ In pathname [Some "/health"; Some "/mcp"; Some "/sse"]).
Proof.
  unfold SseHttp.requestListener, SseHttp.pathIs.
  destruct pathname as [p|].
  - destruct (String.eqb_spec p "/health") as [->|Hh].
    { simpl. repeat split; intros H; try discriminate; try reflexivity.
      - destruct H as [H|H]; discriminate.
      - exfalso. apply H. left. reflexivity. }
    destruct (String.eqb_spec p "/mcp") as [->|Hm].
    { simpl. repeat split; intros H; try discriminate; try reflexivity.
      - left. reflexivity.
      - exfalso. apply H. right. left. reflexivity. }
    destruct (String.eqb_spec p "/sse") as [->|Hs].
    { simpl. repeat split; intros H; try discriminate; try reflexivity.
      - right. reflexivity.
      - exfalso. apply H. right. right. left. reflexivity. }
    simpl. repeat split; intros H; try discriminate; try reflexivity.
    + inversion H. congruence.
    + destruct H as [H|H]; inversion H; congruence.
    + intros [Hin|[Hin|[Hin|[]]]]; inversion Hin; congruence.
  - simpl. repeat split; intros H; try discriminate; try reflexivity.
    + destruct H as [H|H]; discriminate.
    + intros [Hin|[Hin|[Hin|[]]]]; discriminate.
Qed.

(** * The chart's name helpers *)

Lemma substring0_all n s :
  (String.length s <= n)%nat -> String.substring 0 n s = s.
Proof.
  revert s. induction n as [|n IH]; intros [|c s] H; simpl in *;
    try reflexivity; try lia.
  rewrite IH by lia. reflexivity.
Qed.

Lemma substring0_append a b :
  String.substring 0 (String.length a) (a ++ b) = a.
Proof.
  induction a as [|c a IH]; simpl.
  - destruct b; reflexivity.
  - rewrite IH. reflexivity.
Qed.

Lemma substring_append_end a b :
  String.substring (String.length a) (String.length b) (a ++ b) = b.
Proof.
  induction a as [|c a IH]; simpl.
  - apply substring0_all. lia.
  - exact IH.
Qed.

Lemma trimSuffix_length suffix s :
  (String.length (Chart.trimSuffix suffix s) <= String.length s)%nat.
Proof.
  unfold Chart.trimSuffix. destruct (Chart.hasSuffix suffix s); [|lia].
  pose proof (substring0_length (String.length s - String.length suffix) s).
  lia.
Qed.

Lemma trimSuffix_append a suffix :
  Chart.trimSuffix suffix (a ++ suffix) = a.
Proof.
  unfold Chart.trimSuffix, Chart.hasSuffix.
  rewrite string_length_append.
  replace (String.length a + String.length suffix - String.length suffix)%nat
    with (String.length a) by lia.
  rewrite substring_append_end, String.eqb_refl, substring0_append.
  destruct (Nat.leb_spec (String.length suffix)
              (String.length a + String.length suffix)); [reflexivity | lia].
Qed.

Lemma trunc_length n s : (String.length (Chart.trunc n s) <= n)%nat.
Proof. apply substring0_length. Qed.

Lemma trimmed_fits n s :
  (String.length (Chart.trimSuffix "-" (Chart.trunc n s)) <= n)%nat.
Proof.
  pose proof (trimSuffix_length "-" (Chart.trunc n s)).
  pose proof (trunc_length n s). lia.
Qed.

(** X17. Every name the helpers produce under a 63-character cut fits in
    63 characters, whatever the release, the chart and the overrides are:
    [name], [fullname], [chart], the two component full names, and the
    shared service account name when the account is to be created. *)
Theorem chart_names_fit (c : Chart.Context) :
  (String.length (Chart.name c) <= 63)%nat
  /\ (String.length (Chart.fullname c) <= 63)%nat
  /\ (String.length (Chart.chart c) <= 63)%nat
  /\ (String.length (Chart.ingestionWorker_fullname c) <= 63)%nat
  /\ (String.length (Chart.mcpServer_fullname c) <= 63)%nat
  /\ (Chart.create (Chart.serviceAccount (Chart.values c)) = true ->
      (String.length (Chart.serviceAccountName c) <= 63)%nat).
Proof.
  repeat split.
  - apply trimmed_fits.
  - unfold Chart.fullname.
    destruct (negb (String.eqb (Chart.fullnameOverride (Chart.values c)) ""));
      [apply trimmed_fits|].
    cbv zeta. destruct (Chart.contains _ _); apply trimmed_fits.
  - apply trimmed_fits.
  - apply trimmed_fits.
  - apply trimmed_fits.
  - intros Hcreate. unfold Chart.serviceAccountName. rewrite Hcreate.
    apply trimmed_fits.
Qed.

Lemma trunc_append_full a b :
  String.length a = 63%nat -> Chart.trunc 63 (a ++ b) = a.
Proof.
  intros Hlen. unfold Chart.trunc. rewrite <- Hlen. apply substring0_append.
Qed.

(** X18. When the full name already has 63 characters, the component suffix
    is cut off entirely: the ingestion worker and the MCP server get the
    same full name. *)
Theorem component_names_collide (c : Chart.Context) :
  String.length (Chart.fullname c) = 63%nat ->
  Chart.mcpServer_fullname c = Chart.ingestionWorker_fullname c.
Proof.
  intros Hlen. unfold Chart.mcpServer_fullname, Chart.ingestionWorker_fullname.
  rewrite !(trunc_append_full _ _ Hlen). reflexivity.
Qed.

Lemma component_names_collide_witness :
  Chart.mcpServer_fullname
    (release (repeatChar "a" 63) "knowledge-platform" "0.1.0")
  = Chart.ingestionWorker_fullname
      (release (repeatChar "a" 63) "knowledge-platform" "0.1.0").
Proof.
  apply (component_names_collide
           (release (repeatChar "a" 63) "knowledge-platform" "0.1.0")).
  vm_compute. reflexivity.
Defined.

Example component_names_distinct :
  Chart.mcpServer_fullname (release "kp" "knowledge-platform" "0.1.0")
    = "kp-knowledge-platform-mcp-server"
  /\ Chart.ingestionWorker_fullname (release "kp" "knowledge-platform" "0.1.0")
     = "kp-knowledge-platform-ingestion-worker"
  /\ Chart.fullname (release "my-knowledge-platform" "knowledge-platform" "0.1.0")
     = "my-knowledge-platform".
Proof. repeat split. Qed.

(** X19. The per-component service account names of the second helpers
    file are not cut: for an account that is to be created and has no name
    given, the MCP server's account name is the full name followed by
    [-mcp-server] -- 11 characters more than the full name, so longer than
    63 characters as soon as the full name has more than 52. *)
Theorem component_account_name_not_cut (c : Chart.Context) :
  Chart.create (Chart.mcpServer_serviceAccount (Chart.values c)) = true ->
  Chart.sa_name (Chart.mcpServer_serviceAccount (Chart.values c)) = "" ->
  Chart.mcpServer_serviceAccountName c = Chart.fullname c ++ "-mcp-server"
  /\ String.length (Chart.mcpServer_serviceAccountName c)
     = (String.length (Chart.fullname c) + 11)%nat
  /\ ((52 < String.length (Chart.fullname c))%nat ->
      (63 < String.length (Chart.mcpServer_serviceAccountName c))%nat).
Proof.
  intros Hcreate Hname.
  assert (Heq : Chart.mcpServer_serviceAccountName c
                = Chart.fullname c ++ "-mcp-server").
  { unfold Chart.mcpServer_serviceAccountName, Chart.default.
    rewrite Hcreate, Hname. reflexivity. }
  rewrite Heq, string_length_append. simpl. repeat split. lia.
Qed.

Lemma component_account_name_not_cut_witness :
  Chart.mcpServer_serviceAccountName
    (release (repeatChar "a" 63) "knowledge-platform" "0.1.0")
  = Chart.fullname (release (repeatChar "a" 63) "knowledge-platform" "0.1.0")
    ++ "-mcp-server"
  /\ String.length
       (Chart.mcpServer_serviceAccountName
          (release (repeatChar "a" 63) "knowledge-platform" "0.1.0"))
     = (String.length
          (Chart.fullname (release (repeatChar "a" 63) "knowledge-platform" "0.1.0"))
        + 11)%nat
  /\ ((52 < String.length
              (Chart.fullname
                 (release (repeatChar "a" 63) "knowledge-platform" "0.1.0")))%nat ->
      (63 < String.length
              (Chart.mcpServer_serviceAccountName
                 (release (repeatChar "a" 63) "knowledge-platform" "0.1.0")))%nat).
Proof.
  apply (component_account_name_not_cut
           (release (repeatChar "a" 63) "knowledge-platform" "0.1.0"));
    reflexivity.
Defined.

Lemma chars_append a b : chars (a ++ b) = (chars a ++ chars b)%list.
Proof. induction a as [|c a IH]; simpl; [reflexivity | rewrite IH; reflexivity]. Qed.

Lemma chars_substring0 n s x :
  In x (chars (String.substring 0 n s)) -> In x (chars s).
Proof.
  revert s. induction n as [|n IH]; intros [|c s]; simpl; try tauto.
  intros [H|H]; [left; assumption | right; apply IH; assumption].
Qed.

Lemma chars_trimSuffix suffix s x :
  In x (chars (Chart.trimSuffix suffix s)) -> In x (chars s).
Proof.
  unfold Chart.trimSuffix. destruct (Chart.hasSuffix suffix s); [|tauto].
  apply chars_substring0.
Qed.

Lemma chars_replace old new s x :
  In x (chars (Chart.replace old new s)) ->
  In x (chars new) \/ (x <> old /\ In x (chars s)).
Proof.
  induction s as [|c s IH]; simpl; [tauto|].
  destruct (Ascii.eqb_spec c old) as [->|Hne].
  - rewrite chars_append, in_app_iff. intros [H|H]; [left; assumption|].
    destruct (IH H) as [H'|[H1 H2]]; [left | right]; auto.
  - simpl. intros [<-|H]; [right; auto|].
    destruct (IH H) as [H'|[H1 H2]]; [left | right]; auto.
Qed.

(** X20. The chart label never contains a [+], whatever the chart's name
    and version are: each one is replaced by [_] before the cut. *)
Theorem chart_label_has_no_plus (c : Chart.Context) :
  ~ In "+"%char (chars (Chart.chart c)).
Proof.
  unfold Chart.chart, Chart.trunc. intros Hin.
  apply chars_trimSuffix, chars_substring0, chars_replace in Hin.
  destruct Hin as [Hin|[Hne _]].
  - simpl in Hin. destruct Hin as [H|[]]. discriminate.
  - apply Hne. reflexivity.
Qed.

Example chart_label_semver :
  Chart.chart (release "kp" "knowledge-platform" "0.1.0+build.7")
  = "knowledge-platform-0.1.0_build.7".
Proof. reflexivity. Qed.

(** X21. Only one trailing [-] is removed: a full-name override that ends
    in two of them (and fits in 63 characters) gives a full name that still
    ends in [-]. *)
Theorem fullname_keeps_second_dash (c : Chart.Context) (s : string) :
  Chart.fullnameOverride (Chart.values c) = s ++ "--" ->
  (String.length s <= 61)%nat ->
  Chart.fullname c = s ++ "-".
Proof.
  intros Hov Hlen. unfold Chart.fullname. rewrite Hov.
  assert (Hne : String.eqb (s ++ "--") "" = false).
  { apply String.eqb_neq. intros H. apply (f_equal String.length) in H.
    rewrite string_length_append in H. simpl in H. lia. }
  rewrite Hne. cbn [negb]. unfold Chart.trunc.
  rewrite substring0_all
    by (rewrite string_length_append; simpl; lia).
  replace (s ++ "--") with ((s ++ "-") ++ "-")
    by (rewrite string_append_assoc; reflexivity).
  apply trimSuffix_append.
Qed.

Lemma fullname_keeps_second_dash_witness :
  Chart.fullname
    (Chart.mkContext "knowledge-platform" "0.1.0" "kp"
       (Chart.mkValues "" "docs--"
          (Chart.mkServiceAccount true "")
          (Chart.mkServiceAccount true "")
          (Chart.mkServiceAccount true "")))
  = "docs" ++ "-".
Proof.
  apply (fullname_keeps_second_dash
           (Chart.mkContext "knowledge-platform" "0.1.0" "kp"
              (Chart.mkValues "" "docs--"
                 (Chart.mkServiceAccount true "")
                 (Chart.mkServiceAccount true "")
                 (Chart.mkServiceAccount true "")))
           "docs").
  - reflexivity.
  - simpl. lia.
Defined.

(** * Identifiers in filters *)

Lemma pathEquals_smuggle p1 p2 :
  pathEquals (smuggle "path" p1 p2)
  = render (FOr (FEq "path" p1) (FEq "path" p2)).
Proof.
  unfold pathEquals, smuggle. cbn [render].
  repeat rewrite ?string_append_assoc; cbn [append]. reflexivity.
Qed.

Lemma documentId_smuggle d1 d2 :
  "document_id = " ++ dq ++ smuggle "document_id" d1 d2 ++ dq
  = render (FOr (FEq "document_id" d1) (FEq "document_id" d2)).
Proof.
  unfold smuggle. cbn [render].
  repeat rewrite ?string_append_assoc; cbn [append]. reflexivity.
Qed.

Lemma smuggle_not_empty attribute t1 t2 :
  String.eqb (smuggle attribute t1 t2) "" = false.
Proof.
  apply String.eqb_neq. intros H. apply (f_equal String.length) in H.
  unfold smuggle in H. rewrite string_length_append in H. simpl in H. lia.
Qed.

(** X22. Identifiers are put into filters without escaping. When the lookup
    by identifier fails, a [get_document] for the identifier
    [p1" OR path = "p2] searches with the disjunction of two path
    equalities; a chunk search for the [document_id]
    [d1" OR document_id = "d2] is filtered by the disjunction of two
    document equalities, not by one exact equality. *)
Theorem identifiers_not_escaped
  (cfg : Config) (be : Backend) (e : JsError) (p1 p2 d1 d2 : string)
  (q : option string) (l : option Z) :
  be_getDocument be (indexName cfg) (Some (smuggle "path" p1 p2)) = inl e ->
  callsOf (run (Stdio.handleGetDocument cfg
                  (Some (withId (smuggle "path" p1 p2)))) be)
  = [CGetDocument (indexName cfg) (Some (smuggle "path" p1 p2));
     CSearch (indexName cfg) (Some "")
       (mkParams (Some 1) None None None None
          (Some (render (FOr (FEq "path" p1) (FEq "path" p2)))) None)]
  /\ exists p,
       callsOf (run (Stdio.handleSearchChunks cfg
                       (Some (mkArgs q l None
                                (Some (smuggle "document_id" d1 d2)) None None)))
                  be)
       = [CSearch (chunksIndexName cfg) q p]
       /\ sp_filter p
          = Some (render (FOr (FEq "document_id" d1) (FEq "document_id" d2))).
Proof.
  intros Hget. unfold callsOf, run. split.
  - unfold Stdio.handleGetDocument.
    rewrite bind_run, lift_run. cbn [destructure withId arg_id]. cbv zeta.
    unfold try_catch. rewrite getDocument_run, Hget.
    rewrite bind_run, search_run. unfold Stdio.pathParams, tpl.
    fold (pathEquals (smuggle "path" p1 p2)). rewrite pathEquals_smuggle.
    destruct (be_search be _ _ _) as [e'|r]; [reflexivity|].
    destruct (0 <? Z.of_nat (length (hits r))); reflexivity.
  - rewrite stdio_searchChunks_call. cbn [app arg_query]. eexists.
    split; [reflexivity|].
    cbn [Stdio.searchChunksParams sp_filter arg_document_id js_string truthy tpl].
    rewrite smuggle_not_empty. cbn [negb]. rewrite documentId_smuggle.
    reflexivity.
Qed.

Lemma identifiers_not_escaped_witness :
  callsOf (run (Stdio.handleGetDocument (config None)
                  (Some (withId (smuggle "path" "a.md" "b.md"))))
             (corpus [hitBoth]))
  = [CGetDocument (indexName (config None)) (Some (smuggle "path" "a.md" "b.md"));
     CSearch (indexName (config None)) (Some "")
       (mkParams (Some 1) None None None None
          (Some (render (FOr (FEq "path" "a.md") (FEq "path" "b.md")))) None)]
  /\ exists p,
       callsOf (run (Stdio.handleSearchChunks (config None)
                       (Some (mkArgs (Some "redis") None None
                                (Some (smuggle "document_id" "d1" "d2")) None None)))
                  (corpus [hitBoth]))
       = [CSearch (chunksIndexName (config None)) (Some "redis") p]
       /\ sp_filter p
          = Some (render (FOr (FEq "document_id" "d1") (FEq "document_id" "d2"))).
Proof.
  apply (identifiers_not_escaped (config None) (corpus [hitBoth])
           (mkError KDocumentNotFound
              ("Document `" ++ smuggle "path" "a.md" "b.md" ++ "` not found."))
           "a.md" "b.md" "d1" "d2" (Some "redis") None).
  reflexivity.
Defined.
